(** * lit-monitor-pi: the ingestion, de-duplication and ranking core

    A shallow embedding of the parts of the literature monitor that its
    design document makes promises about:

    - [src/sources/pubmed.py]    the [Paper] record,
    - [src/config_loader.py]     [Config.get_journal_weight],
    - [src/database.py]          the [papers] table and its operations,
    - [src/ranker.py]            [PaperRanker.rank_paper] after the oracle call,
    - [src/feedback.py]          [_select_examples],
    - [src/sources/biorxiv.py]   [BioRxivClient._matches_query].

    Conventions.  A Python [str] is a list of code points; the embedding
    covers code points below 256, one [ascii] each.  A Python [float] and an
    SQLite REAL are IEEE binary64 numbers, taken from the Standard Library's
    [SpecFloat] with precision 53 and maximal exponent 1024.  [None] and SQL
    NULL are [None].  Reads of the wall clock ([datetime.now().isoformat()],
    SQL [CURRENT_TIMESTAMP]) are arguments of the operation that reads
    them. *)

From Stdlib Require Import ZArith NArith List Bool Lia String Ascii.
From Stdlib Require Import Sorting.Sorted Sorting.Permutation.
From Stdlib Require Import Floats.SpecFloat.
Import ListNotations.

Set Warnings "-notation-for-abbreviation,-register-all".

Open Scope string_scope.
Open Scope list_scope.

(* ================================================================= *)
(** ** Python exceptions and results *)

Inductive exn : Type :=
| IntegrityError   (* sqlite3: PRIMARY KEY violated *)
| IndexError
| AttributeError
| TypeError
| ValueError
| OverflowError.

Inductive result (A : Type) : Type :=
| Ok (a : A)
| Raised (e : exn).

Arguments Ok {A} a.
Arguments Raised {A} e.

(* ================================================================= *)
(** ** A stable sort

    [order_by before l] sorts [l] so that [x] stands before [y] only when
    [before x y]; elements that may stand either way keep the order they
    have in [l].  On keys without NaN this is what SQLite's [ORDER BY] and
    Python's [sorted] compute (the first leaves the order of ties open, the
    second is stable). *)

Fixpoint insert_sorted {A : Type} (before : A -> A -> bool) (x : A) (l : list A)
  : list A :=
  match l with
  | [] => [x]
  | y :: l' => if before x y then x :: l else y :: insert_sorted before x l'
  end.

Definition order_by {A : Type} (before : A -> A -> bool) (l : list A) : list A :=
  fold_right (insert_sorted before) [] l.

(* ================================================================= *)
(** ** Text: the [str] methods the sources call *)

Module Text.

Definition str : Type := list ascii.

Definition lit (s : string) : str := list_ascii_of_string s.

Definition code (c : ascii) : N := N_of_ascii c.

(** [bool(s)]: a string is truthy when it is not empty. *)
Definition truthy (s : str) : bool :=
  match s with
  | [] => false
  | _ :: _ => true
  end.

Fixpoint eqb (a b : str) : bool :=
  match a, b with
  | [], [] => true
  | x :: a', y :: b' => Ascii.eqb x y && eqb a' b'
  | _, _ => false
  end.

(** Lexicographic order on code points: Python's [<=] on [str] and SQLite's
    BINARY collation on TEXT agree with it. *)
Fixpoint leb (a b : str) : bool :=
  match a, b with
  | [], _ => true
  | _ :: _, [] => false
  | x :: a', y :: b' =>
      if (code x <? code y)%N then true
      else if (code y <? code x)%N then false
      else leb a' b'
  end.

(** [c.isspace()] for a code point below 256. *)
Definition isspace (c : ascii) : bool :=
  let n := code c in
  ((9 <=? n) && (n <=? 13) || (28 <=? n) && (n <=? 32)
   || (n =? 133) || (n =? 160))%N.

(** [c.lower()] for a code point below 256: A-Z and the Latin-1 capitals
    (all of U+00C0..U+00DE but the multiplication sign) move up by 32. *)
Definition lower_char (c : ascii) : ascii :=
  let n := code c in
  if ((65 <=? n) && (n <=? 90)
      || (192 <=? n) && (n <=? 222) && negb (n =? 215))%N
  then ascii_of_N (n + 32)
  else c.

Definition lower (s : str) : str := map lower_char s.

(** [s.startswith(prefix)] *)
Fixpoint startswith (prefix s : str) : bool :=
  match prefix, s with
  | [], _ => true
  | _ :: _, [] => false
  | x :: p', y :: s' => Ascii.eqb x y && startswith p' s'
  end.

(** [needle in hay] *)
Fixpoint contains (needle hay : str) : bool :=
  startswith needle hay ||
  match hay with
  | [] => false
  | _ :: hay' => contains needle hay'
  end.

Fixpoint lstrip (s : str) : str :=
  match s with
  | [] => []
  | c :: t => if isspace c then lstrip t else s
  end.

Definition rstrip (s : str) : str := rev (lstrip (rev s)).

(** [s.strip()] *)
Definition strip (s : str) : str := rstrip (lstrip s).

Definition flush (cur : str) : list str :=
  match cur with
  | [] => []
  | _ :: _ => [cur]
  end.

(** [s.split()] without a separator: the maximal runs of characters that
    are not white space.  [cur] is the run being read. *)
Fixpoint split_ws (cur s : str) : list str :=
  match s with
  | [] => flush cur
  | c :: t =>
      if isspace c then flush cur ++ split_ws [] t
      else split_ws (cur ++ [c]) t
  end.

Definition split (s : str) : list str := split_ws [] s.

(** [s.split(sep)] for a separator that is not empty: the pieces between
    the occurrences of [sep], found from the left without overlap.  [cur]
    is the piece being read and [skip] counts the characters of a separator
    still to be passed over. *)
Fixpoint split_on (sep cur s : str) (skip : nat) : list str :=
  match s with
  | [] => [cur]
  | c :: t =>
      match skip with
      | S k => split_on sep cur t k
      | O =>
          if startswith sep s
          then cur :: split_on sep [] t (List.length sep - 1)
          else split_on sep (cur ++ [c]) t 0
      end
  end.

Definition split_sep (s sep : str) : list str := split_on sep [] s 0.

(** [l[i]] *)
Definition index {A : Type} (l : list A) (i : nat) : result A :=
  match nth_error l i with
  | Some x => Ok x
  | None => Raised IndexError
  end.

End Text.

Notation str := Text.str.
Coercion Text.lit : string >-> Text.str.

(* ================================================================= *)
(** ** Floats: binary64 *)

Module Float.

Definition float : Type := spec_float.

Definition prec : Z := 53.
Definition emax : Z := 1024.

Definition zero : float := S754_zero false.
Definition one : float := S754_finite false 4503599627370496 (-52).
Definition half : float := S754_finite false 4503599627370496 (-53).

Definition mul (x y : float) : float := SFmul prec emax x y.
Definition sub (x y : float) : float := SFsub prec emax x y.

Definition ltb (x y : float) : bool := SFltb x y.
Definition leb (x y : float) : bool := SFleb x y.

Definition is_nan (x : float) : bool :=
  match x with
  | S754_nan => true
  | _ => false
  end.

(** [bool(x)]: a float is falsy exactly when it compares equal to zero. *)
Definition truthy (x : float) : bool :=
  match x with
  | S754_zero _ => false
  | _ => true
  end.

(** The builtin [min(a, b)]: [b] when [b < a], otherwise [a]. *)
Definition min (a b : float) : float := if ltb b a then b else a.

(** [float(n)] for an [int]: the nearest binary64 number, [OverflowError]
    beyond the finite range. *)
Definition of_int (n : Z) : result float :=
  match binary_normalize prec emax n 0 false with
  | S754_infinity _ => Raised OverflowError
  | x => Ok x
  end.

End Float.

Notation float := Float.float.

(* ================================================================= *)
(** ** [src/sources/pubmed.py]: the paper record *)

Module Pubmed.

(** [@dataclass class Paper].  The last four fields are the attributes
    that [PaperDatabase._row_to_paper] attaches to the papers it builds;
    a paper that did not come out of the store has them unset. *)
Record Paper : Type := {
  id : str;
  source : str;
  title : str;
  authors : list str;
  journal : str;
  pub_date : str;
  abstract : str;
  url : str;
  full_text_url : option str;
  is_open_access : bool;
  doi : option str;
  summary : option str;
  relevance_score : option float;
  ranking_rationale : option str;
  matched_projects : list str;
  _user_feedback : option str;
  _feedback_date : option str;
  _is_seed : bool;
  _seed_source : option str
}.

End Pubmed.

Notation Paper := Pubmed.Paper.

(* ================================================================= *)
(** ** [src/config_loader.py]: journal weights *)

Module ConfigLoader.

(** [@dataclass class JournalTier] *)
Record JournalTier : Type := {
  weight : float;
  journals : list str
}.

(** [@dataclass class Config], the field the ranker reads.  A [dict] keeps
    its keys in insertion order, so [journal_weights] is the list of its
    items in that order. *)
Record Config : Type := {
  journal_weights : list (str * JournalTier)
}.

(** [journal_name in tier.journals] *)
Definition mem (x : str) (l : list str) : bool := existsb (Text.eqb x) l.

(** [Config.get_journal_weight]: the weight of the first tier that lists
    the journal, 1.0 when none does. *)
Fixpoint first_weight (tiers : list JournalTier) (journal_name : str) : float :=
  match tiers with
  | [] => Float.one
  | tier :: rest =>
      if mem journal_name tier.(journals) then tier.(weight)
      else first_weight rest journal_name
  end.

Definition get_journal_weight (self : Config) (journal_name : str) : float :=
  first_weight (map snd self.(journal_weights)) journal_name.

End ConfigLoader.

(* ================================================================= *)
(** ** [src/database.py]: the [papers] table *)

Module Database.

(** One row of [papers], a field per column of [_init_schema] and of its
    migrations.  [authors] and [matched_projects] hold the JSON array that
    [json.dumps] writes for a list of strings, kept as that list. *)
Record row : Type := {
  id : str;
  source : str;
  title : str;
  authors : list str;
  journal : str;
  pub_date : str;
  abstract : str;
  url : str;
  full_text_url : option str;
  is_open_access : bool;
  doi : option str;
  summary : option str;
  relevance_score : option float;
  ranking_rationale : option str;
  matched_projects : option (list str);
  first_seen_date : str;
  added_to_zotero : bool;
  user_read : bool;
  created_at : str;
  updated_at : str;
  user_feedback : option str;
  feedback_date : option str;
  is_seed : option bool;
  seed_source : option str;
  last_digest_date : option str
}.

(** The table, oldest row first. *)
Definition table : Type := list row.

(** A method of [PaperDatabase] reads and writes the table and returns a
    value or raises. *)
Definition DB (A : Type) : Type := table -> result A * table.

Definition ret {A : Type} (a : A) : DB A := fun t => (Ok a, t).

Definition bind {A B : Type} (m : DB A) (k : A -> DB B) : DB B :=
  fun t =>
    match m t with
    | (Ok a, t') => k a t'
    | (Raised e, t') => (Raised e, t')
    end.

Notation "x <- m ;; k" := (bind m (fun x => k))
  (at level 61, m at next level, right associativity).
Notation "m ;;; k" := (bind m (fun _ => k))
  (at level 61, right associativity).

(** *** SQL statements *)

(** [SELECT * FROM papers WHERE cond] *)
Definition select (cond : row -> bool) : DB (list row) :=
  fun t => (Ok (filter cond t), t).

(** [INSERT INTO papers ...]: [id] is the primary key. *)
Definition insert (r : row) : DB unit :=
  fun t =>
    if existsb (fun r' => Text.eqb r'.(id) r.(id)) t
    then (Raised IntegrityError, t)
    else (Ok tt, t ++ [r]).

(** [UPDATE papers SET ... WHERE cond] *)
Definition update (cond : row -> bool) (set : row -> row) : DB unit :=
  fun t => (Ok tt, map (fun r => if cond r then set r else r) t).

(** A float bound to a statement: SQLite stores NaN as NULL. *)
Definition sql_real (x : option float) : option float :=
  match x with
  | Some v => if Float.is_nan v then None else Some v
  | None => None
  end.

(** [column = ?] on TEXT; a NULL column matches nothing. *)
Definition sql_text_eq (col : option str) (param : str) : bool :=
  match col with
  | Some v => Text.eqb v param
  | None => false
  end.

(** [relevance_score >= ?]; NULL on either side matches nothing. *)
Definition sql_real_ge (col : option float) (param : float) : bool :=
  match col, sql_real (Some param) with
  | Some v, Some p => Float.leb p v
  | _, _ => false
  end.

Definition is_null {A : Type} (col : option A) : bool :=
  match col with
  | Some _ => false
  | None => true
  end.

(** [ORDER BY relevance_score DESC NULLS LAST]: may [a] stand before [b]? *)
Definition score_desc_nulls_last (a b : option float) : bool :=
  match a, b with
  | Some x, Some y => Float.leb y x
  | Some _, None => true
  | None, Some _ => false
  | None, None => true
  end.

(** [LIMIT ?]: a negative limit is no limit. *)
Definition sql_limit {A : Type} (n : Z) (l : list A) : list A :=
  if (n <? 0)%Z then l else firstn (Z.to_nat n) l.

(** *** Rows and papers *)

(** The values [insert_paper] binds, with the column defaults of the
    schema for the columns it does not name. *)
Definition new_row (paper : Paper) (now ts : str) : row := {|
  id := Pubmed.id paper;
  source := Pubmed.source paper;
  title := Pubmed.title paper;
  authors := Pubmed.authors paper;
  journal := Pubmed.journal paper;
  pub_date := Pubmed.pub_date paper;
  abstract := Pubmed.abstract paper;
  url := Pubmed.url paper;
  full_text_url := Pubmed.full_text_url paper;
  is_open_access := Pubmed.is_open_access paper;
  doi := Pubmed.doi paper;
  summary := Pubmed.summary paper;
  relevance_score := sql_real (Pubmed.relevance_score paper);
  ranking_rationale := Pubmed.ranking_rationale paper;
  matched_projects :=
    match Pubmed.matched_projects paper with
    | [] => None
    | projects => Some projects
    end;
  first_seen_date := now;
  added_to_zotero := false;
  user_read := false;
  created_at := ts;
  updated_at := ts;
  user_feedback := None;
  feedback_date := None;
  is_seed := Some false;
  seed_source := None;
  last_digest_date := None
|}.

(** The values [insert_seed_paper] binds; [now] and [now'] are its two
    reads of the clock. *)
Definition new_seed_row (paper : Paper) (seed_src now now' ts : str) : row := {|
  id := Pubmed.id paper;
  source := Pubmed.source paper;
  title := Pubmed.title paper;
  authors := Pubmed.authors paper;
  journal := Pubmed.journal paper;
  pub_date := Pubmed.pub_date paper;
  abstract := Pubmed.abstract paper;
  url := Pubmed.url paper;
  full_text_url := Pubmed.full_text_url paper;
  is_open_access := Pubmed.is_open_access paper;
  doi := Pubmed.doi paper;
  summary := Pubmed.summary paper;
  relevance_score := sql_real (Pubmed.relevance_score paper);
  ranking_rationale := Pubmed.ranking_rationale paper;
  matched_projects :=
    match Pubmed.matched_projects paper with
    | [] => None
    | projects => Some projects
    end;
  first_seen_date := now;
  added_to_zotero := false;
  user_read := false;
  created_at := ts;
  updated_at := ts;
  user_feedback := Some (Text.lit "star");
  feedback_date := Some now';
  is_seed := Some true;
  seed_source := Some seed_src;
  last_digest_date := None
|}.

(** [bool(...)] of a BOOLEAN column, as [_row_to_paper] reads [is_seed]. *)
Definition sql_bool (col : option bool) : bool :=
  match col with
  | Some b => b
  | None => false
  end.

(** [PaperDatabase._row_to_paper] *)
Definition _row_to_paper (r : row) : Paper := {|
  Pubmed.id := r.(id);
  Pubmed.source := r.(source);
  Pubmed.title := r.(title);
  Pubmed.authors := r.(authors);
  Pubmed.journal := r.(journal);
  Pubmed.pub_date := r.(pub_date);
  Pubmed.abstract := r.(abstract);
  Pubmed.url := r.(url);
  Pubmed.full_text_url := r.(full_text_url);
  Pubmed.is_open_access := r.(is_open_access);
  Pubmed.doi := r.(doi);
  Pubmed.summary := r.(summary);
  Pubmed.relevance_score := r.(relevance_score);
  Pubmed.ranking_rationale := r.(ranking_rationale);
  Pubmed.matched_projects :=
    match r.(matched_projects) with
    | Some projects => projects
    | None => []
    end;
  Pubmed._user_feedback := r.(user_feedback);
  Pubmed._feedback_date := r.(feedback_date);
  Pubmed._is_seed := sql_bool r.(is_seed);
  Pubmed._seed_source := r.(seed_source)
|}.

(** *** The [SET] clauses of the [UPDATE] statements *)

(** [SET summary, relevance_score, ranking_rationale, matched_projects, updated_at] *)
Definition set_ranking (summary' : str) (score : float) (rationale : str)
  (projects : list str) (ts : str) (r : row) : row := {|
  id := r.(id);
  source := r.(source);
  title := r.(title);
  authors := r.(authors);
  journal := r.(journal);
  pub_date := r.(pub_date);
  abstract := r.(abstract);
  url := r.(url);
  full_text_url := r.(full_text_url);
  is_open_access := r.(is_open_access);
  doi := r.(doi);
  summary := Some summary';
  relevance_score := sql_real (Some score);
  ranking_rationale := Some rationale;
  matched_projects := Some projects;
  first_seen_date := r.(first_seen_date);
  added_to_zotero := r.(added_to_zotero);
  user_read := r.(user_read);
  created_at := r.(created_at);
  updated_at := ts;
  user_feedback := r.(user_feedback);
  feedback_date := r.(feedback_date);
  is_seed := r.(is_seed);
  seed_source := r.(seed_source);
  last_digest_date := r.(last_digest_date)
|}.

(** [SET user_read = TRUE] *)
Definition set_user_read (r : row) : row := {|
  id := r.(id);
  source := r.(source);
  title := r.(title);
  authors := r.(authors);
  journal := r.(journal);
  pub_date := r.(pub_date);
  abstract := r.(abstract);
  url := r.(url);
  full_text_url := r.(full_text_url);
  is_open_access := r.(is_open_access);
  doi := r.(doi);
  summary := r.(summary);
  relevance_score := r.(relevance_score);
  ranking_rationale := r.(ranking_rationale);
  matched_projects := r.(matched_projects);
  first_seen_date := r.(first_seen_date);
  added_to_zotero := r.(added_to_zotero);
  user_read := true;
  created_at := r.(created_at);
  updated_at := r.(updated_at);
  user_feedback := r.(user_feedback);
  feedback_date := r.(feedback_date);
  is_seed := r.(is_seed);
  seed_source := r.(seed_source);
  last_digest_date := r.(last_digest_date)
|}.

(** [SET added_to_zotero = TRUE] *)
Definition set_added_to_zotero (r : row) : row := {|
  id := r.(id);
  source := r.(source);
  title := r.(title);
  authors := r.(authors);
  journal := r.(journal);
  pub_date := r.(pub_date);
  abstract := r.(abstract);
  url := r.(url);
  full_text_url := r.(full_text_url);
  is_open_access := r.(is_open_access);
  doi := r.(doi);
  summary := r.(summary);
  relevance_score := r.(relevance_score);
  ranking_rationale := r.(ranking_rationale);
  matched_projects := r.(matched_projects);
  first_seen_date := r.(first_seen_date);
  added_to_zotero := true;
  user_read := r.(user_read);
  created_at := r.(created_at);
  updated_at := r.(updated_at);
  user_feedback := r.(user_feedback);
  feedback_date := r.(feedback_date);
  is_seed := r.(is_seed);
  seed_source := r.(seed_source);
  last_digest_date := r.(last_digest_date)
|}.

(** [SET last_digest_date = ?] *)
Definition set_last_digest_date (now : str) (r : row) : row := {|
  id := r.(id);
  source := r.(source);
  title := r.(title);
  authors := r.(authors);
  journal := r.(journal);
  pub_date := r.(pub_date);
  abstract := r.(abstract);
  url := r.(url);
  full_text_url := r.(full_text_url);
  is_open_access := r.(is_open_access);
  doi := r.(doi);
  summary := r.(summary);
  relevance_score := r.(relevance_score);
  ranking_rationale := r.(ranking_rationale);
  matched_projects := r.(matched_projects);
  first_seen_date := r.(first_seen_date);
  added_to_zotero := r.(added_to_zotero);
  user_read := r.(user_read);
  created_at := r.(created_at);
  updated_at := r.(updated_at);
  user_feedback := r.(user_feedback);
  feedback_date := r.(feedback_date);
  is_seed := r.(is_seed);
  seed_source := r.(seed_source);
  last_digest_date := Some now
|}.

(** [SET user_feedback, feedback_date, updated_at] *)
Definition set_user_feedback (feedback date : option str) (ts : str) (r : row) : row := {|
  id := r.(id);
  source := r.(source);
  title := r.(title);
  authors := r.(authors);
  journal := r.(journal);
  pub_date := r.(pub_date);
  abstract := r.(abstract);
  url := r.(url);
  full_text_url := r.(full_text_url);
  is_open_access := r.(is_open_access);
  doi := r.(doi);
  summary := r.(summary);
  relevance_score := r.(relevance_score);
  ranking_rationale := r.(ranking_rationale);
  matched_projects := r.(matched_projects);
  first_seen_date := r.(first_seen_date);
  added_to_zotero := r.(added_to_zotero);
  user_read := r.(user_read);
  created_at := r.(created_at);
  updated_at := ts;
  user_feedback := feedback;
  feedback_date := date;
  is_seed := r.(is_seed);
  seed_source := r.(seed_source);
  last_digest_date := r.(last_digest_date)
|}.

(** [SET is_seed = TRUE, seed_source, user_feedback = 'star', feedback_date,
    updated_at] *)
Definition set_seed (seed_src now ts : str) (r : row) : row := {|
  id := r.(id);
  source := r.(source);
  title := r.(title);
  authors := r.(authors);
  journal := r.(journal);
  pub_date := r.(pub_date);
  abstract := r.(abstract);
  url := r.(url);
  full_text_url := r.(full_text_url);
  is_open_access := r.(is_open_access);
  doi := r.(doi);
  summary := r.(summary);
  relevance_score := r.(relevance_score);
  ranking_rationale := r.(ranking_rationale);
  matched_projects := r.(matched_projects);
  first_seen_date := r.(first_seen_date);
  added_to_zotero := r.(added_to_zotero);
  user_read := r.(user_read);
  created_at := r.(created_at);
  updated_at := ts;
  user_feedback := Some (Text.lit "star");
  feedback_date := Some now;
  is_seed := Some true;
  seed_source := Some seed_src;
  last_digest_date := r.(last_digest_date)
|}.

(** *** The methods of [PaperDatabase] *)

Definition has_id (paper_id : str) (r : row) : bool := Text.eqb r.(id) paper_id.

(** [cursor.fetchone() is not None] *)
Definition fetched {A : Type} (rows : list A) : bool :=
  match rows with
  | [] => false
  | _ :: _ => true
  end.

Definition paper_exists (paper_id : str) : DB bool :=
  rows <- select (has_id paper_id) ;;
  ret (fetched rows).

(** [WHERE doi = ? AND doi IS NOT NULL] *)
Definition carries_doi (d : str) (r : row) : bool :=
  sql_text_eq r.(doi) d && negb (is_null r.(doi)).

Definition doi_exists (doi' : str) : DB bool :=
  if negb (Text.truthy doi') then ret false
  else
    rows <- select (carries_doi doi') ;;
    ret (fetched rows).

(** [paper.doi and self.doi_exists(paper.doi)] *)
Definition doi_duplicate (paper : Paper) : DB bool :=
  match Pubmed.doi paper with
  | None => ret false
  | Some d => if Text.truthy d then doi_exists d else ret false
  end.

(** [insert_paper]: [now] is [datetime.now().isoformat()], [ts] the
    [CURRENT_TIMESTAMP] that fills [created_at] and [updated_at]. *)
Definition insert_paper (paper : Paper) (now ts : str) : DB bool :=
  known <- paper_exists (Pubmed.id paper) ;;
  if known then ret false
  else
    dup <- doi_duplicate paper ;;
    if dup then ret false
    else
      insert (new_row paper now ts) ;;;
      ret true.

Definition update_paper_ranking (paper_id summary' : str) (score : float)
  (rationale : str) (projects : list str) (ts : str) : DB unit :=
  update (has_id paper_id) (set_ranking summary' score rationale projects ts).

Definition get_paper (paper_id : str) : DB (option Paper) :=
  rows <- select (has_id paper_id) ;;
  ret match rows with
      | r :: _ => Some (_row_to_paper r)
      | [] => None
      end.

Definition get_unranked_papers : DB (list Paper) :=
  rows <- select (fun r => is_null r.(relevance_score)) ;;
  ret (map _row_to_paper rows).

(** The optional [AND relevance_score >= ?] *)
Definition min_score_ok (min_score : option float) (r : row) : bool :=
  match min_score with
  | Some m => sql_real_ge r.(relevance_score) m
  | None => true
  end.

Definition by_score (r r' : row) : bool :=
  score_desc_nulls_last r.(relevance_score) r'.(relevance_score).

(** [if limit:] guards the [LIMIT ?] clause: [None] and [0] add no limit. *)
Definition limited {A : Type} (limit : option Z) (l : list A) : list A :=
  match limit with
  | None => l
  | Some n => if (n =? 0)%Z then l else sql_limit n l
  end.

(** The rows [get_papers_since] selects, in the order it returns them. *)
Definition rows_since (since_date : str) (min_score : option float)
  (limit : option Z) (t : table) : list row :=
  limited limit
    (order_by by_score
       (filter (fun r => Text.leb since_date r.(first_seen_date)
                         && min_score_ok min_score r) t)).

Definition get_papers_since (since_date : str) (min_score : option float)
  (limit : option Z) : DB (list Paper) :=
  fun t => (Ok (map _row_to_paper (rows_since since_date min_score limit t)), t).

(** [WHERE first_seen_date >= ? AND last_digest_date IS NULL
     AND (is_seed IS NULL OR is_seed = FALSE)] and the optional score bound *)
Definition digest_cond (since : str) (min_score : option float) (r : row) : bool :=
  Text.leb since r.(first_seen_date)
  && is_null r.(last_digest_date)
  && (is_null r.(is_seed) || negb (sql_bool r.(is_seed)))
  && min_score_ok min_score r.

(** The rows [get_papers_for_digest] selects.  [since] is the time stamp
    the method computes, [days] before its reading of the clock. *)
Definition rows_for_digest (since : str) (min_score : option float) (t : table)
  : list row :=
  order_by by_score (filter (digest_cond since min_score) t).

Definition get_papers_for_digest (since : str) (min_score : option float)
  : DB (list Paper) :=
  fun t => (Ok (map _row_to_paper (rows_for_digest since min_score t)), t).

Definition mark_as_read (paper_id : str) : DB unit :=
  update (has_id paper_id) set_user_read.

Definition mark_added_to_zotero (paper_id : str) : DB unit :=
  update (has_id paper_id) set_added_to_zotero.

Fixpoint mark_each (paper_ids : list str) (now : str) : DB unit :=
  match paper_ids with
  | [] => ret tt
  | paper_id :: rest =>
      update (has_id paper_id) (set_last_digest_date now) ;;;
      mark_each rest now
  end.

Definition mark_papers_digested (paper_ids : list str) (now : str) : DB unit :=
  match paper_ids with
  | [] => ret tt
  | _ :: _ => mark_each paper_ids now
  end.

(** [bool(feedback)] for [feedback : Optional[str]] *)
Definition some_truthy (x : option str) : bool :=
  match x with
  | Some s => Text.truthy s
  | None => false
  end.

Definition set_feedback (paper_id : str) (feedback : option str) (now ts : str)
  : DB unit :=
  update (has_id paper_id)
    (set_user_feedback feedback
       (if some_truthy feedback then Some now else None) ts).

(** [insert_seed_paper]: [now] and [now'] are the reads of the clock, in
    the order of the statement's parameters. *)
Definition insert_seed_paper (paper : Paper) (seed_src now now' ts : str)
  : DB bool :=
  known <- paper_exists (Pubmed.id paper) ;;
  if known then
    update (has_id (Pubmed.id paper)) (set_seed seed_src now ts) ;;;
    ret false
  else
    insert (new_seed_row paper seed_src now now' ts) ;;;
    ret true.

(** *** The two duplicate tests of [insert_paper], read off the table *)

(** Does [insert_paper] find [p] in the table, by id or by DOI? *)
Definition is_duplicate (p : Paper) (t : table) : bool :=
  existsb (has_id (Pubmed.id p)) t
  || match Pubmed.doi p with
     | Some d => Text.truthy d && existsb (carries_doi d) t
     | None => false
     end.

(** [id] is the primary key: no two rows share it. *)
Definition unique_ids (t : table) : Prop := NoDup (map id t).

(** How many rows carry this id? *)
Definition count_id (paper_id : str) (t : table) : nat :=
  List.length (filter (has_id paper_id) t).

(** [r'] is [r] in every column but the five that the seed promotion of
    [insert_seed_paper] sets. *)
Definition same_but_seed_columns (r r' : row) : Prop :=
  r'.(id) = r.(id) /\ r'.(source) = r.(source) /\ r'.(title) = r.(title) /\
  r'.(authors) = r.(authors) /\ r'.(journal) = r.(journal) /\
  r'.(pub_date) = r.(pub_date) /\ r'.(abstract) = r.(abstract) /\
  r'.(url) = r.(url) /\ r'.(full_text_url) = r.(full_text_url) /\
  r'.(is_open_access) = r.(is_open_access) /\ r'.(doi) = r.(doi) /\
  r'.(summary) = r.(summary) /\
  r'.(relevance_score) = r.(relevance_score) /\
  r'.(ranking_rationale) = r.(ranking_rationale) /\
  r'.(matched_projects) = r.(matched_projects) /\
  r'.(first_seen_date) = r.(first_seen_date) /\
  r'.(added_to_zotero) = r.(added_to_zotero) /\
  r'.(user_read) = r.(user_read) /\ r'.(created_at) = r.(created_at) /\
  r'.(last_digest_date) = r.(last_digest_date).

(** Papers with a score come first, in non-increasing order of score;
    papers without a score follow: whenever a paper stands before another
    and the later one has a score, the earlier one has a score that is not
    smaller. *)
Definition scored_first_descending (papers : list Paper) : Prop :=
  forall (i j : nat) (p q : Paper),
    (i < j)%nat ->
    nth_error papers i = Some p -> nth_error papers j = Some q ->
    match Pubmed.relevance_score q with
    | None => True
    | Some y =>
        exists x, Pubmed.relevance_score p = Some x /\ Float.leb y x = true
    end.

(** A row of the table carries this id. *)
Definition stored (paper_id : str) (t : table) : Prop :=
  existsb (has_id paper_id) t = true.

(** The paper with this id is stored and every row of that id has a
    digest date. *)
Definition digested (paper_id : str) (t : table) : Prop :=
  stored paper_id t /\
  Forall (fun r => r.(id) = paper_id -> r.(last_digest_date) <> None) t.

(** *** Histories: any sequence of writes to the table *)

Inductive op : Type :=
| InsertPaper (paper : Paper) (now ts : str)
| InsertSeedPaper (paper : Paper) (seed_src now now' ts : str)
| UpdatePaperRanking (paper_id summary' : str) (score : float)
    (rationale : str) (projects : list str) (ts : str)
| MarkAsRead (paper_id : str)
| MarkAddedToZotero (paper_id : str)
| MarkPapersDigested (paper_ids : list str) (now : str)
| SetFeedback (paper_id : str) (feedback : option str) (now ts : str).

Definition run_op (t : table) (o : op) : table :=
  match o with
  | InsertPaper paper now ts => snd (insert_paper paper now ts t)
  | InsertSeedPaper paper seed_src now now' ts =>
      snd (insert_seed_paper paper seed_src now now' ts t)
  | UpdatePaperRanking paper_id summary' score rationale projects ts =>
      snd (update_paper_ranking paper_id summary' score rationale projects ts t)
  | MarkAsRead paper_id => snd (mark_as_read paper_id t)
  | MarkAddedToZotero paper_id => snd (mark_added_to_zotero paper_id t)
  | MarkPapersDigested paper_ids now => snd (mark_papers_digested paper_ids now t)
  | SetFeedback paper_id feedback now ts =>
      snd (set_feedback paper_id feedback now ts t)
  end.

Definition run_ops (t : table) (ops : list op) : table := fold_left run_op ops t.

(** A REAL column never holds NaN. *)
Definition no_nan (t : table) : Prop :=
  forall r, In r t -> r.(relevance_score) <> Some S754_nan.


(** *** The other methods of [PaperDatabase] on [papers] *)


(** The loop of [insert_papers].  Every insert reads the clock: a paper
    comes with the two readings of its insert. *)
Fixpoint insert_each (papers : list (Paper * (str * str))) (new_count : Z)
  : DB Z :=
  match papers with
  | [] => ret new_count
  | (paper, (now, ts)) :: rest =>
      inserted <- insert_paper paper now ts ;;
      insert_each rest (if inserted then (new_count + 1)%Z else new_count)
  end.

Definition insert_papers (papers : list (Paper * (str * str))) : DB (Z * Z) :=
  new_count <- insert_each papers 0%Z ;;
  ret (Z.of_nat (List.length papers), new_count).

(** [get_recent_papers]: [since] is the time stamp the method computes,
    [days] before its reading of the clock. *)
Definition get_recent_papers (since : str) (min_score : option float)
  : DB (list Paper) :=
  get_papers_since since min_score None.

(** [WHERE user_feedback = ?] *)
Definition feedback_is (feedback : str) (r : row) : bool :=
  sql_text_eq r.(user_feedback) feedback.

(** [ORDER BY ... DESC] on a TEXT column: NULL is the smallest value, so it
    comes last. *)
Definition text_desc (a b : option str) : bool :=
  match a, b with
  | Some x, Some y => Text.leb y x
  | Some _, None => true
  | None, Some _ => false
  | None, None => true
  end.

Definition by_feedback_date (r r' : row) : bool :=
  text_desc r.(feedback_date) r'.(feedback_date).

(** The rows of [get_starred_papers] and [get_dismissed_papers]:
    [WHERE user_feedback = ? ORDER BY feedback_date DESC LIMIT ?] *)
Definition rows_with_feedback (feedback : str) (limit : Z) (t : table)
  : list row :=
  sql_limit limit (order_by by_feedback_date (filter (feedback_is feedback) t)).

Definition get_starred_papers (limit : Z) : DB (list Paper) :=
  fun t =>
    (Ok (map _row_to_paper (rows_with_feedback (Text.lit "star") limit t)), t).

Definition get_dismissed_papers (limit : Z) : DB (list Paper) :=
  fun t =>
    (Ok (map _row_to_paper (rows_with_feedback (Text.lit "dismiss") limit t)), t).

(** The dictionary [get_feedback_stats] returns. *)
Record FeedbackStats : Type := {
  starred : Z;
  dismissed : Z;
  neutral : Z;
  seeds : Z
}.

(** [COUNT(CASE WHEN cond THEN 1 END)] *)
Definition count_when (cond : row -> bool) (t : table) : Z :=
  Z.of_nat (List.length (filter cond t)).

(** [is_seed = TRUE] *)
Definition seed_row (r : row) : bool :=
  match r.(is_seed) with
  | Some b => b
  | None => false
  end.

Definition get_feedback_stats : DB FeedbackStats :=
  fun t =>
    (Ok {| starred := count_when (feedback_is (Text.lit "star")) t;
           dismissed := count_when (feedback_is (Text.lit "dismiss")) t;
           neutral := count_when (fun r => is_null r.(user_feedback)) t;
           seeds := count_when seed_row t |}, t).

Definition by_created_at (r r' : row) : bool := Text.leb r'.(created_at) r.(created_at).

(** [get_seed_papers]: [WHERE is_seed = TRUE ORDER BY created_at DESC] *)
Definition get_seed_papers : DB (list Paper) :=
  fun t => (Ok (map _row_to_paper (order_by by_created_at (filter seed_row t))), t).

(** The columns that no statement of [PaperDatabase] ever updates. *)
Definition same_core (r r' : row) : Prop :=
  r'.(id) = r.(id) /\ r'.(source) = r.(source) /\ r'.(title) = r.(title) /\
  r'.(authors) = r.(authors) /\ r'.(journal) = r.(journal) /\
  r'.(pub_date) = r.(pub_date) /\ r'.(abstract) = r.(abstract) /\
  r'.(url) = r.(url) /\ r'.(full_text_url) = r.(full_text_url) /\
  r'.(is_open_access) = r.(is_open_access) /\ r'.(doi) = r.(doi) /\
  r'.(first_seen_date) = r.(first_seen_date) /\
  r'.(created_at) = r.(created_at).

(** The fields of the dataclass agree, but for the score, which the store
    keeps as SQLite keeps a REAL. *)
Definition same_paper (p p' : Paper) : Prop :=
  Pubmed.id p' = Pubmed.id p /\ Pubmed.source p' = Pubmed.source p /\
  Pubmed.title p' = Pubmed.title p /\ Pubmed.authors p' = Pubmed.authors p /\
  Pubmed.journal p' = Pubmed.journal p /\
  Pubmed.pub_date p' = Pubmed.pub_date p /\
  Pubmed.abstract p' = Pubmed.abstract p /\ Pubmed.url p' = Pubmed.url p /\
  Pubmed.full_text_url p' = Pubmed.full_text_url p /\
  Pubmed.is_open_access p' = Pubmed.is_open_access p /\
  Pubmed.doi p' = Pubmed.doi p /\ Pubmed.summary p' = Pubmed.summary p /\
  Pubmed.relevance_score p' = sql_real (Pubmed.relevance_score p) /\
  Pubmed.ranking_rationale p' = Pubmed.ranking_rationale p /\
  Pubmed.matched_projects p' = Pubmed.matched_projects p.

End Database.

(* ================================================================= *)
(** ** [src/ranker.py]: from the oracle's reply to a ranking *)

Module Ranker.

(** The values [json.loads] builds.  A [dict] is the list of its items. *)
Inductive json : Type :=
| JNull
| JBool (b : bool)
| JInt (n : Z)
| JFloat (x : float)
| JStr (s : str)
| JList (l : list json)
| JDict (items : list (str * json)).

(** [@dataclass class RankingResult].  Python does not check the declared
    field types: three fields hold whatever the reply's object held. *)
Record RankingResult : Type := {
  summary : json;
  relevance_score : float;
  ranking_rationale : json;
  matched_projects : json
}.

Definition bind {A B : Type} (m : result A) (k : A -> result B) : result B :=
  match m with
  | Ok a => k a
  | Raised e => Raised e
  end.

Notation "x <- m ;; k" := (bind m (fun x => k))
  (at level 61, m at next level, right associativity).

Fixpoint lookup (items : list (str * json)) (key : str) : option json :=
  match items with
  | [] => None
  | (k, v) :: rest => if Text.eqb k key then Some v else lookup rest key
  end.

(** [data.get(key, default)]: only a [dict] has the method. *)
Definition get (data : json) (key : str) (default : json) : result json :=
  match data with
  | JDict items =>
      match lookup items key with
      | Some v => Ok v
      | None => Ok default
      end
  | _ => Raised AttributeError
  end.

(** The code-fence handling of [rank_paper]:
    [if content.startswith(fence): content = content.split(fence)[1]; ...] *)
Definition fence : str := Text.lit "```".

Definition strip_fence (content : str) : result str :=
  if Text.startswith fence content then
    piece <- Text.index (Text.split_sep content fence) 1 ;;
    let piece' :=
      if Text.startswith (Text.lit "json") piece then skipn 4 piece else piece in
    Ok (Text.strip piece')
  else Ok content.

(** The result of the [except json.JSONDecodeError] branch. *)
Definition fallback : RankingResult := {|
  summary := JStr (Text.lit "[Failed to generate summary]");
  relevance_score := Float.half;
  ranking_rationale := JStr (Text.lit "[Failed to parse ranking response]");
  matched_projects := JList []
|}.

Section Decoders.

(** The two library parsers [rank_paper] calls: [json.loads], [None] when
    it raises [JSONDecodeError], and [float] on a [str], [None] when it
    raises [ValueError]. *)
Variable json_loads : str -> option json.
Variable float_of_str : str -> option float.

(** [float(v)] *)
Definition py_float (v : json) : result float :=
  match v with
  | JFloat x => Ok x
  | JInt n => Float.of_int n
  | JBool b => Ok (if b then Float.one else Float.zero)
  | JStr s =>
      match float_of_str s with
      | Some x => Ok x
      | None => Raised ValueError
      end
  | JNull | JList _ | JDict _ => Raised TypeError
  end.

(** [PaperRanker.rank_paper], from [response.content[0].text] on. *)
Definition rank_paper (config : ConfigLoader.Config) (paper : Paper)
  (response_text : str) : result RankingResult :=
  content <- strip_fence (Text.strip response_text) ;;
  match json_loads content with
  | None => Ok fallback
  | Some data =>
      score <- get data (Text.lit "relevance_score") (JFloat Float.half) ;;
      raw_score <- py_float score ;;
      let journal_weight :=
        ConfigLoader.get_journal_weight config (Pubmed.journal paper) in
      let adjusted_score := Float.min Float.one (Float.mul raw_score journal_weight) in
      summary' <- get data (Text.lit "summary") (JStr []) ;;
      rationale <- get data (Text.lit "ranking_rationale") (JStr []) ;;
      projects <- get data (Text.lit "matched_projects") (JList []) ;;
      Ok {| summary := summary';
            relevance_score := adjusted_score;
            ranking_rationale := rationale;
            matched_projects := projects |}
  end.

End Decoders.

End Ranker.

(* ================================================================= *)
(** ** [src/feedback.py]: choosing the examples *)

Module Feedback.

(** [paper._user_feedback == 'star'] *)
Definition is_starred (paper : Paper) : bool :=
  match Pubmed._user_feedback paper with
  | Some f => Text.eqb f (Text.lit "star")
  | None => false
  end.

(** [paper.relevance_score or 0.5] *)
Definition score_or_half (paper : Paper) : float :=
  match Pubmed.relevance_score paper with
  | Some x => if Float.truthy x then x else Float.half
  | None => Float.half
  end.

(** The local function [informativeness] of [_select_examples]. *)
Definition informativeness (paper : Paper) : float :=
  let score := score_or_half paper in
  if is_starred paper then Float.sub Float.one score else score.

(** [sorted(papers, key=informativeness, reverse=True)] *)
Definition sorted_papers (papers : list Paper) : list Paper :=
  order_by (fun p q => Float.leb (informativeness q) (informativeness p)) papers.

(** Sets of project names, as lists read up to order and repetition. *)
Definition issubset (a b : list str) : bool :=
  forallb (fun x => existsb (Text.eqb x) b) a.

Definition len {A : Type} (l : list A) : Z := Z.of_nat (List.length l).

(** [bool(l)] for a list *)
Definition nonempty {A : Type} (l : list A) : bool :=
  match l with
  | [] => false
  | _ :: _ => true
  end.

(** The [for] loop of [_select_examples]; returning [selected] early is
    its [break]. *)
Fixpoint select_loop (todo : list Paper) (max_count : Z)
  (selected : list Paper) (seen_projects : list str) : list Paper :=
  match todo with
  | [] => selected
  | paper :: rest =>
      if (len selected >=? max_count)%Z then selected
      else
        let paper_projects := Pubmed.matched_projects paper in
        let is_new_project :=
          negb (nonempty paper_projects)
          || negb (issubset paper_projects seen_projects) in
        if is_new_project || (len selected <? max_count)%Z
        then select_loop rest max_count (selected ++ [paper])
               (seen_projects ++ paper_projects)
        else select_loop rest max_count selected seen_projects
  end.

Definition _select_examples (papers : list Paper) (max_count : Z) : list Paper :=
  match papers with
  | [] => []
  | _ :: _ => select_loop (sorted_papers papers) max_count [] []
  end.

End Feedback.

(* ================================================================= *)
(** ** [src/sources/biorxiv.py]: matching a query locally *)

Module BioRxiv.

(** The two entries of an API record that [_matches_query] reads;
    [None] when the key is missing or its value is [None]. *)
Record record : Type := {
  title : option str;
  abstract : option str
}.

(** The double quote, U+0022. *)
Definition quote : ascii := Ascii false true false false false true false false.

Definition is_quote (c : ascii) : bool := Ascii.eqb c quote.

(** No character of [s] is a double quote. *)
Definition unquoted (s : str) : Prop := Forall (fun c => is_quote c = false) s.

(** The longest prefix without a double quote, and what follows it. *)
Fixpoint take_unquoted (s : str) : str * str :=
  match s with
  | [] => ([], [])
  | c :: t =>
      if is_quote c then ([], s)
      else let (body, rest) := take_unquoted t in (c :: body, rest)
  end.

(** Does the pattern of [_matches_query] (a quote, a group of one or more
    characters that are not quotes, a quote) match at the head of [s]?
    The group is greedy and every character it passes is not a quote, so
    the only match takes the whole run without quotes, which must not be
    empty and must end at a quote. *)
Definition quoted_at (s : str) : option str :=
  match s with
  | [] => None
  | c :: t =>
      if is_quote c then
        match take_unquoted t with
        | ((_ :: _) as body, _ :: _) => Some body
        | _ => None
        end
      else None
  end.

(** [re.findall] of that pattern: the groups of the matches, found from
    the left without overlap.  [skip] counts the characters of the current
    match still to be passed over. *)
Fixpoint findall_quoted (s : str) (skip : nat) : list str :=
  match s with
  | [] => []
  | _ :: t =>
      match skip with
      | S k => findall_quoted t k
      | O =>
          match quoted_at s with
          | Some body => body :: findall_quoted t (List.length body + 1)
          | None => findall_quoted t 0
          end
      end
  end.

(** [re.sub] of that pattern by the empty string. *)
Fixpoint sub_quoted (s : str) (skip : nat) : str :=
  match s with
  | [] => []
  | c :: t =>
      match skip with
      | S k => sub_quoted t k
      | O =>
          match quoted_at s with
          | Some body => sub_quoted t (List.length body + 1)
          | None => c :: sub_quoted t 0
          end
      end
  end.

(** [paper.get(key)], or the empty string when that is falsy. *)
Definition or_empty (v : option str) : str :=
  match v with
  | Some s => s
  | None => []
  end.

(** The text that is searched: the f-string of [title], a space and
    [abstract], both in lower case. *)
Definition search_text (paper : record) : str :=
  Text.lower (or_empty paper.(title)) ++ Text.lit " "
  ++ Text.lower (or_empty paper.(abstract)).

(** [BioRxivClient._matches_query] *)
Definition _matches_query (paper : record) (query : str) : bool :=
  let query_lower := Text.lower query in
  let phrases := findall_quoted query_lower 0 in
  let remaining := sub_quoted query_lower 0 in
  let terms :=
    filter Text.truthy (map Text.strip (Text.split remaining)) in
  let text := search_text paper in
  forallb (fun phrase => Text.contains phrase text) phrases
  && forallb (fun term => Text.contains term text) terms.

End BioRxiv.

(* ================================================================= *)
(** ** Queries, as the design document describes them

    A query is a list of bare tokens and quoted phrases; a record matches
    it when every phrase and every token occurs, up to case, in the text
    of the record.  These definitions follow the document, not the code;
    the properties below compare them with [_matches_query]. *)

Module QuerySpec.

Inductive item : Type :=
| Token (t : str)
| Phrase (p : str).

Definition item_text (i : item) : str :=
  match i with
  | Token t => t
  | Phrase p => p
  end.

Definition space : ascii := " "%char.

(** The query string: a phrase stands between double quotes, and a single
    space separates an item from the next. *)
Definition render_item (i : item) : str :=
  match i with
  | Token t => t
  | Phrase p => BioRxiv.quote :: p ++ [BioRxiv.quote]
  end.

Fixpoint render (items : list item) : str :=
  match items with
  | [] => []
  | i :: rest =>
      render_item i ++
      match rest with
      | [] => []
      | _ :: _ => space :: render rest
      end
  end.

(** A token is not empty and holds no white space and no quote; a phrase
    is not empty and holds no quote. *)
Definition well_formed_item (i : item) : bool :=
  match i with
  | Token t =>
      Text.truthy t
      && forallb (fun c => negb (Text.isspace c) && negb (BioRxiv.is_quote c)) t
  | Phrase p =>
      Text.truthy p && forallb (fun c => negb (BioRxiv.is_quote c)) p
  end.

Definition well_formed (items : list item) : bool :=
  forallb well_formed_item items.

(** The phrases and the tokens of a query, in its order. *)
Definition phrases (items : list item) : list str :=
  flat_map (fun i => match i with Phrase p => [p] | Token _ => [] end) items.

Definition tokens (items : list item) : list str :=
  flat_map (fun i => match i with Token t => [t] | Phrase _ => [] end) items.

(** A query with its phrases blanked, and a query in lower case. *)
Definition blank (i : item) : item :=
  match i with
  | Token t => Token t
  | Phrase _ => Token []
  end.

Definition lower_item (i : item) : item :=
  match i with
  | Token t => Token (Text.lower t)
  | Phrase p => Phrase (Text.lower p)
  end.

(** [needle] occurs in [hay], up to case. *)
Definition ci_substring (needle hay : str) : Prop :=
  exists before after,
    Text.lower hay = before ++ Text.lower needle ++ after.

(** Every phrase and every token of the query occurs in the text. *)
Definition matches (text : str) (items : list item) : Prop :=
  (forall p, In (Phrase p) items -> ci_substring p text) /\
  (forall t, In (Token t) items -> ci_substring t text).

(** The text of a record, as the document words it: the concatenation of
    title and abstract. *)
Definition concatenation (paper : BioRxiv.record) : str :=
  BioRxiv.or_empty (BioRxiv.title paper)
  ++ BioRxiv.or_empty (BioRxiv.abstract paper).

(** The text of a record with a space between title and abstract. *)
Definition joined_by_space (paper : BioRxiv.record) : str :=
  BioRxiv.or_empty (BioRxiv.title paper) ++ [space]
  ++ BioRxiv.or_empty (BioRxiv.abstract paper).

End QuerySpec.

(* ================================================================= *)
(** ** Sample data for the examples *)

Module Samples.

(** 0.9, 1.2 and 0.3 as binary64 numbers *)
Definition f0_9 : float := S754_finite false 8106479329266893 (-53).
Definition f1_2 : float := S754_finite false 5404319552844595 (-52).
Definition f0_3 : float := S754_finite false 5404319552844595 (-54).

Definition paper (id' journal' : string) (doi' : option str) : Paper := {|
  Pubmed.id := id';
  Pubmed.source := Text.lit "pubmed";
  Pubmed.title := Text.lit "Gut microbiome in biliary atresia";
  Pubmed.authors := [Text.lit "Doe J"];
  Pubmed.journal := journal';
  Pubmed.pub_date := Text.lit "2025-01-10";
  Pubmed.abstract := Text.lit "We profile the gut microbiome.";
  Pubmed.url := Text.lit "https://example.org/paper";
  Pubmed.full_text_url := None;
  Pubmed.is_open_access := false;
  Pubmed.doi := doi';
  Pubmed.summary := None;
  Pubmed.relevance_score := None;
  Pubmed.ranking_rationale := None;
  Pubmed.matched_projects := [];
  Pubmed._user_feedback := None;
  Pubmed._feedback_date := None;
  Pubmed._is_seed := false;
  Pubmed._seed_source := None
|}.

Definition doi_x : str := Text.lit "10.1101/2025.01.01.000001".

(** The same work, once as a preprint and once as indexed by PubMed. *)
Definition preprint : Paper :=
  paper "10.1101/2025.01.01.000001" "biorxiv (preprint)" (Some doi_x).
Definition indexed : Paper := paper "39000001" "Hepatology" (Some doi_x).

Definition day1 : str := Text.lit "2025-01-10T08:00:00".
Definition day2 : str := Text.lit "2025-01-11T08:00:00".
Definition day3 : str := Text.lit "2025-01-12T08:00:00".
Definition ts1 : str := Text.lit "2025-01-10 08:00:00".
Definition ts2 : str := Text.lit "2025-01-11 08:00:00".
Definition ts3 : str := Text.lit "2025-01-12 08:00:00".

(** A paper as [_row_to_paper] returns it, with a score and a feedback. *)
Definition rated (id' : string) (score : option float) (feedback : string)
  (projects : list str) : Paper := {|
  Pubmed.id := id';
  Pubmed.source := Text.lit "pubmed";
  Pubmed.title := Text.lit "Bile acids and the gut-liver axis";
  Pubmed.authors := [Text.lit "Roe R"];
  Pubmed.journal := Text.lit "Hepatology";
  Pubmed.pub_date := Text.lit "2025-01-10";
  Pubmed.abstract := [];
  Pubmed.url := Text.lit "https://example.org/paper";
  Pubmed.full_text_url := None;
  Pubmed.is_open_access := false;
  Pubmed.doi := None;
  Pubmed.summary := None;
  Pubmed.relevance_score := score;
  Pubmed.ranking_rationale := None;
  Pubmed.matched_projects := projects;
  Pubmed._user_feedback := Some (Text.lit feedback);
  Pubmed._feedback_date := Some day2;
  Pubmed._is_seed := false;
  Pubmed._seed_source := None
|}.

(** One tier of weight 1.2 that lists Hepatology. *)
Definition config : ConfigLoader.Config := {|
  ConfigLoader.journal_weights :=
    [(Text.lit "high_impact",
      {| ConfigLoader.weight := f1_2;
         ConfigLoader.journals := [Text.lit "Hepatology"; Text.lit "Gut"] |})]
|}.

(** Two replies of the oracle: an object with a score of 0.9, and prose. *)
Definition reply_object : str :=
  Text.lit "{" ++ [BioRxiv.quote] ++ Text.lit "relevance_score"
  ++ [BioRxiv.quote] ++ Text.lit ": 0.9}".

Definition reply_prose : str := Text.lit "I could not assess this paper.".

(** [json.loads] on the sample replies: it decodes [reply_object] and
    raises on every other text, as prose makes it do. *)
Definition sample_loads (s : str) : option Ranker.json :=
  if Text.eqb s reply_object
  then Some (Ranker.JDict [(Text.lit "relevance_score", Ranker.JFloat f0_9)])
  else None.

(** [float] on a string, for the sample replies: none of them is read. *)
Definition sample_float (s : str) : option float := None.

(** A store that holds the preprint. *)
Definition store_with_preprint : Database.table :=
  [Database.new_row preprint day1 ts1].

(** Three papers come in; two of them are scored, 0.3 and 0.9. *)
Definition history : list Database.op :=
  [ Database.InsertPaper (paper "100" "Gut" None) day1 ts1;
    Database.InsertPaper (paper "200" "Hepatology" None) day1 ts1;
    Database.InsertPaper (paper "300" "Liver Int" None) day2 ts2;
    Database.UpdatePaperRanking (Text.lit "100") (Text.lit "a summary") f0_3
      (Text.lit "weak link") [] ts2;
    Database.UpdatePaperRanking (Text.lit "300") (Text.lit "a summary") f0_9
      (Text.lit "on topic") [Text.lit "BA"] ts2 ].

Definition scored_store : Database.table := Database.run_ops [] history.

(** Feedback on papers with the score 0.0. *)
Definition starred_zero : Paper := rated "1" (Some Float.zero) "star" [].
Definition dismissed_zero : Paper := rated "2" (Some Float.zero) "dismiss" [].

(** Four starred papers, with the scores 0.3, 0.9, none and 0.0. *)
Definition starred_papers : list Paper :=
  [ rated "a" (Some f0_3) "star" [Text.lit "BA"];
    rated "b" (Some f0_9) "star" [Text.lit "BA"];
    rated "c" None "star" [];
    rated "d" (Some Float.zero) "star" [Text.lit "PFIC"] ].

(** Records of the preprint server. *)
Definition split_word : BioRxiv.record := {|
  BioRxiv.title := Some (Text.lit "Micro");
  BioRxiv.abstract := Some (Text.lit "biome")
|}.

Definition liver_record : BioRxiv.record := {|
  BioRxiv.title := Some (Text.lit "Bile acids in the liver");
  BioRxiv.abstract := Some (Text.lit "Disease models of the gut microbiome.")
|}.

End Samples.


(* ================================================================= *)
(** ** [src/ranker.py]: ranking a batch *)

Module RankPapers.

(** What a call of the oracle or of the callback can end in:
    [except Exception] catches the exceptions of the client library as well
    as those of Python. *)
Inductive failure : Type :=
| ApiError (message : str)
| Python (e : exn).

Inductive outcome (A : Type) : Type :=
| Done (a : A)
| Failed (f : failure).

Arguments Done {A} a.
Arguments Failed {A} f.

Definition entry : Type := (Paper * Ranker.RankingResult)%type.

(** [callback(paper, result, index, total)] *)
Definition progress : Type :=
  Paper -> Ranker.RankingResult -> Z -> Z -> outcome unit.

Section Batch.

Variable json_loads : str -> option Ranker.json.
Variable float_of_str : str -> option float.

(** [self.client.messages.create(...)] followed by
    [response.content[0].text]: the reply for a paper, or the exception of
    the call or of the indexing. *)
Variable oracle : Paper -> outcome str.

(** [str(e)] *)
Variable describe : failure -> str.

(** [PaperRanker.rank_paper], with the call of the oracle. *)
Definition rank_paper (config : ConfigLoader.Config) (paper : Paper)
  : outcome Ranker.RankingResult :=
  match oracle paper with
  | Failed f => Failed f
  | Done response_text =>
      match Ranker.rank_paper json_loads float_of_str config paper response_text with
      | Ok r => Done r
      | Raised e => Failed (Python e)
      end
  end.

(** The result of the [except Exception] branch of [rank_papers]. *)
Definition error_result (f : failure) : Ranker.RankingResult := {|
  Ranker.summary := Ranker.JStr (Text.lit "[Error during ranking]");
  Ranker.relevance_score := Float.zero;
  Ranker.ranking_rationale := Ranker.JStr (Text.lit "Error: " ++ describe f);
  Ranker.matched_projects := Ranker.JList []
|}.

(** [if callback: callback(paper, result, i, len(papers))] *)
Definition call (callback : option progress) (paper : Paper)
  (r : Ranker.RankingResult) (i total : Z) : outcome unit :=
  match callback with
  | None => Done tt
  | Some f => f paper r i total
  end.

(** One turn of the loop of [rank_papers]: what it appends to [results].
    The result is appended before the callback runs, so a callback that
    raises leaves it there and the handler appends a second entry. *)
Definition turn (config : ConfigLoader.Config) (callback : option progress)
  (paper : Paper) (i total : Z) : list entry :=
  match rank_paper config paper with
  | Failed f => [(paper, error_result f)]
  | Done r =>
      match call callback paper r i total with
      | Done _ => [(paper, r)]
      | Failed f => [(paper, r); (paper, error_result f)]
      end
  end.

Fixpoint rank_each (config : ConfigLoader.Config) (callback : option progress)
  (papers : list Paper) (i total : Z) (results : list entry) : list entry :=
  match papers with
  | [] => results
  | paper :: rest =>
      rank_each config callback rest (i + 1)%Z total
        (results ++ turn config callback paper i total)
  end.

(** [results.sort(key=lambda x: x[1].relevance_score, reverse=True)] *)
Definition by_result_score (x y : entry) : bool :=
  Float.leb (Ranker.relevance_score (snd y)) (Ranker.relevance_score (snd x)).

(** [PaperRanker.rank_papers] *)
Definition rank_papers (config : ConfigLoader.Config) (papers : list Paper)
  (callback : option progress) : list entry :=
  order_by by_result_score
    (rank_each config callback papers 0%Z (Z.of_nat (List.length papers)) []).

(** [PaperRanker.rank_papers_batch] *)
Definition rank_papers_batch (config : ConfigLoader.Config)
  (papers : list Paper) (batch_size : Z) : list entry :=
  rank_papers config papers None.

(** What the loop appends for the papers from index [i] on. *)
Fixpoint turns (config : ConfigLoader.Config) (callback : option progress)
  (papers : list Paper) (i total : Z) : list entry :=
  match papers with
  | [] => []
  | paper :: rest =>
      turn config callback paper i total
      ++ turns config callback rest (i + 1)%Z total
  end.

(** The entry of a paper when no callback interferes. *)
Definition ranked (config : ConfigLoader.Config) (paper : Paper) : entry :=
  match rank_paper config paper with
  | Done r => (paper, r)
  | Failed f => (paper, error_result f)
  end.

End Batch.

End RankPapers.

(* ================================================================= *)
(** ** [src/feedback.py]: the section of the prompt *)

Module FeedbackPrompt.

Definition newline : ascii := Ascii false true false true false false false false.

(** [sep.join(parts)] *)
Fixpoint join (sep : str) (parts : list str) : str :=
  match parts with
  | [] => []
  | [part] => part
  | part :: rest => part ++ sep ++ join sep rest
  end.

Section Format.

(** [format(x, fmt)] for the format of two decimals, a library function. *)
Variable fmt2 : float -> str.

(** The title as [_format_example] shows it. *)
Definition shown_title (title : str) : str :=
  if (60 <? Z.of_nat (List.length title))%Z
  then firstn 57 title ++ Text.lit "..."
  else title.

(** [_format_example] *)
Definition _format_example (paper : Paper) : str :=
  let score_str :=
    match Pubmed.relevance_score paper with
    | Some x => Text.lit "score was " ++ fmt2 x
    | None => Text.lit "unscored"
    end in
  let projects_str :=
    match Pubmed.matched_projects paper with
    | [] => []
    | projects =>
        Text.lit " [Projects: " ++ join (Text.lit ", ") projects ++ Text.lit "]"
    end in
  let title := shown_title (Pubmed.title paper) in
  Text.lit "- " ++ [BioRxiv.quote] ++ title ++ [BioRxiv.quote] ++ Text.lit " ("
  ++ Pubmed.journal paper ++ Text.lit ", " ++ score_str ++ Text.lit ")"
  ++ projects_str.

(** The lines between the head and the tail of the section. *)
Definition example_lines (heading : str) (examples : list Paper) : list str :=
  match examples with
  | [] => []
  | _ :: _ => [[]; heading] ++ map _format_example examples
  end.

(** [build_feedback_prompt_section] *)
Definition build_feedback_prompt_section : Database.DB (option str) :=
  Database.bind (Database.get_starred_papers 20) (fun starred =>
  Database.bind (Database.get_dismissed_papers 20) (fun dismissed =>
  match starred, dismissed with
  | [], [] => Database.ret None
  | _, _ =>
      let starred_examples := Feedback._select_examples starred 5 in
      let dismissed_examples := Feedback._select_examples dismissed 5 in
      match starred_examples, dismissed_examples with
      | [], [] => Database.ret None
      | _, _ =>
          let lines :=
            [[];
             Text.lit "The researcher has provided feedback on past papers. Use these to calibrate:"]
            ++ example_lines
                 (Text.lit "Papers the researcher STARRED (found highly valuable):")
                 starred_examples
            ++ example_lines
                 (Text.lit "Papers the researcher DISMISSED (not relevant):")
                 dismissed_examples
            ++ [[];
                Text.lit "Adjust your scoring to better match these demonstrated preferences."] in
          Database.ret (Some (join [newline] lines))
      end
  end)).

End Format.

End FeedbackPrompt.


(* ================================================================= *)
(** ** [src/sources/biorxiv.py]: fetching and searching *)

Module BioRxivClient.

(** [l[:n]] *)
Definition slice_to {A : Type} (n : Z) (l : list A) : list A :=
  if (n <? 0)%Z then firstn (List.length l - Z.to_nat (- n)) l
  else firstn (Z.to_nat n) l.

(** An item of the [collection] of a reply: the values of the keys that
    the client reads, [None] for a key that is missing. *)
Record item : Type := {
  title : option str;
  abstract : option str;
  authors : option str;
  doi : option str;
  date : option str
}.

(** The item as [_matches_query] reads it. *)
Definition as_record (data : item) : BioRxiv.record := {|
  BioRxiv.title := data.(title);
  BioRxiv.abstract := data.(abstract)
|}.

(** A message of a reply: without the key [total], or with the outcome of
    [int] on its value. *)
Inductive message : Type :=
| NoTotal
| Total (n : result Z).

(** What [self.session.get(url)], [raise_for_status] and [response.json()]
    end in: a [RequestException], or the decoded page. *)
Inductive reply : Type :=
| RequestFailed
| Page (collection : list item) (messages : list message).

(** The loop over [messages]: the first total, 0 when there is none. *)
Fixpoint reported_total (messages : list message) : result Z :=
  match messages with
  | [] => Ok 0%Z
  | NoTotal :: rest => reported_total rest
  | Total n :: _ => n
  end.

Definition page_size : Z := 100.

(** The items of a reply, none for a failed request. *)
Definition collection_of (r : reply) : list item :=
  match r with
  | RequestFailed => []
  | Page collection _ => collection
  end.

(** The [while] loop of [_fetch_papers_from_server]: [requests] lists the
    cursors that were requested.  [None] when the fuel runs out. *)
Fixpoint fetch_loop (fuel : nat) (server : Z -> reply) (max_results : Z)
  (all_papers : list item) (cursor : Z) (requests : list Z)
  : option (list Z * result (list item)) :=
  if (Z.of_nat (List.length all_papers) <? max_results)%Z then
    match fuel with
    | O => None
    | S fuel' =>
        match server cursor with
        | RequestFailed => Some (requests ++ [cursor], Ok all_papers)
        | Page [] _ => Some (requests ++ [cursor], Ok all_papers)
        | Page papers messages =>
            match reported_total messages with
            | Raised e => Some (requests ++ [cursor], Raised e)
            | Ok total =>
                if (cursor + page_size >=? total)%Z
                then Some (requests ++ [cursor], Ok (all_papers ++ papers))
                else fetch_loop fuel' server max_results (all_papers ++ papers)
                       (cursor + page_size)%Z (requests ++ [cursor])
            end
        end
    end
  else Some (requests, Ok all_papers).

(** [_fetch_papers_from_server]: the cursors requested, and the result. *)
Definition _fetch_papers_from_server (fuel : nat) (server : Z -> reply)
  (max_results : Z) : option (list Z * result (list item)) :=
  match fetch_loop fuel server max_results [] 0%Z [] with
  | None => None
  | Some (requests, Ok all_papers) =>
      Some (requests, Ok (slice_to max_results all_papers))
  | Some (requests, Raised e) => Some (requests, Raised e)
  end.

(** [data.get(key, default)] *)
Definition get (v : option str) (default : str) : str :=
  match v with
  | Some s => s
  | None => default
  end.

(** The join of [n[0] for n in first.split() if n] *)
Definition initials (first : str) : str :=
  flat_map (fun n => firstn 1 n) (Text.split first).

(** One piece of [authors_str.split(";")] *)
Definition author_of (piece : str) : list str :=
  let author := Text.strip piece in
  if Text.truthy author then
    match Text.split_sep author (Text.lit ",") with
    | last :: first :: _ =>
        [Text.strip last ++ Text.lit " " ++ initials (Text.strip first)]
    | _ => [author]
    end
  else [].

(** [BioRxivClient._convert_to_paper] *)
Definition _convert_to_paper (data : item) (server : str) : Paper :=
  let authors_str := get data.(authors) [] in
  let doi' := get data.(doi) [] in
  let url' := Text.lit "https://www." ++ server ++ Text.lit ".org/content/" ++ doi' in
  {| Pubmed.id := doi';
     Pubmed.source := server;
     Pubmed.title := get data.(title) (Text.lit "No title");
     Pubmed.authors :=
       if Text.truthy authors_str
       then flat_map author_of (Text.split_sep authors_str (Text.lit ";"))
       else [];
     Pubmed.journal := server ++ Text.lit " (preprint)";
     Pubmed.pub_date := get data.(date) [];
     Pubmed.abstract := get data.(abstract) [];
     Pubmed.url := url';
     Pubmed.full_text_url := Some (url' ++ Text.lit ".full.pdf");
     Pubmed.is_open_access := true;
     Pubmed.doi := Some doi';
     Pubmed.summary := None;
     Pubmed.relevance_score := None;
     Pubmed.ranking_rationale := None;
     Pubmed.matched_projects := [];
     Pubmed._user_feedback := None;
     Pubmed._feedback_date := None;
     Pubmed._is_seed := false;
     Pubmed._seed_source := None |}.

Section Search.

(** [self._fetch_papers_from_server(server, start, end, max_results=1000)],
    by the name of the server. *)
Variable fetch : str -> result (list item).

(** The loop of [search_and_fetch] over the items of one server; returning
    early is its [break]. *)
Fixpoint collect (server : str) (data : list item) (query : str)
  (max_results : Z) (matching_papers : list Paper) : list Paper :=
  match data with
  | [] => matching_papers
  | d :: rest =>
      if BioRxiv._matches_query (as_record d) query then
        let matching' := matching_papers ++ [_convert_to_paper d server] in
        if (Z.of_nat (List.length matching') >=? max_results)%Z then matching'
        else collect server rest query max_results matching'
      else collect server rest query max_results matching_papers
  end.

(** [BioRxivClient.search_and_fetch] *)
Definition search_and_fetch (include_medrxiv : bool) (query : str)
  (max_results : Z) : result (list Paper) :=
  Ranker.bind (fetch (Text.lit "biorxiv")) (fun biorxiv_data =>
  let matching := collect (Text.lit "biorxiv") biorxiv_data query max_results [] in
  if include_medrxiv && (Z.of_nat (List.length matching) <? max_results)%Z then
    Ranker.bind (fetch (Text.lit "medrxiv")) (fun medrxiv_data =>
    Ok (slice_to max_results
          (collect (Text.lit "medrxiv") medrxiv_data query max_results matching)))
  else Ok (slice_to max_results matching)).

(** The matching items of a server, converted. *)
Definition matches (server : str) (data : list item) (query : str) : list Paper :=
  map (fun d => _convert_to_paper d server)
    (filter (fun d => BioRxiv._matches_query (as_record d) query) data).

End Search.

End BioRxivClient.


(* ================================================================= *)
(** ** [src/sources/pubmed.py]: requests and batches *)

Module PubMedClient.

(** What [self.session.get] ends in: an exception of [requests], or a
    response with its status code. *)
Inductive got : Type :=
| ConnectionFailed
| Status (status_code : Z).

(** How [_request_with_retry] ends: it returns the response, or leaves with
    the [HTTPError] of [raise_for_status] or the exception of [get]. *)
Inductive outcome : Type :=
| Response (status_code : Z)
| HTTPError (status_code : Z)
| RequestException.

(** [response.raise_for_status()]: client and server errors raise. *)
Definition raise_for_status (status_code : Z) : outcome :=
  if ((400 <=? status_code) && (status_code <? 600))%Z
  then HTTPError status_code
  else Response status_code.

Definition outcome_of (g : got) : outcome :=
  match g with
  | ConnectionFailed => RequestException
  | Status status_code => raise_for_status status_code
  end.

(** What a call did: the number of requests, the waits of the backoff in
    seconds, and the outcome. *)
Record trace : Type := {
  requests : nat;
  waits : list Z;
  ended : outcome
}.

(** [(2 ** attempt) + 1] *)
Definition wait_time (attempt : nat) : Z := (2 ^ Z.of_nat attempt + 1)%Z.

(** The loop [for attempt in range(max_retries)] with the final attempt
    after it; [server n] answers the request number [n] of the call. *)
Fixpoint retry_loop (server : nat -> got) (remaining attempt : nat)
  (slept : list Z) : trace :=
  match remaining with
  | O =>
      {| requests := S attempt; waits := slept;
         ended := outcome_of (server attempt) |}
  | S remaining' =>
      match server attempt with
      | ConnectionFailed =>
          {| requests := S attempt; waits := slept; ended := RequestException |}
      | Status status_code =>
          if (status_code =? 429)%Z then
            retry_loop server remaining' (S attempt) (slept ++ [wait_time attempt])
          else
            {| requests := S attempt; waits := slept;
               ended := raise_for_status status_code |}
      end
  end.

(** [PubMedClient._request_with_retry] *)
Definition _request_with_retry (server : nat -> got) (max_retries : Z) : trace :=
  retry_loop server (Z.to_nat max_retries) 0 [].

Definition batch_size : nat := 200.

(** [range(0, n, batch_size)] *)
Definition batch_starts (n : nat) : list nat :=
  map (fun k => (k * batch_size)%nat) (seq 0 ((n + batch_size - 1) / batch_size)).

(** The slices [pmids[i : i + batch_size]] of the loop of [fetch_papers]. *)
Definition batches (pmids : list str) : list (list str) :=
  map (fun i => firstn batch_size (skipn i pmids)) (batch_starts (List.length pmids)).

Section Fetch.

(** [self._fetch_batch] *)
Variable _fetch_batch : list str -> result (list Paper).

Fixpoint fetch_each (todo : list (list str)) (all_papers : list Paper)
  : result (list Paper) :=
  match todo with
  | [] => Ok all_papers
  | batch :: rest =>
      Ranker.bind (_fetch_batch batch) (fun papers =>
      fetch_each rest (all_papers ++ papers))
  end.

(** [PubMedClient.fetch_papers] *)
Definition fetch_papers (pmids : list str) : result (list Paper) :=
  match pmids with
  | [] => Ok []
  | _ :: _ => fetch_each (batches pmids) []
  end.

End Fetch.

End PubMedClient.

(* ================================================================= *)
(** ** [src/paper_lookup.py]: DOI or PMID *)

Module PaperLookup.

(** [\d] on a code point below 256 *)
Definition is_digit (c : ascii) : bool :=
  ((48 <=? Text.code c) && (Text.code c <=? 57))%N.

(** The longest prefix of [s] whose characters satisfy [f], and the rest:
    what a greedy [+] or [{m,n}] takes when the next item of the pattern
    cannot start with a character of the class. *)
Fixpoint span (f : ascii -> bool) (s : str) : str * str :=
  match s with
  | [] => ([], [])
  | c :: t =>
      if f c then let (run, rest) := span f t in (c :: run, rest)
      else ([], s)
  end.

(** [$]: at the end of the string, or before a newline that ends it. *)
Definition at_end (s : str) : bool :=
  match s with
  | [] => true
  | [c] => (Text.code c =? 10)%N
  | _ => false
  end.

(** [PMID_PATTERN.match]: digits, one at least, up to the end *)
Definition PMID_PATTERN (s : str) : bool :=
  let (digits, rest) := span is_digit s in
  Text.truthy digits && at_end rest.

Definition slash : ascii := Ascii true true true true false true false false.

(** [DOI_PATTERN.match]: 10. and four to nine digits, a slash, characters
    that are not white space, one at least, up to the end *)
Definition DOI_PATTERN (s : str) : bool :=
  Text.startswith (Text.lit "10.") s
  && let (digits, rest) := span is_digit (skipn 3 s) in
     (4 <=? List.length digits)%nat && (List.length digits <=? 9)%nat
     && match rest with
        | c :: rest' =>
            Ascii.eqb c slash
            && let (suffix, tail) := span (fun c => negb (Text.isspace c)) rest' in
               Text.truthy suffix && at_end tail
        | [] => false
        end.

Definition prefixes : list str :=
  [Text.lit "https://doi.org/"; Text.lit "http://doi.org/"; Text.lit "doi:"].

(** One turn of the loop over the prefixes *)
Definition strip_prefix (cleaned prefix : str) : str :=
  if Text.startswith prefix (Text.lower cleaned)
  then skipn (List.length prefix) cleaned
  else cleaned.

(** [clean_doi] *)
Definition clean_doi (identifier : str) : str :=
  fold_left strip_prefix prefixes (Text.strip identifier).

(** [is_doi] *)
Definition is_doi (identifier : str) : bool :=
  DOI_PATTERN (fold_left strip_prefix prefixes (Text.strip identifier)).

(** [is_pmid] *)
Definition is_pmid (identifier : str) : bool :=
  PMID_PATTERN (Text.strip identifier).

End PaperLookup.

(* ================================================================= *)
(** ** [src/config_loader.py]: projects *)

Module ConfigProjects.

Record Project : Type := {
  name : str;
  keywords : list str
}.

(** The loop over [project.keywords] of [match_projects], which leaves at
    the first keyword found in the text. *)
Fixpoint any_keyword (keywords : list str) (text_lower : str) : bool :=
  match keywords with
  | [] => false
  | keyword :: rest =>
      if Text.contains (Text.lower keyword) text_lower then true
      else any_keyword rest text_lower
  end.

(** [Config.match_projects] *)
Fixpoint match_projects (active_projects : list Project) (text : str) : list str :=
  match active_projects with
  | [] => []
  | project :: rest =>
      if any_keyword project.(keywords) (Text.lower text)
      then project.(name) :: match_projects rest text
      else match_projects rest text
  end.

End ConfigProjects.

(* ================================================================= *)
(** ** [main.py]: the search phase *)

Module Main.

Import Database.

(** The loop [for paper in papers: if paper.id not in seen_ids: ...] of
    [run_search]; the set [seen_ids] is kept as the list of its members. *)
Fixpoint add_unseen (papers all_papers : list Paper) (seen_ids : list str)
  : list Paper * list str :=
  match papers with
  | [] => (all_papers, seen_ids)
  | paper :: rest =>
      if ConfigLoader.mem (Pubmed.id paper) seen_ids
      then add_unseen rest all_papers seen_ids
      else add_unseen rest (all_papers ++ [paper]) (Pubmed.id paper :: seen_ids)
  end.

(** The papers of a search, none when it raised. *)
Definition papers_of (found : result (list Paper)) : list Paper :=
  match found with
  | Ok papers => papers
  | Raised _ => []
  end.

(** A [try] block of [run_search]: an exception of the search leaves the
    papers found so far as they are. *)
Definition attempt (found : result (list Paper)) (all_papers : list Paper)
  (seen_ids : list str) : list Paper * list str :=
  match found with
  | Ok papers => add_unseen papers all_papers seen_ids
  | Raised _ => (all_papers, seen_ids)
  end.

(** [seen_ids] holds the ids of [all_papers], which are distinct and are
    the ids of the papers [found] so far; and a paper of [all_papers] is
    the first of [found] with its id. *)
Definition tracks (all_papers : list Paper) (seen_ids : list str)
  (found : list Paper) : Prop :=
  (forall x, ConfigLoader.mem x seen_ids = true <-> In x (map Pubmed.id all_papers)) /\
  NoDup (map Pubmed.id all_papers) /\
  (forall x, In x (map Pubmed.id all_papers) <-> In x (map Pubmed.id found)) /\
  (forall p, In p all_papers ->
     exists before after,
       found = before ++ p :: after /\ ~ In (Pubmed.id p) (map Pubmed.id before)).

Section Search.

(** [pubmed.search_and_fetch] and [biorxiv.search_and_fetch] at the
    settings of the configuration, by query. *)
Variables pubmed biorxiv : str -> result (list Paper).

(** [args.pubmed_only] *)
Variable pubmed_only : bool.

(** The loop over [config.search_queries] *)
Fixpoint search_each (queries : list str) (all_papers : list Paper)
  (seen_ids : list str) : list Paper :=
  match queries with
  | [] => all_papers
  | query :: rest =>
      let (all1, seen1) := attempt (pubmed query) all_papers seen_ids in
      let (all2, seen2) :=
        if pubmed_only then (all1, seen1)
        else attempt (biorxiv query) all1 seen1 in
      search_each rest all2 seen2
  end.


(** The papers that the searches returned, in the order of the loop. *)
Definition found (queries : list str) : list Paper :=
  flat_map (fun query =>
    papers_of (pubmed query)
    ++ (if pubmed_only then [] else papers_of (biorxiv query)))
    queries.

End Search.

End Main.


(* ================================================================= *)
(** ** [src/database.py]: search runs and statistics *)

Module SearchRuns.

Record SearchRun : Type := {
  id : Z;
  run_date : str;
  papers_found : Z;
  new_papers : Z;
  high_priority_count : Z
}.

(** The table [search_runs], with the value that AUTOINCREMENT keeps for
    it in [sqlite_sequence]: the largest id it ever gave. *)
Record run_table : Type := {
  rows : list SearchRun;
  sequence : Z
}.

(** Can SQLite hold this [int]?  Its INTEGER has 64 bits. *)
Definition int64 (n : Z) : bool :=
  ((- 2 ^ 63 <=? n) && (n <? 2 ^ 63))%Z.

(** The largest id of the rows, 0 when there is none. *)
Definition largest_id (l : list SearchRun) : Z :=
  fold_right (fun r m => Z.max r.(id) m) 0%Z l.

(** [record_search_run]: [now] is [datetime.now().isoformat()].  The new
    id is one more than the largest id the table has or ever gave (the
    embedding leaves out the failure of SQLite when that is the largest
    64-bit integer). *)
Definition record_search_run (now : str)
  (papers_found' new_papers' high_priority_count' : Z) (t : run_table)
  : result Z * run_table :=
  if int64 papers_found' && int64 new_papers' && int64 high_priority_count' then
    let id' := (Z.max (largest_id t.(rows)) t.(sequence) + 1)%Z in
    (Ok id',
     {| rows := t.(rows) ++ [{| id := id'; run_date := now;
                                papers_found := papers_found';
                                new_papers := new_papers';
                                high_priority_count := high_priority_count' |}];
        sequence := id' |})
  else (Raised OverflowError, t).

Definition by_run_date (r r' : SearchRun) : bool :=
  Text.leb r'.(run_date) r.(run_date).

(** [get_search_runs]: [ORDER BY run_date DESC LIMIT ?] *)
Definition get_search_runs (limit : Z) (t : run_table) : list SearchRun :=
  Database.sql_limit limit (order_by by_run_date t.(rows)).

End SearchRuns.

Module Statistics.

Import Database.

(** The dictionary [get_stats] returns; the dictionary [by_source] is kept
    as the list of its items. *)
Record Stats : Type := {
  total_papers : Z;
  by_source : list (str * Z);
  ranked_papers : Z;
  high_priority : Z;
  total_runs : Z;
  starred_papers : Z;
  dismissed_papers : Z;
  seed_papers : Z
}.

(** One more row of the group of [s]. *)
Fixpoint tally (s : str) (groups : list (str * Z)) : list (str * Z) :=
  match groups with
  | [] => [(s, 1%Z)]
  | (k, n) :: rest =>
      if Text.eqb k s then (k, (n + 1)%Z) :: rest
      else (k, n) :: tally s rest
  end.

(** [SELECT source, COUNT( * ) FROM papers GROUP BY source]: SQL leaves the
    order of the groups open, here it is that of their first rows. *)
Definition group_by_source (t : table) : list (str * Z) :=
  fold_left (fun groups r => tally r.(source) groups) t [].

(** [groups.get(s, 0)] *)
Fixpoint count_of (s : str) (groups : list (str * Z)) : Z :=
  match groups with
  | [] => 0%Z
  | (k, n) :: rest => if Text.eqb k s then n else count_of s rest
  end.

(** The literal 0.7 as a binary64 number. *)
Definition seven_tenths : float := S754_finite false 6305039478318694 (-53).

(** [get_stats] *)
Definition get_stats (t : table) (runs : SearchRuns.run_table) : Stats := {|
  total_papers := Z.of_nat (List.length t);
  by_source := group_by_source t;
  ranked_papers := count_when (fun r => negb (is_null r.(relevance_score))) t;
  high_priority := count_when (fun r => sql_real_ge r.(relevance_score) seven_tenths) t;
  total_runs := Z.of_nat (List.length runs.(SearchRuns.rows));
  starred_papers := count_when (feedback_is (Text.lit "star")) t;
  dismissed_papers := count_when (feedback_is (Text.lit "dismiss")) t;
  seed_papers := count_when seed_row t
|}.

(** The sum of the counts of the groups. *)
Definition total (groups : list (str * Z)) : Z :=
  fold_right (fun g m => (snd g + m)%Z) 0%Z groups.

End Statistics.

(* ================================================================= *)
(** ** More sample data *)

Module MoreSamples.


(** A batch of two papers with the clock readings of their inserts, and
    the same papers at a later run. *)
Definition batch : list (Paper * (str * str)) :=
  [ (Samples.preprint, (Samples.day1, Samples.ts1));
    (Samples.indexed, (Samples.day2, Samples.ts2)) ].

Definition batch_again : list (Paper * (str * str)) :=
  [ (Samples.preprint, (Samples.day3, Samples.ts3));
    (Samples.indexed, (Samples.day3, Samples.ts3)) ].

(** An oracle that answers for the indexed paper only. *)
Definition oracle (p : Paper) : RankPapers.outcome str :=
  if Text.eqb (Pubmed.id p) (Text.lit "39000001")
  then RankPapers.Done Samples.reply_object
  else RankPapers.Failed (RankPapers.ApiError (Text.lit "overloaded")).

Definition describe (f : RankPapers.failure) : str :=
  match f with
  | RankPapers.ApiError message => message
  | RankPapers.Python _ => Text.lit "error"
  end.

(** A progress callback that raises. *)
Definition failing_callback : RankPapers.progress :=
  fun _ _ _ _ => RankPapers.Failed (RankPapers.Python TypeError).

(** Items of the preprint servers. *)
Definition liver_item : BioRxivClient.item := {|
  BioRxivClient.title := Some (Text.lit "Bile acids in the liver");
  BioRxivClient.abstract := Some (Text.lit "Disease models of the gut microbiome.");
  BioRxivClient.authors := Some (Text.lit "Doe, Jane A; Roe, Richard");
  BioRxivClient.doi := Some Samples.doi_x;
  BioRxivClient.date := Some (Text.lit "2025-01-09")
|}.

Definition kidney_item : BioRxivClient.item := {|
  BioRxivClient.title := Some (Text.lit "Kidney organoids");
  BioRxivClient.abstract := None;
  BioRxivClient.authors := None;
  BioRxivClient.doi := None;
  BioRxivClient.date := None
|}.

(** A server with three items on two pages, which reports a total of 101
    on the first page only. *)
Definition two_pages (cursor : Z) : BioRxivClient.reply :=
  if (cursor =? 0)%Z then
    BioRxivClient.Page [liver_item; kidney_item]
      [BioRxivClient.NoTotal; BioRxivClient.Total (Ok 101%Z)]
  else if (cursor =? 100)%Z then
    BioRxivClient.Page [kidney_item] [BioRxivClient.NoTotal]
  else BioRxivClient.RequestFailed.

(** A server that never reports a total. *)
Definition no_total (cursor : Z) : BioRxivClient.reply :=
  BioRxivClient.Page [liver_item; kidney_item] [BioRxivClient.NoTotal].

(** bioRxiv answers, medRxiv fails. *)
Definition biorxiv_only (server : str) : result (list BioRxivClient.item) :=
  if Text.eqb server (Text.lit "biorxiv") then Ok [kidney_item; liver_item]
  else Raised ValueError.

End MoreSamples.

(* ================================================================= *)
(** * Properties *)

(** ** Text *)

Section TextFacts.

Lemma text_eqb_eq (a b : str) : Text.eqb a b = true <-> a = b.
Proof.
  revert b; induction a as [|x a IH]; intros [|y b]; simpl;
    try (split; [discriminate | congruence]); try tauto.
  rewrite andb_true_iff, Ascii.eqb_eq, IH.
  split; [intros [-> ->]; reflexivity | intros [= -> ->]; auto].
Qed.

Lemma text_eqb_refl (a : str) : Text.eqb a a = true.
Proof. apply text_eqb_eq; reflexivity. Qed.

Lemma text_eqb_neq (a b : str) : Text.eqb a b = false <-> a <> b.
Proof.
  rewrite <- text_eqb_eq. destruct (Text.eqb a b); split; congruence.
Qed.

Lemma truthy_nonempty (s : str) : Text.truthy s = true <-> s <> [].
Proof. destruct s; simpl; split; congruence. Qed.

End TextFacts.

(* ================================================================= *)
(** ** The store: duplicates *)

Section StoreDuplicates.

Import Database.

Lemma fetched_filter {A : Type} (f : A -> bool) (l : list A) :
  fetched (filter f l) = existsb f l.
Proof.
  induction l as [|a l IH]; simpl; [reflexivity|].
  destruct (f a); simpl; auto.
Qed.

Lemma paper_exists_run (x : str) (t : table) :
  paper_exists x t = (Ok (existsb (has_id x) t), t).
Proof. unfold paper_exists, bind, select, ret. now rewrite fetched_filter. Qed.

Lemma carries_doi_iff (d : str) (r : row) :
  carries_doi d r = true <-> r.(doi) = Some d.
Proof.
  unfold carries_doi. destruct r.(doi) as [v|]; simpl.
  - rewrite andb_true_r, text_eqb_eq. split; congruence.
  - split; discriminate.
Qed.

Lemma doi_duplicate_run (p : Paper) (t : table) :
  doi_duplicate p t =
  (Ok match Pubmed.doi p with
      | Some d => Text.truthy d && existsb (carries_doi d) t
      | None => false
      end, t).
Proof.
  unfold doi_duplicate. destruct (Pubmed.doi p) as [d|]; [|reflexivity].
  destruct (Text.truthy d) eqn:T; [|reflexivity].
  unfold doi_exists. rewrite T; simpl.
  unfold bind, select, ret. now rewrite fetched_filter.
Qed.

(** [insert_paper] in one equation: it never raises, and it appends the
    new row exactly when neither test finds a duplicate. *)
Lemma insert_paper_run (p : Paper) (now ts : str) (t : table) :
  insert_paper p now ts t =
  if is_duplicate p t then (Ok false, t)
  else (Ok true, t ++ [new_row p now ts]).
Proof.
  unfold insert_paper, is_duplicate, bind at 1.
  rewrite paper_exists_run.
  destruct (existsb (has_id (Pubmed.id p)) t) eqn:E; [reflexivity|].
  unfold bind at 1. rewrite doi_duplicate_run. simpl orb.
  assert (Hins : (insert (new_row p now ts);;; ret true) t
                 = (Ok true, t ++ [new_row p now ts])).
  { unfold bind, insert, ret.
    change (existsb _ t) with (existsb (has_id (Pubmed.id p)) t).
    now rewrite E. }
  destruct (Pubmed.doi p) as [d|]; [|exact Hins].
  destruct (Text.truthy d && existsb (carries_doi d) t); [reflexivity|exact Hins].
Qed.

Lemma is_duplicate_after_insert (p : Paper) (now ts : str) (t : table) :
  is_duplicate p (t ++ [new_row p now ts]) = true.
Proof.
  unfold is_duplicate. rewrite existsb_app. simpl.
  unfold has_id at 2. simpl. rewrite text_eqb_refl.
  now rewrite orb_true_r.
Qed.

(** A second insert of the same paper changes nothing, whatever the first
    one did. *)
Lemma insert_paper_twice (p : Paper) (now ts now' ts' : str) (t : table) :
  let t1 := snd (insert_paper p now ts t) in
  insert_paper p now' ts' t1 = (Ok false, t1).
Proof.
  simpl. rewrite (insert_paper_run p now ts t).
  destruct (is_duplicate p t) eqn:D; simpl; rewrite insert_paper_run.
  - now rewrite D.
  - now rewrite is_duplicate_after_insert.
Qed.

(** After a paper went in, a paper with its DOI stays out. *)
Lemma insert_paper_same_doi (p1 p2 : Paper) (d now1 ts1 now2 ts2 : str)
  (t : table) :
  Pubmed.doi p1 = Some d -> Pubmed.doi p2 = Some d -> d <> [] ->
  is_duplicate p1 t = false ->
  insert_paper p1 now1 ts1 t = (Ok true, t ++ [new_row p1 now1 ts1]) /\
  insert_paper p2 now2 ts2 (t ++ [new_row p1 now1 ts1])
  = (Ok false, t ++ [new_row p1 now1 ts1]).
Proof.
  intros D1 D2 Hd Hnew. split.
  - now rewrite insert_paper_run, Hnew.
  - rewrite insert_paper_run.
    replace (is_duplicate p2 (t ++ [new_row p1 now1 ts1])) with true;
      [reflexivity|].
    symmetry. unfold is_duplicate. rewrite D2.
    apply orb_true_iff; right.
    apply andb_true_iff; split; [now apply truthy_nonempty|].
    rewrite existsb_app. apply orb_true_iff; right. simpl.
    rewrite orb_false_r. apply carries_doi_iff. exact D1.
Qed.

(** C1.  Two papers with different ids and the same DOI, not empty, are
    inserted into an empty store, in either order: the first insert
    returns [True] and stores its paper, the second returns [False] and
    stores nothing, so the store holds exactly one row, that of the paper
    inserted first. *)
Theorem cross_source_doi_merge
  (p1 p2 : Paper) (d now1 ts1 now2 ts2 : str) :
  Pubmed.id p1 <> Pubmed.id p2 ->
  Pubmed.doi p1 = Some d -> Pubmed.doi p2 = Some d -> d <> [] ->
  (insert_paper p1 now1 ts1 [] = (Ok true, [new_row p1 now1 ts1]) /\
   insert_paper p2 now2 ts2 [new_row p1 now1 ts1]
   = (Ok false, [new_row p1 now1 ts1])) /\
  (insert_paper p2 now1 ts1 [] = (Ok true, [new_row p2 now1 ts1]) /\
   insert_paper p1 now2 ts2 [new_row p2 now1 ts1]
   = (Ok false, [new_row p2 now1 ts1])).
Proof.
  intros _ D1 D2 Hd. split.
  - apply (insert_paper_same_doi p1 p2 d now1 ts1 now2 ts2 []); auto.
    unfold is_duplicate. rewrite D1. simpl. now rewrite andb_false_r.
  - apply (insert_paper_same_doi p2 p1 d now1 ts1 now2 ts2 []); auto.
    unfold is_duplicate. rewrite D2. simpl. now rewrite andb_false_r.
Qed.

Lemma filter_none {A : Type} (f : A -> bool) (l : list A) :
  existsb f l = false -> filter f l = [].
Proof.
  induction l as [|a l IH]; simpl; [reflexivity|].
  destruct (f a); simpl; [discriminate|exact IH].
Qed.

Lemma count_id_absent (x : str) (t : table) :
  existsb (has_id x) t = false -> count_id x t = 0%nat.
Proof. intros E. unfold count_id. now rewrite filter_none. Qed.

Lemma count_id_present (x : str) (t : table) :
  unique_ids t -> existsb (has_id x) t = true -> count_id x t = 1%nat.
Proof.
  unfold unique_ids, count_id.
  induction t as [|r t IH]; simpl; [discriminate|].
  intros U E. inversion U as [|? ? Hnotin U']; subst.
  destruct (has_id x r) eqn:Hr; simpl.
  - f_equal. rewrite filter_none; [reflexivity|].
    destruct (existsb (has_id x) t) eqn:E'; [|reflexivity].
    exfalso. apply Hnotin.
    apply existsb_exists in E'. destruct E' as [r' [Hin Hr']].
    apply text_eqb_eq in Hr, Hr'. apply in_map_iff.
    exists r'. split; [congruence|exact Hin].
  - apply IH; assumption.
Qed.

Lemma count_id_app (x : str) (t t' : table) :
  count_id x (t ++ t') = (count_id x t + count_id x t')%nat.
Proof. unfold count_id. now rewrite filter_app, length_app. Qed.

(** C4, as amended.  Inserting a paper twice: the second call returns
    [False] and leaves the table as the first call left it, and the first
    call only ever appends to the table, so no stored row changes.  In a
    table with unique ids, the paper's id then has exactly one row, unless
    the first call rejected the paper for its DOI alone (its id was not
    stored but its DOI was), where its id has no row. *)
Theorem insert_paper_idempotent
  (p : Paper) (now ts now' ts' : str) (t : table) :
  unique_ids t ->
  let t1 := snd (insert_paper p now ts t) in
  insert_paper p now' ts' t1 = (Ok false, t1) /\
  (exists added, t1 = t ++ added) /\
  count_id (Pubmed.id p) t1 =
  (if negb (existsb (has_id (Pubmed.id p)) t) && is_duplicate p t
   then 0 else 1)%nat.
Proof.
  intros U t1. split; [apply insert_paper_twice|].
  subst t1. rewrite insert_paper_run.
  destruct (is_duplicate p t) eqn:D; simpl snd.
  - split; [exists []; now rewrite app_nil_r|].
    destruct (existsb (has_id (Pubmed.id p)) t) eqn:E; simpl.
    + now apply count_id_present.
    + now apply count_id_absent.
  - split; [now exists [new_row p now ts]|].
    rewrite andb_false_r, count_id_app.
    unfold is_duplicate in D. apply orb_false_iff in D. destruct D as [E _].
    rewrite (count_id_absent _ _ E).
    unfold count_id. simpl. unfold has_id. simpl.
    now rewrite text_eqb_refl.
Qed.

End StoreDuplicates.

(* ================================================================= *)
(** ** The store: seed promotion *)

Section SeedPromotion.

Import Database.

Lemma set_seed_frame (seed_src now ts : str) (r : row) :
  same_but_seed_columns r (set_seed seed_src now ts r).
Proof. unfold same_but_seed_columns; simpl; repeat split. Qed.

Lemma same_but_seed_columns_refl (r : row) : same_but_seed_columns r r.
Proof. unfold same_but_seed_columns; repeat split. Qed.

Lemma insert_seed_paper_known (p : Paper) (seed_src now now' ts : str)
  (t : table) :
  existsb (has_id (Pubmed.id p)) t = true ->
  insert_seed_paper p seed_src now now' ts t =
  (Ok false,
   map (fun r => if has_id (Pubmed.id p) r then set_seed seed_src now ts r else r) t).
Proof.
  intros E. unfold insert_seed_paper, bind at 1.
  rewrite paper_exists_run, E. reflexivity.
Qed.

Lemma insert_seed_paper_run (p : Paper) (seed_src now now' ts : str)
  (t : table) :
  insert_seed_paper p seed_src now now' ts t =
  if existsb (has_id (Pubmed.id p)) t
  then (Ok false,
        map (fun r => if has_id (Pubmed.id p) r
                      then set_seed seed_src now ts r else r) t)
  else (Ok true, t ++ [new_seed_row p seed_src now now' ts]).
Proof.
  destruct (existsb (has_id (Pubmed.id p)) t) eqn:E.
  - now apply insert_seed_paper_known.
  - unfold insert_seed_paper, bind at 1. rewrite paper_exists_run, E.
    unfold bind, insert, ret.
    change (existsb _ t) with (existsb (has_id (Pubmed.id p)) t).
    now rewrite E.
Qed.

(** C9.  When the id of [p] is stored, [insert_seed_paper] returns [False]
    and the table keeps its length; row by row, the new row equals the old
    one in every column but [is_seed], [seed_source], [user_feedback],
    [feedback_date] and [updated_at] (so the scored and the bibliographic
    columns are untouched), a row with another id is unchanged, and a row
    with the id of [p] has these five columns set to [TRUE], the source,
    ['star'] and the two clock readings. *)
Theorem insert_seed_paper_promotes
  (p : Paper) (seed_src now now' ts : str) (t : table) :
  fst (paper_exists (Pubmed.id p) t) = Ok true ->
  exists t',
    insert_seed_paper p seed_src now now' ts t = (Ok false, t') /\
    List.length t' = List.length t /\
    forall (i : nat) (r : row),
      nth_error t i = Some r ->
      exists r',
        nth_error t' i = Some r' /\
        same_but_seed_columns r r' /\
        (r.(id) <> Pubmed.id p -> r' = r) /\
        (r.(id) = Pubmed.id p ->
         r'.(is_seed) = Some true /\
         r'.(seed_source) = Some seed_src /\
         r'.(user_feedback) = Some (Text.lit "star") /\
         r'.(feedback_date) = Some now /\
         r'.(updated_at) = ts).
Proof.
  rewrite paper_exists_run. simpl. intros [= E].
  eexists. split; [apply insert_seed_paper_known; exact E|].
  split; [apply length_map|].
  intros i r Hi.
  rewrite nth_error_map, Hi. simpl.
  unfold has_id.
  destruct (Text.eqb r.(id) (Pubmed.id p)) eqn:Hid;
    (eexists; split; [reflexivity|]).
  - apply text_eqb_eq in Hid.
    split; [apply set_seed_frame|].
    split; [congruence|]. intros _. simpl. repeat split.
  - apply text_eqb_neq in Hid.
    split; [apply same_but_seed_columns_refl|].
    split; [reflexivity|congruence].
Qed.

End SeedPromotion.

(* ================================================================= *)
(** ** Floats: the order *)

Section FloatOrder.

Ltac compare_cases :=
  repeat match goal with
    | |- context [Z.compare ?a ?b] => destruct (Z.compare_spec a b)
    | |- context [Pos.compare_cont Eq ?a ?b] =>
        change (Pos.compare_cont Eq a b) with (Pos.compare a b);
        destruct (Pos.compare_spec a b)
    end.

Lemma float_leb_trans (x y z : float) :
  Float.leb x y = true -> Float.leb y z = true -> Float.leb x z = true.
Proof.
  unfold Float.leb, SFleb, SFcompare.
  destruct x as [[]|[]| |[] mx ex], y as [[]|[]| |[] my ey],
           z as [[]|[]| |[] mz ez];
    try reflexivity; try discriminate; simpl; compare_cases; simpl;
    try reflexivity; try discriminate; intros; lia.
Qed.

Lemma float_leb_total (x y : float) :
  x <> S754_nan -> y <> S754_nan ->
  Float.leb x y = true \/ Float.leb y x = true.
Proof.
  unfold Float.leb, SFleb, SFcompare.
  destruct x as [[]|[]| |[] mx ex], y as [[]|[]| |[] my ey];
    intros; try congruence; simpl; auto; compare_cases; simpl; auto; lia.
Qed.

Lemma float_leb_not_nan (x y : float) :
  Float.leb x y = true -> Float.is_nan x = false /\ Float.is_nan y = false.
Proof.
  unfold Float.leb, SFleb, SFcompare.
  destruct x as [[]|[]| |[] mx ex], y as [[]|[]| |[] my ey];
    try discriminate; auto.
Qed.

Lemma float_ltb_leb (x y : float) :
  Float.ltb x y = true -> Float.leb x y = true.
Proof.
  unfold Float.ltb, Float.leb, SFltb, SFleb.
  destruct (SFcompare x y) as [[]|]; congruence.
Qed.

Lemma float_ltb_not_nan (x y : float) :
  Float.ltb x y = true -> Float.is_nan x = false /\ Float.is_nan y = false.
Proof. intros H. apply float_leb_not_nan. now apply float_ltb_leb. Qed.

End FloatOrder.

(* ================================================================= *)
(** ** The stable sort *)

Section SortFacts.

Context {A : Type}.
Variable before : A -> A -> bool.

(** The elements that are sorted lie in a domain [D] on which [before] is
    total and transitive. *)
Variable D : A -> Prop.
Hypothesis before_total :
  forall x y, D x -> D y -> before x y = true \/ before y x = true.
Hypothesis before_trans :
  forall x y z, D x -> D y -> D z ->
    before x y = true -> before y z = true -> before x z = true.

Let R (x y : A) : Prop := before x y = true.

Lemma insert_sorted_perm (x : A) (l : list A) :
  Permutation (x :: l) (insert_sorted before x l).
Proof.
  induction l as [|y l IH]; simpl; [reflexivity|].
  destruct (before x y); [reflexivity|].
  etransitivity; [apply perm_swap|]. now apply perm_skip.
Qed.

Lemma order_by_perm (l : list A) : Permutation l (order_by before l).
Proof.
  induction l as [|x l IH]; simpl; [reflexivity|].
  etransitivity; [apply perm_skip, IH|]. apply insert_sorted_perm.
Qed.

Lemma order_by_in (l : list A) (x : A) : In x (order_by before l) <-> In x l.
Proof.
  split; apply Permutation_in;
    [symmetry|]; apply order_by_perm.
Qed.

Lemma insert_sorted_sorted (x : A) (l : list A) :
  D x -> Forall D l -> StronglySorted R l ->
  StronglySorted R (insert_sorted before x l).
Proof.
  intros Dx Dl Hs. induction Hs as [|y l Hs IH Hy]; simpl.
  - constructor; constructor.
  - inversion Dl as [|? ? Dy Dl']; subst.
    destruct (before x y) eqn:B.
    + constructor; [constructor; assumption|].
      constructor; [exact B|].
      rewrite Forall_forall in *. intros z Hz.
      apply (before_trans x y z); auto. apply Hy; exact Hz.
    + constructor; [apply IH; assumption|].
      assert (Byx : R y x).
      { destruct (before_total x y Dx Dy) as [H|H]; [congruence|exact H]. }
      apply (Permutation_Forall (insert_sorted_perm x l)).
      constructor; assumption.
Qed.

Lemma order_by_sorted (l : list A) :
  Forall D l -> StronglySorted R (order_by before l).
Proof.
  induction 1 as [|x l Dx Dl IH]; simpl; [constructor|].
  apply insert_sorted_sorted; auto.
  apply (Permutation_Forall (order_by_perm l)). exact Dl.
Qed.

End SortFacts.

Section SortedLists.

Context {A : Type} {R : A -> A -> Prop}.

Lemma in_firstn (n : nat) (l : list A) (x : A) : In x (firstn n l) -> In x l.
Proof.
  intros H. rewrite <- (firstn_skipn n l). apply in_or_app. now left.
Qed.

Lemma strongly_sorted_firstn (n : nat) (l : list A) :
  StronglySorted R l -> StronglySorted R (firstn n l).
Proof.
  intros Hs. revert n. induction Hs as [|x l Hs IH Hx]; intros [|n]; simpl;
    try constructor; auto.
  rewrite Forall_forall in *. intros y Hy. apply Hx.
  now apply (in_firstn n).
Qed.

Lemma strongly_sorted_nth (l : list A) :
  StronglySorted R l ->
  forall i j a b, (i < j)%nat ->
    nth_error l i = Some a -> nth_error l j = Some b -> R a b.
Proof.
  induction 1 as [|x l Hs IH Hx]; intros i j a b Hij Hi Hj.
  - destruct i; discriminate.
  - destruct j as [|j]; [lia|]. simpl in Hj.
    destruct i as [|i]; simpl in Hi.
    + injection Hi as <-. rewrite Forall_forall in Hx.
      apply Hx. eapply nth_error_In; exact Hj.
    + apply (IH i j); auto. lia.
Qed.

Lemma strongly_sorted_map {B : Type} (f : B -> A) (l : list B) :
  StronglySorted (fun x y => R (f x) (f y)) l -> StronglySorted R (map f l).
Proof.
  induction 1 as [|x l Hs IH Hx]; simpl; constructor; auto.
  rewrite Forall_forall in *. intros y Hy.
  apply in_map_iff in Hy. destruct Hy as [z [<- Hz]]. now apply Hx.
Qed.

End SortedLists.

(* ================================================================= *)
(** ** The store: the windowed query and the digest query *)

Section Queries.

Import Database.

Let D (r : row) : Prop := r.(relevance_score) <> Some S754_nan.

Lemma by_score_total (r r' : row) :
  D r -> D r' -> by_score r r' = true \/ by_score r' r = true.
Proof.
  unfold D, by_score, score_desc_nulls_last.
  destruct r.(relevance_score) as [x|], r'.(relevance_score) as [y|];
    intros Hx Hy; auto.
  assert (Hx' : x <> S754_nan) by (intros ->; now apply Hx).
  assert (Hy' : y <> S754_nan) by (intros ->; now apply Hy).
  destruct (float_leb_total x y Hx' Hy'); auto.
Qed.

Lemma by_score_trans (r1 r2 r3 : row) :
  D r1 -> D r2 -> D r3 ->
  by_score r1 r2 = true -> by_score r2 r3 = true -> by_score r1 r3 = true.
Proof.
  unfold by_score, score_desc_nulls_last. intros _ _ _.
  destruct r1.(relevance_score) as [x|], r2.(relevance_score) as [y|],
           r3.(relevance_score) as [z|]; try congruence.
  intros H1 H2. exact (float_leb_trans z y x H2 H1).
Qed.

Lemma limited_sorted (R : row -> row -> Prop) (limit : option Z) (l : list row) :
  StronglySorted R l -> StronglySorted R (limited limit l).
Proof.
  intros Hs. unfold limited, sql_limit.
  destruct limit as [n|]; [|exact Hs].
  destruct (n =? 0)%Z; [exact Hs|].
  destruct (n <? 0)%Z; [exact Hs|].
  now apply strongly_sorted_firstn.
Qed.

Lemma rows_since_sorted (since_date : str) (min_score : option float)
  (limit : option Z) (t : table) :
  no_nan t ->
  StronglySorted (fun r r' => by_score r r' = true)
    (rows_since since_date min_score limit t).
Proof.
  intros Hnan. unfold rows_since. apply limited_sorted.
  apply (order_by_sorted by_score D by_score_total by_score_trans).
  apply Forall_forall. intros r Hr. apply filter_In in Hr.
  apply Hnan. tauto.
Qed.

(** C5.  On a table whose scores are numbers, [get_papers_since] returns,
    for every date, score bound and limit, a list in which the papers
    with a score stand in non-increasing order of score and the papers
    without a score stand after all of them. *)
Theorem get_papers_since_ordering
  (since_date : str) (min_score : option float) (limit : option Z)
  (t : table) :
  no_nan t ->
  exists papers,
    get_papers_since since_date min_score limit t = (Ok papers, t) /\
    scored_first_descending papers.
Proof.
  intros Hnan. eexists. split; [reflexivity|].
  intros i j p q Hij Hp Hq.
  assert (Hs : StronglySorted
                 (fun p q => score_desc_nulls_last (Pubmed.relevance_score p)
                               (Pubmed.relevance_score q) = true)
                 (map _row_to_paper (rows_since since_date min_score limit t))).
  { apply strongly_sorted_map. apply rows_since_sorted. exact Hnan. }
  pose proof (strongly_sorted_nth _ Hs i j p q Hij Hp Hq) as H.
  simpl in H. unfold score_desc_nulls_last in H.
  destruct (Pubmed.relevance_score q) as [y|]; [|exact I].
  destruct (Pubmed.relevance_score p) as [x|]; [|discriminate].
  exists x. split; [reflexivity|exact H].
Qed.

(** *** Digests *)

Lemma update_run (cond : row -> bool) (set : row -> row) (t : table) :
  update cond set t = (Ok tt, map (fun r => if cond r then set r else r) t).
Proof. reflexivity. Qed.

(** An [UPDATE] that keeps ids and never clears a digest date keeps a
    digested paper digested, and a stored paper stored. *)
Lemma stored_update (x : str) (cond : row -> bool) (set : row -> row)
  (t : table) :
  (forall r, (set r).(id) = r.(id)) ->
  stored x t -> stored x (snd (update cond set t)).
Proof.
  intros Hid. unfold stored. simpl.
  induction t as [|r t IH]; simpl; [auto|].
  intros H. apply orb_true_iff in H. apply orb_true_iff.
  destruct H as [H|H]; [left|right; auto].
  unfold has_id in *. destruct (cond r); [rewrite Hid|]; exact H.
Qed.

Lemma digested_update (x : str) (cond : row -> bool) (set : row -> row)
  (t : table) :
  (forall r, (set r).(id) = r.(id)) ->
  (forall r, r.(last_digest_date) <> None -> (set r).(last_digest_date) <> None) ->
  digested x t -> digested x (snd (update cond set t)).
Proof.
  intros Hid Hkeep [Hs Hd]. split; [now apply stored_update|].
  simpl. apply Forall_map. revert Hd. apply Forall_impl.
  intros r Hr. destruct (cond r); [|exact Hr].
  rewrite Hid. intros E. apply Hkeep. now apply Hr.
Qed.

Lemma digested_mark_each (x : str) (paper_ids : list str) (now : str)
  (t : table) :
  digested x t -> digested x (snd (mark_each paper_ids now t)).
Proof.
  revert t. induction paper_ids as [|y ids IH]; intros t H; [exact H|].
  simpl. unfold bind at 1. rewrite update_run.
  apply IH. apply (digested_update x (has_id y) (set_last_digest_date now) t);
    [reflexivity| |exact H].
  intros r _. simpl. discriminate.
Qed.

Lemma mark_each_digests (x : str) (paper_ids : list str) (now : str)
  (t : table) :
  In x paper_ids -> stored x t ->
  digested x (snd (mark_each paper_ids now t)).
Proof.
  revert t. induction paper_ids as [|y ids IH]; intros t Hin Hs; [destruct Hin|].
  simpl. unfold bind at 1. rewrite update_run.
  destruct (Text.eqb y x) eqn:E.
  - apply text_eqb_eq in E. subst y. apply digested_mark_each. split.
    + apply (stored_update x (has_id x) (set_last_digest_date now) t);
        [reflexivity|exact Hs].
    + apply Forall_map. apply Forall_forall. intros r _ Hid.
      assert (Hr : r.(id) = x) by (destruct (has_id x r); exact Hid).
      unfold has_id. rewrite Hr, text_eqb_refl. simpl. discriminate.
  - apply IH.
    + destruct Hin as [->|Hin]; [|exact Hin].
      rewrite text_eqb_refl in E. discriminate.
    + apply (stored_update x (has_id y) (set_last_digest_date now) t);
        [reflexivity|exact Hs].
Qed.

Lemma mark_papers_digested_digests (x : str) (paper_ids : list str)
  (now : str) (t : table) :
  In x paper_ids -> stored x t ->
  digested x (snd (mark_papers_digested paper_ids now t)).
Proof.
  intros Hin Hs. destruct paper_ids as [|y ids]; [destruct Hin|].
  now apply mark_each_digests.
Qed.

Lemma digested_append (x : str) (r : row) (t : table) :
  existsb (has_id r.(id)) t = false ->
  digested x t -> digested x (t ++ [r]).
Proof.
  intros Hnew [Hs Hd]. split.
  - unfold stored in *. rewrite existsb_app, Hs. reflexivity.
  - apply Forall_app. split; [exact Hd|].
    constructor; [|constructor]. intros E. exfalso.
    rewrite E in Hnew. unfold stored in Hs. congruence.
Qed.

Lemma digested_run_op (x : str) (t : table) (o : op) :
  digested x t -> digested x (run_op t o).
Proof.
  intros H. destruct o; simpl.
  - rewrite insert_paper_run. destruct (is_duplicate paper t) eqn:E; [exact H|].
    simpl. apply digested_append; [|exact H].
    unfold is_duplicate in E. apply orb_false_iff in E. apply E.
  - rewrite insert_seed_paper_run.
    destruct (existsb (has_id (Pubmed.id paper)) t) eqn:E; simpl.
    + apply (digested_update x (has_id (Pubmed.id paper))
               (set_seed seed_src now ts) t); [reflexivity| |exact H].
      intros r Hr. exact Hr.
    + apply digested_append; [exact E|exact H].
  - apply (digested_update x (has_id paper_id)
             (set_ranking summary' score rationale projects ts) t);
      [reflexivity| |exact H].
    intros r Hr. exact Hr.
  - apply (digested_update x (has_id paper_id) set_user_read t);
      [reflexivity| |exact H].
    intros r Hr. exact Hr.
  - apply (digested_update x (has_id paper_id) set_added_to_zotero t);
      [reflexivity| |exact H].
    intros r Hr. exact Hr.
  - destruct paper_ids as [|y ids]; [exact H|].
    now apply digested_mark_each.
  - apply (digested_update x (has_id paper_id)
             (set_user_feedback feedback
                (if some_truthy feedback then Some now else None) ts) t);
      [reflexivity| |exact H].
    intros r Hr. exact Hr.
Qed.

Lemma digested_run_ops (x : str) (ops : list op) (t : table) :
  digested x t -> digested x (run_ops t ops).
Proof.
  revert t. induction ops as [|o ops IH]; intros t H; [exact H|].
  simpl. apply IH. now apply digested_run_op.
Qed.

Lemma rows_for_digest_in (since : str) (min_score : option float) (t : table)
  (r : row) :
  In r (rows_for_digest since min_score t) ->
  In r t /\ r.(last_digest_date) = None /\ r.(is_seed) <> Some true.
Proof.
  unfold rows_for_digest. rewrite order_by_in, filter_In.
  unfold digest_cond. intros [Hin Hc].
  repeat (apply andb_true_iff in Hc; destruct Hc as [Hc ?]).
  split; [exact Hin|]. split.
  - destruct r.(last_digest_date); [discriminate|reflexivity].
  - destruct r.(is_seed) as [[]|]; simpl in *; congruence.
Qed.

(** C6.  [get_papers_for_digest] returns only papers built from stored
    rows that have no digest date and are not seeds.  So once
    [mark_papers_digested] has been applied to the id of a stored paper,
    no digest query returns a paper of that id, after any later writes to
    the table, new scores among them. *)
Theorem digest_exclusion (since : str) (min_score : option float) (t : table) :
  (exists papers,
     get_papers_for_digest since min_score t = (Ok papers, t) /\
     forall P, In P papers ->
       exists r, In r t /\ P = _row_to_paper r /\
                 r.(last_digest_date) = None /\ r.(is_seed) <> Some true /\
                 Pubmed._is_seed P = false) /\
  (forall (paper_ids : list str) (now x : str) (ops : list op),
     In x paper_ids -> stored x t ->
     exists papers,
       get_papers_for_digest since min_score
         (run_ops (snd (mark_papers_digested paper_ids now t)) ops)
       = (Ok papers,
          run_ops (snd (mark_papers_digested paper_ids now t)) ops) /\
       forall P, In P papers -> Pubmed.id P <> x).
Proof.
  assert (Hrows : forall t' P,
             In P (map _row_to_paper (rows_for_digest since min_score t')) ->
             exists r, In r t' /\ P = _row_to_paper r /\
                       r.(last_digest_date) = None /\ r.(is_seed) <> Some true).
  { intros t' P HP. apply in_map_iff in HP. destruct HP as [r [<- Hr]].
    apply rows_for_digest_in in Hr. exists r. tauto. }
  split.
  - eexists. split; [reflexivity|]. intros P HP.
    destruct (Hrows t P HP) as [r [Hin [-> [Hd Hs]]]].
    exists r. repeat split; auto.
    simpl. destruct r.(is_seed) as [[]|]; simpl; congruence.
  - intros paper_ids now x ops Hin Hst.
    eexists. split; [reflexivity|]. intros P HP.
    destruct (Hrows _ P HP) as [r [Hr [-> [Hd _]]]]. simpl. intros E.
    pose proof (digested_run_ops x ops _
                  (mark_papers_digested_digests x paper_ids now t Hin Hst))
      as [_ Hall].
    rewrite Forall_forall in Hall. exact (Hall r Hr E Hd).
Qed.

(** *** The invariants of the table

    Every table that a history of writes builds from the empty table has
    unique ids and no NaN among its scores. *)

Lemma sql_real_not_nan (x : option float) : sql_real x <> Some S754_nan.
Proof. destruct x as [[]|]; simpl; discriminate. Qed.

Lemma no_nan_update (cond : row -> bool) (set : row -> row) (t : table) :
  (forall r, r.(relevance_score) <> Some S754_nan ->
             (set r).(relevance_score) <> Some S754_nan) ->
  no_nan t -> no_nan (snd (update cond set t)).
Proof.
  intros Hset Ht r Hr. simpl in Hr. apply in_map_iff in Hr.
  destruct Hr as [r0 [<- Hr0]]. specialize (Ht r0 Hr0).
  destruct (cond r0); auto.
Qed.

Lemma no_nan_append (r : row) (t : table) :
  r.(relevance_score) <> Some S754_nan -> no_nan t -> no_nan (t ++ [r]).
Proof.
  intros Hr Ht r' Hin. apply in_app_or in Hin.
  destruct Hin as [Hin|[<-|[]]]; auto.
Qed.

Lemma unique_ids_update (cond : row -> bool) (set : row -> row) (t : table) :
  (forall r, (set r).(id) = r.(id)) ->
  unique_ids t -> unique_ids (snd (update cond set t)).
Proof.
  intros Hid. unfold unique_ids. simpl. rewrite map_map.
  replace (map (fun r => id (if cond r then set r else r)) t) with (map id t);
    [auto|].
  apply map_ext. intros r. destruct (cond r); [now rewrite Hid|reflexivity].
Qed.

Lemma unique_ids_append (r : row) (t : table) :
  existsb (has_id r.(id)) t = false ->
  unique_ids t -> unique_ids (t ++ [r]).
Proof.
  unfold unique_ids. intros Hnew Ht. rewrite map_app. simpl.
  apply NoDup_app; [exact Ht|repeat constructor; simpl; tauto|].
  intros x Hx [<-|[]]. apply in_map_iff in Hx. destruct Hx as [r' [E Hr']].
  assert (H : existsb (has_id r.(id)) t = true).
  { apply existsb_exists. exists r'. split; [exact Hr'|].
    unfold has_id. now apply text_eqb_eq. }
  congruence.
Qed.

Lemma mark_each_run (paper_ids : list str) (now : str) (t : table) :
  (unique_ids t -> unique_ids (snd (mark_each paper_ids now t))) /\
  (no_nan t -> no_nan (snd (mark_each paper_ids now t))).
Proof.
  revert t. induction paper_ids as [|y ids IH]; intros t; [split; auto|].
  change (mark_each (y :: ids) now t)
    with (mark_each ids now
            (snd (update (has_id y) (set_last_digest_date now) t))).
  split; intros H; apply IH.
  - apply (unique_ids_update (has_id y) (set_last_digest_date now) t);
      [reflexivity|exact H].
  - apply (no_nan_update (has_id y) (set_last_digest_date now) t);
      [auto|exact H].
Qed.

Lemma invariants_run_op (t : table) (o : op) :
  unique_ids t /\ no_nan t -> unique_ids (run_op t o) /\ no_nan (run_op t o).
Proof.
  intros [U N]. destruct o; simpl.
  - rewrite insert_paper_run. destruct (is_duplicate paper t) eqn:E; [auto|].
    unfold is_duplicate in E. apply orb_false_iff in E. destruct E as [E _].
    simpl. split.
    + now apply unique_ids_append.
    + apply no_nan_append; [apply sql_real_not_nan|exact N].
  - rewrite insert_seed_paper_run.
    destruct (existsb (has_id (Pubmed.id paper)) t) eqn:E; simpl; split.
    + apply (unique_ids_update (has_id (Pubmed.id paper))
               (set_seed seed_src now ts) t); [reflexivity|exact U].
    + apply (no_nan_update (has_id (Pubmed.id paper))
               (set_seed seed_src now ts) t); [auto|exact N].
    + now apply unique_ids_append.
    + apply no_nan_append; [apply sql_real_not_nan|exact N].
  - split.
    + apply (unique_ids_update (has_id paper_id)
               (set_ranking summary' score rationale projects ts) t);
        [reflexivity|exact U].
    + apply (no_nan_update (has_id paper_id)
               (set_ranking summary' score rationale projects ts) t);
        [|exact N].
      intros r _. apply sql_real_not_nan.
  - split.
    + apply (unique_ids_update (has_id paper_id) set_user_read t);
        [reflexivity|exact U].
    + apply (no_nan_update (has_id paper_id) set_user_read t); [auto|exact N].
  - split.
    + apply (unique_ids_update (has_id paper_id) set_added_to_zotero t);
        [reflexivity|exact U].
    + apply (no_nan_update (has_id paper_id) set_added_to_zotero t);
        [auto|exact N].
  - destruct paper_ids as [|y ids]; [auto|].
    split; now apply mark_each_run.
  - split.
    + apply (unique_ids_update (has_id paper_id)
               (set_user_feedback feedback
                  (if some_truthy feedback then Some now else None) ts) t);
        [reflexivity|exact U].
    + apply (no_nan_update (has_id paper_id)
               (set_user_feedback feedback
                  (if some_truthy feedback then Some now else None) ts) t);
        [auto|exact N].
Qed.

Lemma invariants_run_ops (ops : list op) :
  unique_ids (run_ops [] ops) /\ no_nan (run_ops [] ops).
Proof.
  unfold run_ops.
  assert (H : forall t, unique_ids t /\ no_nan t ->
                        unique_ids (fold_left run_op ops t)
                        /\ no_nan (fold_left run_op ops t)).
  { induction ops as [|o ops IH]; intros t Ht; [exact Ht|].
    simpl. apply IH. now apply invariants_run_op. }
  apply H. split; [constructor|intros r []].
Qed.

End Queries.

(* ================================================================= *)
(** ** The ranker *)

Section RankerFacts.

Import Ranker.

Variable json_loads : str -> option json.
Variable float_of_str : str -> option float.

Lemma split_on_nonempty (sep s cur : str) (skip : nat) :
  exists piece rest, Text.split_on sep cur s skip = piece :: rest.
Proof.
  revert cur skip. induction s as [|c s IH]; intros cur skip; simpl.
  - now exists cur, [].
  - destruct skip as [|k]; [|apply IH].
    destruct (Text.startswith sep (c :: s)); [|apply IH].
    now exists cur, (Text.split_on sep [] s (List.length sep - 1)).
Qed.

(** The fence handling never raises: after [startswith], the split has a
    second piece. *)
Lemma strip_fence_total (content : str) :
  exists cleaned, strip_fence content = Ok cleaned.
Proof.
  unfold strip_fence.
  destruct (Text.startswith fence content) eqn:E; [|now exists content].
  destruct content as [|c s]; [discriminate|].
  unfold Text.split_sep. cbn [Text.split_on]. rewrite E.
  destruct (split_on_nonempty fence s [] (List.length fence - 1))
    as [piece [rest ->]].
  simpl. eexists. reflexivity.
Qed.

Lemma float_mul_nonneg (s w : float) :
  Float.leb Float.zero s = true -> Float.leb Float.zero w = true ->
  Float.is_nan (Float.mul s w) = true
  \/ Float.leb Float.zero (Float.mul s w) = true.
Proof.
  unfold Float.mul, SFmul.
  destruct s as [ss|[]| |[] ms es], w as [sw|[]| |[] mw ew];
    try discriminate; intros _ _; simpl; auto.
  unfold binary_round_aux.
  destruct (shr_fexp _ _ _ _ _) as [mrs e].
  destruct (shr_fexp _ _ _ _ _) as [mrs' e'].
  destruct (shr_m mrs'); simpl; auto.
  destruct (e' <=? 971)%Z; simpl; auto.
Qed.

Lemma float_min_one_bounds (p : float) :
  Float.is_nan p = true \/ Float.leb Float.zero p = true ->
  Float.leb Float.zero (Float.min Float.one p) = true /\
  Float.leb (Float.min Float.one p) Float.one = true.
Proof.
  intros Hp. unfold Float.min.
  destruct (Float.ltb p Float.one) eqn:L; [|split; reflexivity].
  split; [|now apply float_ltb_leb].
  destruct Hp as [Hp|Hp]; [|exact Hp].
  apply float_ltb_not_nan in L. destruct L; congruence.
Qed.

Lemma get_dict (items : list (str * json)) (key : str) (default : json) :
  exists v, get (JDict items) key default = Ok v.
Proof. simpl. destruct (lookup items key); eexists; reflexivity. Qed.

(** C2.  When the reply decodes to an object whose raw score [s] lies in
    [0, 1] and the journal's configured weight [w] is not negative,
    [rank_paper] returns a result whose score is [min(1.0, s * w)]; the
    score is not negative and not above 1.0, and [update_paper_ranking]
    stores exactly this number in every row of the id it is given. *)
Theorem rank_paper_score_clamp
  (config : ConfigLoader.Config) (paper : Paper) (response_text content : str)
  (items : list (str * json)) (raw : json) (s w : float) :
  strip_fence (Text.strip response_text) = Ok content ->
  json_loads content = Some (JDict items) ->
  get (JDict items) (Text.lit "relevance_score") (JFloat Float.half) = Ok raw ->
  py_float float_of_str raw = Ok s ->
  Float.leb Float.zero s = true -> Float.leb s Float.one = true ->
  ConfigLoader.get_journal_weight config (Pubmed.journal paper) = w ->
  Float.leb Float.zero w = true ->
  exists r,
    rank_paper json_loads float_of_str config paper response_text = Ok r /\
    r.(relevance_score) = Float.min Float.one (Float.mul s w) /\
    Float.leb Float.zero r.(relevance_score) = true /\
    Float.leb r.(relevance_score) Float.one = true /\
    forall (t : Database.table) (paper_id summary' rationale : str)
           (projects : list str) (ts : str) (row : Database.row),
      In row (snd (Database.update_paper_ranking paper_id summary'
                     r.(relevance_score) rationale projects ts t)) ->
      Database.id row = paper_id ->
      Database.relevance_score row = Some (Float.min Float.one (Float.mul s w)).
Proof.
  intros Hc Hj Hg Hf Hs0 Hs1 Hw Hw0.
  pose proof (float_min_one_bounds _ (float_mul_nonneg s w Hs0 Hw0)) as [B0 B1].
  destruct (get_dict items (Text.lit "summary") (JStr [])) as [v1 H1].
  destruct (get_dict items (Text.lit "ranking_rationale") (JStr [])) as [v2 H2].
  destruct (get_dict items (Text.lit "matched_projects") (JList [])) as [v3 H3].
  eexists. split.
  - unfold rank_paper. rewrite Hc. cbn [bind]. rewrite Hj, Hg. cbn [bind].
    rewrite Hf. cbn [bind]. rewrite Hw, H1, H2, H3. cbn [bind]. reflexivity.
  - simpl. repeat split; auto.
    intros t paper_id summary' rationale projects ts row Hin Hid.
    simpl in Hin. apply in_map_iff in Hin. destruct Hin as [r0 [<- _]].
    unfold Database.has_id in *.
    destruct (Text.eqb (Database.id r0) paper_id) eqn:E.
    + simpl. apply float_leb_not_nan in B0. destruct B0 as [_ ->]. reflexivity.
    + apply text_eqb_neq in E. contradiction.
Qed.

(** C3.  When the reply, after the fence handling, is not something
    [json.loads] decodes, [rank_paper] raises nothing and returns the
    score 0.5, a rationale and a summary that are the non-empty failure
    markers, and an empty list of projects. *)
Theorem rank_paper_fallback
  (config : ConfigLoader.Config) (paper : Paper) (response_text : str) :
  (forall content,
     strip_fence (Text.strip response_text) = Ok content ->
     json_loads content = None) ->
  exists r,
    rank_paper json_loads float_of_str config paper response_text = Ok r /\
    r.(relevance_score) = Float.half /\
    r.(ranking_rationale) = JStr (Text.lit "[Failed to parse ranking response]") /\
    r.(summary) = JStr (Text.lit "[Failed to generate summary]") /\
    Text.lit "[Failed to parse ranking response]" <> [] /\
    Text.lit "[Failed to generate summary]" <> [] /\
    r.(matched_projects) = JList [].
Proof.
  intros Hbad.
  destruct (strip_fence_total (Text.strip response_text)) as [content Hc].
  exists fallback. split.
  - unfold rank_paper. rewrite Hc. simpl. now rewrite (Hbad content Hc).
  - repeat split; discriminate.
Qed.

(** The fallback is for text that does not decode.  A reply that decodes
    to something other than an object (a number, a list) leaves
    [rank_paper] by an [AttributeError], raised by [data.get]. *)
Lemma rank_paper_not_an_object
  (config : ConfigLoader.Config) (paper : Paper) (response_text content : str)
  (data : json) :
  strip_fence (Text.strip response_text) = Ok content ->
  json_loads content = Some data ->
  (forall items, data <> JDict items) ->
  rank_paper json_loads float_of_str config paper response_text
  = Raised AttributeError.
Proof.
  intros Hc Hj Hd. unfold rank_paper. rewrite Hc. cbn [bind]. rewrite Hj.
  destruct data; try reflexivity. now destruct (Hd items).
Qed.

End RankerFacts.

(* ================================================================= *)
(** ** The feedback selector *)

Section FeedbackFacts.

Import Feedback.

(** Where [informativeness] does what its comments say: a score that is
    present and not zero is used as it is, an absent score counts 0.5. *)
Lemma informativeness_nonzero (p : Paper) :
  match Pubmed.relevance_score p with
  | Some x =>
      Float.truthy x = true ->
      informativeness p = if is_starred p then Float.sub Float.one x else x
  | None =>
      informativeness p
      = if is_starred p then Float.sub Float.one Float.half else Float.half
  end.
Proof.
  unfold informativeness, score_or_half.
  destruct (Pubmed.relevance_score p) as [x|]; [|reflexivity].
  now intros ->.
Qed.

(** C8, at the input where the code departs from it.  A starred paper
    with the score 0.0 gets the informativeness 0.5, where one minus its
    score is 1.0; a dismissed paper with the score 0.0 gets 0.5 too, where
    its score is 0.0. *)
Theorem informativeness_of_zero_score :
  informativeness Samples.starred_zero = Float.half /\
  Float.sub Float.one Float.zero = Float.one /\
  informativeness Samples.dismissed_zero = Float.half /\
  Float.half <> Float.one /\ Float.half <> Float.zero.
Proof. repeat split; discriminate. Qed.

(** The sort of [_select_examples] keeps the papers and, when no key is
    NaN, puts them in non-increasing order of informativeness. *)
Lemma sorted_papers_perm (papers : list Paper) :
  Permutation papers (sorted_papers papers).
Proof. apply order_by_perm. Qed.

Lemma sorted_papers_descending (papers : list Paper) :
  Forall (fun p => informativeness p <> S754_nan) papers ->
  StronglySorted
    (fun p q => Float.leb (informativeness q) (informativeness p) = true)
    (sorted_papers papers).
Proof.
  apply (order_by_sorted
           (fun p q => Float.leb (informativeness q) (informativeness p))
           (fun p => informativeness p <> S754_nan)).
  - intros p q Hp Hq. destruct (float_leb_total _ _ Hp Hq); auto.
  - intros p q r _ _ _ H1 H2. exact (float_leb_trans _ _ _ H2 H1).
Qed.

Lemma select_loop_firstn (todo : list Paper) (max_count : Z)
  (selected : list Paper) (seen_projects : list str) :
  select_loop todo max_count selected seen_projects
  = selected ++ firstn (Z.to_nat (max_count - len selected)) todo.
Proof.
  revert selected seen_projects.
  induction todo as [|p todo IH]; intros selected seen; simpl.
  - now rewrite firstn_nil, app_nil_r.
  - destruct (len selected >=? max_count)%Z eqn:G.
    + apply Z.geb_le in G.
      replace (Z.to_nat (max_count - len selected)) with 0%nat by lia.
      now rewrite app_nil_r.
    + rewrite Z.geb_leb in G. apply Z.leb_gt in G.
      replace (len selected <? max_count)%Z with true
        by (symmetry; now apply Z.ltb_lt).
      rewrite orb_true_r, IH.
      replace (Z.to_nat (max_count - len selected))
        with (S (Z.to_nat (max_count - len (selected ++ [p])))).
      * simpl. now rewrite <- app_assoc.
      * unfold len in *. rewrite length_app. simpl. lia.
Qed.

(** C10.  For a limit of at least one, [_select_examples] returns the
    first [min(len(papers), max_count)] papers of the list sorted by
    informativeness, largest first.  At the point where the loop tests
    [is_new_project or len(selected) < max_count], fewer than [max_count]
    papers are selected, so the test holds whatever the projects are. *)
Theorem select_examples_is_prefix (papers : list Paper) (max_count : Z) :
  (1 <= max_count)%Z ->
  _select_examples papers max_count
  = firstn (Nat.min (List.length papers) (Z.to_nat max_count))
      (sorted_papers papers) /\
  (forall (selected : list Paper) (is_new_project : bool),
     (len selected >=? max_count)%Z = false ->
     is_new_project || (len selected <? max_count)%Z = true).
Proof.
  intros Hmax. split.
  - assert (Hlen : List.length (sorted_papers papers) = List.length papers).
    { symmetry. apply Permutation_length. apply order_by_perm. }
    unfold _select_examples. destruct papers as [|p papers]; [reflexivity|].
    rewrite select_loop_firstn. simpl app. unfold len at 1. simpl List.length at 1.
    rewrite Z.sub_0_r.
    destruct (Nat.le_ge_cases (List.length (p :: papers)) (Z.to_nat max_count))
      as [L|L].
    + rewrite Nat.min_l by exact L.
      transitivity (sorted_papers (p :: papers)).
      * apply firstn_all2. rewrite Hlen. exact L.
      * symmetry. apply firstn_all2. rewrite Hlen. apply Nat.le_refl.
    + now rewrite Nat.min_r by exact L.
  - intros selected is_new G.
    rewrite Z.geb_leb in G. apply Z.leb_gt in G.
    apply orb_true_iff. right. now apply Z.ltb_lt.
Qed.

End FeedbackFacts.

(* ================================================================= *)
(** ** Matching a query *)

Section QueryFacts.

Import BioRxiv QuerySpec.

(** *** Characters *)

Lemma lower_char_quote (c : ascii) : is_quote (Text.lower_char c) = is_quote c.
Proof. destruct c as [[] [] [] [] [] [] [] []]; reflexivity. Qed.

Lemma lower_char_space (c : ascii) :
  Text.isspace (Text.lower_char c) = Text.isspace c.
Proof. destruct c as [[] [] [] [] [] [] [] []]; reflexivity. Qed.

Lemma lower_app (a b : str) : Text.lower (a ++ b) = Text.lower a ++ Text.lower b.
Proof. apply map_app. Qed.

(** *** Substrings *)

Lemma startswith_iff (prefix s : str) :
  Text.startswith prefix s = true <-> exists rest, s = prefix ++ rest.
Proof.
  revert s. induction prefix as [|x p IH]; intros s; simpl.
  - split; [intros _; now exists s|reflexivity].
  - destruct s as [|y s].
    + split; [discriminate|intros [rest H]; discriminate].
    + rewrite andb_true_iff, Ascii.eqb_eq, IH. split.
      * intros [-> [rest ->]]. now exists rest.
      * intros [rest [= -> ->]]. split; [reflexivity|now exists rest].
Qed.

Lemma contains_iff (needle hay : str) :
  Text.contains needle hay = true <->
  exists before after, hay = before ++ needle ++ after.
Proof.
  induction hay as [|c hay IH].
  - simpl. rewrite orb_false_r, startswith_iff. split.
    + intros [rest H]. now exists [], rest.
    + intros [[|b before] [after H]]; [now exists after|discriminate].
  - cbn [Text.contains]. rewrite orb_true_iff, startswith_iff, IH. split.
    + intros [[rest H]|[before [after H]]].
      * now exists [], rest.
      * exists (c :: before), after. simpl. now rewrite H.
    + intros [[|b before] [after H]].
      * left. now exists after.
      * right. injection H as _ H. now exists before, after.
Qed.

(** *** The scan for quoted phrases *)

Lemma take_unquoted_app (p s : str) :
  unquoted p -> take_unquoted (p ++ quote :: s) = (p, quote :: s).
Proof.
  induction 1 as [|c p Hc _ IH]; simpl.
  - reflexivity.
  - now rewrite Hc, IH.
Qed.

Lemma quoted_at_phrase (p s : str) :
  p <> [] -> unquoted p -> quoted_at (quote :: p ++ quote :: s) = Some p.
Proof.
  intros Hp Hu. simpl. rewrite (take_unquoted_app p s Hu).
  destruct p; [contradiction|reflexivity].
Qed.

Lemma findall_skip (a s : str) :
  findall_quoted (a ++ s) (List.length a) = findall_quoted s 0.
Proof. induction a as [|c a IH]; simpl; auto. Qed.

Lemma sub_skip (a s : str) :
  sub_quoted (a ++ s) (List.length a) = sub_quoted s 0.
Proof. induction a as [|c a IH]; simpl; auto. Qed.

Lemma findall_unquoted (t s : str) :
  unquoted t -> findall_quoted (t ++ s) 0 = findall_quoted s 0.
Proof.
  induction 1 as [|c t Hc _ IH]; [reflexivity|].
  cbn [app findall_quoted quoted_at]. now rewrite Hc.
Qed.

Lemma sub_unquoted (t s : str) :
  unquoted t -> sub_quoted (t ++ s) 0 = t ++ sub_quoted s 0.
Proof.
  induction 1 as [|c t Hc _ IH]; [reflexivity|].
  cbn [app sub_quoted quoted_at]. now rewrite Hc, IH.
Qed.

Lemma findall_phrase (p s : str) :
  p <> [] -> unquoted p ->
  findall_quoted (quote :: p ++ quote :: s) 0 = p :: findall_quoted s 0.
Proof.
  intros Hp Hu. cbn [findall_quoted]. rewrite (quoted_at_phrase p s Hp Hu).
  f_equal.
  replace (p ++ quote :: s) with ((p ++ [quote]) ++ s)
    by (now rewrite <- app_assoc).
  replace (List.length p + 1)%nat with (List.length (p ++ [quote]))
    by (now rewrite length_app).
  apply findall_skip.
Qed.

Lemma sub_phrase (p s : str) :
  p <> [] -> unquoted p ->
  sub_quoted (quote :: p ++ quote :: s) 0 = sub_quoted s 0.
Proof.
  intros Hp Hu. cbn [sub_quoted]. rewrite (quoted_at_phrase p s Hp Hu).
  replace (p ++ quote :: s) with ((p ++ [quote]) ++ s)
    by (now rewrite <- app_assoc).
  replace (List.length p + 1)%nat with (List.length (p ++ [quote]))
    by (now rewrite length_app).
  apply sub_skip.
Qed.

(** *** The query string of a list of items *)

Lemma render_cons (i : item) (rest : list item) :
  render (i :: rest)
  = render_item i ++ match rest with [] => [] | _ :: _ => space :: render rest end.
Proof. reflexivity. Qed.

Lemma unquoted_space : unquoted [space].
Proof. repeat constructor. Qed.

Lemma well_formed_token (t : str) :
  well_formed_item (Token t) = true ->
  t <> [] /\ unquoted t /\ Forall (fun c => Text.isspace c = false) t.
Proof.
  simpl. rewrite andb_true_iff, forallb_forall. intros [Ht Hall].
  split; [now apply truthy_nonempty|].
  split; apply Forall_forall; intros c Hc; specialize (Hall c Hc);
    apply andb_true_iff in Hall; destruct Hall as [H1 H2];
    now apply negb_true_iff.
Qed.

Lemma well_formed_phrase (p : str) :
  well_formed_item (Phrase p) = true -> p <> [] /\ unquoted p.
Proof.
  simpl. rewrite andb_true_iff, forallb_forall. intros [Hp Hall].
  split; [now apply truthy_nonempty|].
  apply Forall_forall. intros c Hc. now apply negb_true_iff, Hall.
Qed.

Lemma findall_render (items : list item) :
  well_formed items = true -> findall_quoted (render items) 0 = phrases items.
Proof.
  induction items as [|i rest IH]; [reflexivity|].
  intros H. simpl in H. apply andb_true_iff in H. destruct H as [Hi Hrest].
  specialize (IH Hrest). rewrite render_cons. cbn [phrases flat_map].
  assert (Htail : findall_quoted
                    match rest with [] => [] | _ :: _ => space :: render rest end 0
                  = phrases rest).
  { destruct rest as [|j rest']; [reflexivity|].
    rewrite <- IH. exact (findall_unquoted [space] _ unquoted_space). }
  destruct i as [t|p].
  - apply well_formed_token in Hi. destruct Hi as [_ [Hu _]].
    cbn [render_item]. rewrite (findall_unquoted t _ Hu). exact Htail.
  - apply well_formed_phrase in Hi. destruct Hi as [Hp Hu].
    cbn [render_item]. cbn [app]. rewrite <- app_assoc. cbn [app].
    rewrite (findall_phrase p _ Hp Hu). f_equal. exact Htail.
Qed.

Lemma sub_render (items : list item) :
  well_formed items = true ->
  sub_quoted (render items) 0 = render (map blank items).
Proof.
  induction items as [|i rest IH]; [reflexivity|].
  intros H. simpl in H. apply andb_true_iff in H. destruct H as [Hi Hrest].
  specialize (IH Hrest). cbn [map]. rewrite !render_cons.
  assert (Htail : sub_quoted
                    match rest with [] => [] | _ :: _ => space :: render rest end 0
                  = match map blank rest with
                    | [] => []
                    | _ :: _ => space :: render (map blank rest)
                    end).
  { destruct rest as [|j rest']; [reflexivity|].
    cbn [map]. cbn [map] in IH. rewrite <- IH.
    exact (sub_unquoted [space] _ unquoted_space). }
  destruct i as [t|p].
  - apply well_formed_token in Hi. destruct Hi as [_ [Hu _]].
    cbn [render_item blank]. rewrite (sub_unquoted t _ Hu). f_equal. exact Htail.
  - apply well_formed_phrase in Hi. destruct Hi as [Hp Hu].
    cbn [render_item blank]. cbn [app]. rewrite <- app_assoc. cbn [app].
    rewrite (sub_phrase p _ Hp Hu). exact Htail.
Qed.

(** *** Splitting at white space *)

Lemma split_ws_word (t cur s : str) :
  Forall (fun c => Text.isspace c = false) t ->
  Text.split_ws cur (t ++ s) = Text.split_ws (cur ++ t) s.
Proof.
  intros Ht. revert cur. induction Ht as [|c t Hc _ IH]; intros cur.
  - now rewrite app_nil_r.
  - cbn [app Text.split_ws]. rewrite Hc, IH. now rewrite <- app_assoc.
Qed.

Lemma split_blank (items : list item) :
  well_formed items = true ->
  Text.split (render (map blank items)) = tokens items.
Proof.
  unfold Text.split.
  induction items as [|i rest IH]; [reflexivity|].
  intros H. simpl in H. apply andb_true_iff in H. destruct H as [Hi Hrest].
  specialize (IH Hrest). cbn [map tokens flat_map]. rewrite render_cons.
  assert (Htail : forall cur,
             Text.split_ws cur
               match map blank rest with
               | [] => []
               | _ :: _ => space :: render (map blank rest)
               end
             = Text.flush cur ++ tokens rest).
  { intros cur. destruct rest as [|j rest'].
    - simpl. now rewrite app_nil_r.
    - cbn [map]. cbn [map] in IH. cbn [Text.split_ws].
      change (Text.isspace space) with true. cbv iota. now rewrite IH. }
  destruct i as [t|p].
  - apply well_formed_token in Hi. destruct Hi as [Ht [_ Hs]].
    cbn [blank render_item]. rewrite (split_ws_word t [] _ Hs).
    etransitivity; [apply Htail|].
    destruct t; [contradiction|reflexivity].
  - cbn [blank render_item app]. etransitivity; [apply Htail|reflexivity].
Qed.

Lemma lstrip_word (t : str) :
  Forall (fun c => Text.isspace c = false) t -> Text.lstrip t = t.
Proof. destruct 1 as [|c t Hc _]; simpl; [reflexivity|now rewrite Hc]. Qed.

Lemma strip_word (t : str) :
  Forall (fun c => Text.isspace c = false) t -> Text.strip t = t.
Proof.
  intros Ht. unfold Text.strip, Text.rstrip.
  rewrite (lstrip_word t Ht), lstrip_word by (now apply Forall_rev).
  apply rev_involutive.
Qed.

Lemma terms_of_tokens (items : list item) :
  well_formed items = true ->
  filter Text.truthy (map Text.strip (tokens items)) = tokens items.
Proof.
  induction items as [|i rest IH]; [reflexivity|].
  intros H. simpl in H. apply andb_true_iff in H. destruct H as [Hi Hrest].
  specialize (IH Hrest). destruct i as [t|p]; cbn [tokens flat_map app map]; auto.
  apply well_formed_token in Hi. destruct Hi as [Ht [_ Hs]].
  rewrite (strip_word t Hs). cbn [filter].
  destruct t; [contradiction|]. cbn [Text.truthy]. f_equal. exact IH.
Qed.

(** *** Lower case *)

Lemma forallb_map {A B : Type} (f : B -> bool) (g : A -> B) (l : list A) :
  forallb f (map g l) = forallb (fun x => f (g x)) l.
Proof. induction l as [|a l IH]; simpl; [reflexivity|now rewrite IH]. Qed.

Lemma forallb_ext {A : Type} (f g : A -> bool) (l : list A) :
  (forall x, f x = g x) -> forallb f l = forallb g l.
Proof.
  intros H. induction l as [|a l IH]; simpl; [reflexivity|now rewrite H, IH].
Qed.

Lemma lower_render (items : list item) :
  Text.lower (render items) = render (map lower_item items).
Proof.
  induction items as [|i rest IH]; [reflexivity|].
  cbn [map]. rewrite !render_cons, lower_app. f_equal.
  - destruct i as [t|p]; [reflexivity|].
    cbn [render_item lower_item]. unfold Text.lower. cbn [map].
    now rewrite map_app.
  - destruct rest as [|j rest']; [reflexivity|].
    cbn [map] in *. unfold Text.lower in *. cbn [map]. now rewrite IH.
Qed.

Lemma well_formed_lower (items : list item) :
  well_formed (map lower_item items) = well_formed items.
Proof.
  unfold well_formed. rewrite forallb_map. apply forallb_ext.
  intros [t|p]; cbn [lower_item well_formed_item]; unfold Text.lower;
    rewrite forallb_map; f_equal.
  - now destruct t.
  - apply forallb_ext. intros c. now rewrite lower_char_space, lower_char_quote.
  - now destruct p.
  - apply forallb_ext. intros c. now rewrite lower_char_quote.
Qed.

Lemma phrases_lower (items : list item) :
  phrases (map lower_item items) = map Text.lower (phrases items).
Proof.
  induction items as [|[t|p] rest IH]; simpl; [reflexivity|exact IH|].
  f_equal. exact IH.
Qed.

Lemma tokens_lower (items : list item) :
  tokens (map lower_item items) = map Text.lower (tokens items).
Proof.
  induction items as [|[t|p] rest IH]; simpl; [reflexivity| |exact IH].
  f_equal. exact IH.
Qed.

Lemma in_phrases (items : list item) (p : str) :
  In p (phrases items) <-> In (Phrase p) items.
Proof.
  induction items as [|[t|q] rest IH]; simpl; [tauto| |].
  - rewrite IH. split; [auto|intros [H|H]; [discriminate|exact H]].
  - rewrite IH. split; intros [H|H]; auto; [left; congruence|].
    injection H as ->. now left.
Qed.

Lemma in_tokens (items : list item) (t : str) :
  In t (tokens items) <-> In (Token t) items.
Proof.
  induction items as [|[u|q] rest IH]; simpl; [tauto| |].
  - rewrite IH. split; intros [H|H]; auto; [left; congruence|].
    injection H as ->. now left.
  - rewrite IH. split; [auto|intros [H|H]; [discriminate|exact H]].
Qed.

Lemma search_text_joined (paper : record) :
  search_text paper = Text.lower (joined_by_space paper).
Proof.
  unfold search_text, joined_by_space. now rewrite !lower_app.
Qed.

Lemma contains_ci (needle hay : str) :
  Text.contains (Text.lower needle) (Text.lower hay) = true
  <-> ci_substring needle hay.
Proof. apply contains_iff. Qed.

(** What [_matches_query] computes on the string of a well-formed query. *)
Lemma matches_query_run (paper : record) (items : list item) :
  well_formed items = true ->
  _matches_query paper (render items)
  = forallb (fun p => Text.contains p (search_text paper))
      (map Text.lower (phrases items))
    && forallb (fun t => Text.contains t (search_text paper))
         (map Text.lower (tokens items)).
Proof.
  intros H. unfold _matches_query.
  assert (H' : well_formed (map lower_item items) = true)
    by (now rewrite well_formed_lower).
  rewrite lower_render, (findall_render _ H'), (sub_render _ H'),
    (split_blank _ H'), (terms_of_tokens _ H').
  now rewrite phrases_lower, tokens_lower.
Qed.

(** C7, as amended.  On the string of a query whose tokens and phrases are
    well formed, [_matches_query] returns [True] exactly when every phrase
    and every token occurs, up to case, in the title, a space and the
    abstract of the record. *)
Theorem matches_query_joined (paper : record) (items : list item) :
  well_formed items = true ->
  _matches_query paper (render items) = true
  <-> matches (joined_by_space paper) items.
Proof.
  intros H. rewrite (matches_query_run paper items H).
  rewrite andb_true_iff, !forallb_forall. unfold matches.
  split.
  - intros [HP HT]. split.
    + intros p Hp. apply contains_ci. rewrite <- search_text_joined.
      apply HP. apply in_map. now apply in_phrases.
    + intros t Ht. apply contains_ci. rewrite <- search_text_joined.
      apply HT. apply in_map. now apply in_tokens.
  - intros [HP HT]. split.
    + intros x Hx. apply in_map_iff in Hx. destruct Hx as [p [<- Hp]].
      rewrite search_text_joined. apply contains_ci. apply HP.
      now apply in_phrases.
    + intros x Hx. apply in_map_iff in Hx. destruct Hx as [t [<- Ht]].
      rewrite search_text_joined. apply contains_ci. apply HT.
      now apply in_tokens.
Qed.

End QueryFacts.

(* ================================================================= *)
(** * Examples *)

Section Examples.

Import Database.

(** The preprint and the indexed copy of one work, in both orders. *)
Lemma cross_source_doi_merge_example :
  (insert_paper Samples.preprint Samples.day1 Samples.ts1 []
   = (Ok true, [new_row Samples.preprint Samples.day1 Samples.ts1]) /\
   insert_paper Samples.indexed Samples.day2 Samples.ts2
     [new_row Samples.preprint Samples.day1 Samples.ts1]
   = (Ok false, [new_row Samples.preprint Samples.day1 Samples.ts1])) /\
  (insert_paper Samples.indexed Samples.day1 Samples.ts1 []
   = (Ok true, [new_row Samples.indexed Samples.day1 Samples.ts1]) /\
   insert_paper Samples.preprint Samples.day2 Samples.ts2
     [new_row Samples.indexed Samples.day1 Samples.ts1]
   = (Ok false, [new_row Samples.indexed Samples.day1 Samples.ts1])).
Proof.
  apply (cross_source_doi_merge Samples.preprint Samples.indexed Samples.doi_x).
  - discriminate.
  - reflexivity.
  - reflexivity.
  - discriminate.
Defined.

(** The indexed copy is inserted twice into a store that holds the
    preprint: both inserts are rejected for the DOI, and the id of the
    indexed copy has no row, not one. *)
Lemma insert_twice_without_row :
  unique_ids Samples.store_with_preprint /\
  insert_paper Samples.indexed Samples.day2 Samples.ts2
    Samples.store_with_preprint
  = (Ok false, Samples.store_with_preprint) /\
  insert_paper Samples.indexed Samples.day3 Samples.ts3
    (snd (insert_paper Samples.indexed Samples.day2 Samples.ts2
            Samples.store_with_preprint))
  = (Ok false, Samples.store_with_preprint) /\
  count_id (Pubmed.id Samples.indexed)
    (snd (insert_paper Samples.indexed Samples.day3 Samples.ts3
            (snd (insert_paper Samples.indexed Samples.day2 Samples.ts2
                    Samples.store_with_preprint))))
  = 0%nat /\
  count_id (Pubmed.id Samples.indexed)
    (snd (insert_paper Samples.indexed Samples.day3 Samples.ts3
            (snd (insert_paper Samples.indexed Samples.day2 Samples.ts2
                    Samples.store_with_preprint))))
  <> 1%nat.
Proof.
  split; [repeat constructor; simpl; tauto|].
  repeat split; discriminate.
Qed.

Lemma insert_paper_idempotent_example :
  unique_ids Samples.store_with_preprint /\
  insert_paper Samples.indexed Samples.day3 Samples.ts3
    (snd (insert_paper Samples.indexed Samples.day2 Samples.ts2
            Samples.store_with_preprint))
  = (Ok false,
     snd (insert_paper Samples.indexed Samples.day2 Samples.ts2
            Samples.store_with_preprint)).
Proof.
  assert (U : unique_ids Samples.store_with_preprint)
    by (repeat constructor; simpl; tauto).
  split; [exact U|].
  exact (proj1 (insert_paper_idempotent Samples.indexed Samples.day2
                  Samples.ts2 Samples.day3 Samples.ts3
                  Samples.store_with_preprint U)).
Defined.

Lemma scored_store_no_nan : no_nan Samples.scored_store.
Proof.
  intros r Hr. vm_compute in Hr.
  destruct Hr as [<-|[<-|[<-|[]]]]; discriminate.
Defined.

Lemma get_papers_since_ordering_example :
  no_nan Samples.scored_store /\
  exists papers,
    get_papers_since Samples.day1 None (Some 2%Z) Samples.scored_store
    = (Ok papers, Samples.scored_store) /\
    scored_first_descending papers.
Proof.
  split; [exact scored_store_no_nan|].
  exact (get_papers_since_ordering Samples.day1 None (Some 2%Z)
           Samples.scored_store scored_store_no_nan).
Defined.

Lemma digest_exclusion_example :
  stored (Text.lit "300") Samples.scored_store /\
  exists papers,
    get_papers_for_digest Samples.day1 None
      (run_ops
         (snd (mark_papers_digested [Text.lit "300"] Samples.day3
                 Samples.scored_store))
         [UpdatePaperRanking (Text.lit "300") (Text.lit "again") Float.one
            (Text.lit "rescored") [] Samples.ts3])
    = (Ok papers,
       run_ops
         (snd (mark_papers_digested [Text.lit "300"] Samples.day3
                 Samples.scored_store))
         [UpdatePaperRanking (Text.lit "300") (Text.lit "again") Float.one
            (Text.lit "rescored") [] Samples.ts3]) /\
    forall P, In P papers -> Pubmed.id P <> Text.lit "300".
Proof.
  split; [reflexivity|].
  apply (proj2 (digest_exclusion Samples.day1 None Samples.scored_store)).
  - simpl. auto.
  - reflexivity.
Defined.

Lemma insert_seed_paper_promotes_example :
  exists t',
    insert_seed_paper Samples.preprint (Text.lit "doi_lookup") Samples.day2
      Samples.day2 Samples.ts2 Samples.store_with_preprint
    = (Ok false, t') /\
    List.length t' = 1%nat.
Proof.
  destruct (insert_seed_paper_promotes Samples.preprint (Text.lit "doi_lookup")
              Samples.day2 Samples.day2 Samples.ts2 Samples.store_with_preprint
              eq_refl) as [t' [H [L _]]].
  exists t'. split; [exact H|exact L].
Defined.

End Examples.

Section RankerExamples.

Import Ranker.

(** The example of the design document: a raw score of 0.9 in a journal
    of weight 1.2 gives [min(1.0, 1.08)], which is 1.0. *)
Lemma rank_paper_score_clamp_example :
  exists r,
    rank_paper Samples.sample_loads Samples.sample_float Samples.config
      Samples.indexed Samples.reply_object = Ok r /\
    r.(relevance_score) = Float.one.
Proof.
  destruct (rank_paper_score_clamp Samples.sample_loads Samples.sample_float
              Samples.config Samples.indexed Samples.reply_object
              Samples.reply_object
              [(Text.lit "relevance_score", JFloat Samples.f0_9)]
              (JFloat Samples.f0_9) Samples.f0_9 Samples.f1_2
              eq_refl eq_refl eq_refl eq_refl eq_refl eq_refl eq_refl eq_refl)
    as [r [H [E _]]].
  exists r. split; [exact H|]. rewrite E. reflexivity.
Defined.

Lemma rank_paper_fallback_example :
  exists r,
    rank_paper Samples.sample_loads Samples.sample_float Samples.config
      Samples.indexed Samples.reply_prose = Ok r /\
    r.(relevance_score) = Float.half /\
    r.(matched_projects) = JList [].
Proof.
  destruct (rank_paper_fallback Samples.sample_loads Samples.sample_float
              Samples.config Samples.indexed Samples.reply_prose)
    as [r [H [E [_ [_ [_ [_ M]]]]]]].
  - intros content Hc. vm_compute in Hc. injection Hc as <-. reflexivity.
  - exists r. split; [exact H|]. split; [exact E|exact M].
Defined.

End RankerExamples.

Section FeedbackExamples.

Import Feedback.

(** With a limit of two, the starred paper of score 0.0 is left out: its
    informativeness is 0.5, behind 0.7 and behind the unscored paper that
    comes before it. *)
Lemma select_examples_is_prefix_example :
  (1 <= 2)%Z /\
  _select_examples Samples.starred_papers 2
  = firstn 2 (sorted_papers Samples.starred_papers) /\
  map Pubmed.id (_select_examples Samples.starred_papers 2)
  = [Text.lit "a"; Text.lit "c"].
Proof.
  assert (H : (1 <= 2)%Z) by lia.
  split; [exact H|]. split.
  - exact (proj1 (select_examples_is_prefix Samples.starred_papers 2 H)).
  - reflexivity.
Defined.

End FeedbackExamples.

Section QueryExamples.

Import BioRxiv QuerySpec.

(** The record with the title Micro and the abstract biome: the query
    microbiome occurs in the concatenation of title and abstract, and
    [_matches_query] returns [False]. *)
Lemma matches_query_concatenation_counterexample :
  well_formed [Token (Text.lit "microbiome")] = true /\
  matches (concatenation Samples.split_word) [Token (Text.lit "microbiome")] /\
  _matches_query Samples.split_word (render [Token (Text.lit "microbiome")])
  = false.
Proof.
  split; [reflexivity|]. split; [|reflexivity].
  split.
  - intros p [H|[]]. discriminate.
  - intros t [H|[]]. injection H as <-. now exists [], [].
Qed.

(** The other way round: a phrase across the end of the title and the
    start of the abstract matches, and does not occur in the
    concatenation. *)
Lemma matches_query_across_fields :
  _matches_query Samples.liver_record
    (render [Phrase (Text.lit "liver disease")]) = true /\
  ~ matches (concatenation Samples.liver_record)
      [Phrase (Text.lit "liver disease")].
Proof.
  split; [reflexivity|].
  intros [H _]. specialize (H _ (or_introl eq_refl)).
  apply contains_ci in H. vm_compute in H. discriminate.
Qed.

Lemma matches_query_joined_example :
  well_formed [Token (Text.lit "Microbiome"); Phrase (Text.lit "liver disease")]
  = true /\
  matches (joined_by_space Samples.liver_record)
    [Token (Text.lit "Microbiome"); Phrase (Text.lit "liver disease")].
Proof.
  split; [reflexivity|].
  apply (matches_query_joined Samples.liver_record
           [Token (Text.lit "Microbiome"); Phrase (Text.lit "liver disease")]
           eq_refl).
  reflexivity.
Defined.

End QueryExamples.


(* ================================================================= *)
(** * Further properties of the code *)

(** ** The store: batches, lookups and the columns that never change *)

Section StoreMethods.

Import Database.

Lemma is_duplicate_app (p : Paper) (t added : table) :
  is_duplicate p t = true -> is_duplicate p (t ++ added) = true.
Proof.
  unfold is_duplicate. intros H. apply orb_true_iff in H. apply orb_true_iff.
  destruct H as [H|H]; [left; rewrite existsb_app; now rewrite H|right].
  destruct (Pubmed.doi p) as [d|]; [|discriminate].
  apply andb_true_iff in H. destruct H as [Hd H].
  rewrite Hd, existsb_app, H. reflexivity.
Qed.

(** The loop of [insert_papers] only appends, counts what it appends, and
    leaves every paper of the batch a duplicate. *)
Lemma insert_each_run (papers : list (Paper * (str * str))) (n : Z) (t : table) :
  exists added,
    insert_each papers n t = (Ok (n + Z.of_nat (List.length added))%Z, t ++ added) /\
    (List.length added <= List.length papers)%nat /\
    Forall (fun pp => is_duplicate (fst pp) (t ++ added) = true) papers.
Proof.
  revert n t. induction papers as [|[p [now ts]] rest IH]; intros n t.
  - exists []. simpl. rewrite app_nil_r, Z.add_0_r. repeat split; auto.
  - cbn [insert_each]. unfold bind at 1. rewrite insert_paper_run.
    destruct (is_duplicate p t) eqn:D.
    + destruct (IH n t) as [added [H [L F]]].
      exists added. rewrite H. repeat split; [simpl; lia|].
      constructor; [now apply is_duplicate_app|exact F].
    + destruct (IH (n + 1)%Z (t ++ [new_row p now ts])) as [added [H [L F]]].
      exists (new_row p now ts :: added). rewrite H.
      replace (t ++ new_row p now ts :: added)
        with ((t ++ [new_row p now ts]) ++ added)
        by (now rewrite <- app_assoc).
      repeat split.
      * f_equal. f_equal. simpl List.length. lia.
      * simpl. lia.
      * constructor; [|exact F].
        apply is_duplicate_app. apply is_duplicate_after_insert.
Qed.

Lemma insert_each_duplicates (papers : list (Paper * (str * str))) (n : Z)
  (t : table) :
  Forall (fun pp => is_duplicate (fst pp) t = true) papers ->
  insert_each papers n t = (Ok n, t).
Proof.
  induction 1 as [|[p [now ts]] rest D _ IH]; [reflexivity|].
  cbn [insert_each]. unfold bind at 1. rewrite insert_paper_run.
  simpl in D. now rewrite D.
Qed.

(** X1.  [insert_papers] returns the size of the batch and the number of
    rows it added; it adds rows at the end of the table and touches no
    other row; and a second run over the same papers, whatever the clock
    shows, adds nothing and reports zero new papers. *)
Theorem insert_papers_rerun
  (papers again : list (Paper * (str * str))) (t : table) :
  map fst again = map fst papers ->
  exists (new_count : Z) (added : table),
    insert_papers papers t
    = (Ok (Z.of_nat (List.length papers), new_count), t ++ added) /\
    new_count = Z.of_nat (List.length added) /\
    (new_count <= Z.of_nat (List.length papers))%Z /\
    insert_papers again (t ++ added)
    = (Ok (Z.of_nat (List.length papers), 0%Z), t ++ added).
Proof.
  intros Hsame.
  destruct (insert_each_run papers 0%Z t) as [added [H [L F]]].
  exists (Z.of_nat (List.length added)), added.
  unfold insert_papers, bind. rewrite H. simpl ret.
  repeat split; [lia|].
  rewrite insert_each_duplicates.
  - unfold ret. do 3 f_equal.
    rewrite <- (length_map fst again), Hsame, length_map. reflexivity.
  - apply Forall_forall. intros pp Hpp.
    assert (Hin : In (fst pp) (map fst papers))
      by (rewrite <- Hsame; now apply in_map).
    apply in_map_iff in Hin. destruct Hin as [qq [E Hqq]].
    rewrite Forall_forall in F. rewrite <- E. now apply F.
Qed.


Lemma row_to_paper_new_row (p : Paper) (now ts : str) :
  same_paper p (_row_to_paper (new_row p now ts)).
Proof.
  unfold same_paper. simpl. repeat split.
  now destruct (Pubmed.matched_projects p).
Qed.

(** X3.  A paper that [insert_paper] accepts is read back by [get_paper]
    under its id with every field of the dataclass as it was given (a
    NaN score is read back as [None]), and without feedback or seed
    marks. *)
Theorem insert_then_get_paper
  (p : Paper) (now ts : str) (t t' : table) :
  insert_paper p now ts t = (Ok true, t') ->
  exists p',
    get_paper (Pubmed.id p) t' = (Ok (Some p'), t') /\
    same_paper p p' /\
    Pubmed._user_feedback p' = None /\ Pubmed._feedback_date p' = None /\
    Pubmed._is_seed p' = false /\ Pubmed._seed_source p' = None.
Proof.
  rewrite insert_paper_run. destruct (is_duplicate p t) eqn:D; [discriminate|].
  intros [= <-]. exists (_row_to_paper (new_row p now ts)).
  split; [|split; [apply row_to_paper_new_row|repeat split]].
  unfold get_paper, bind, select, ret.
  unfold is_duplicate in D. apply orb_false_iff in D. destruct D as [E _].
  rewrite filter_app, (filter_none _ _ E). simpl.
  unfold has_id. simpl. now rewrite text_eqb_refl.
Qed.

Lemma same_core_refl (r : row) : same_core r r.
Proof. unfold same_core. repeat split. Qed.

Lemma same_core_trans (r1 r2 r3 : row) :
  same_core r1 r2 -> same_core r2 r3 -> same_core r1 r3.
Proof.
  unfold same_core. intros H1 H2.
  repeat match goal with H : _ /\ _ |- _ => destruct H end.
  repeat split; congruence.
Qed.

Lemma update_keeps_core (cond : row -> bool) (set : row -> row) (t : table) :
  (forall r, same_core r (set r)) ->
  Forall2 same_core t (snd (update cond set t)).
Proof.
  intros Hset. simpl. induction t as [|r t IH]; simpl; constructor; auto.
  destruct (cond r); [apply Hset|apply same_core_refl].
Qed.

Lemma forall2_same_core_trans (t1 t2 t3 : table) :
  Forall2 same_core t1 t2 -> Forall2 same_core t2 t3 -> Forall2 same_core t1 t3.
Proof.
  intros H. revert t3. induction H as [|r r2 t t2 Hr _ IH]; intros t3 H2;
    inversion H2; subst; constructor.
  - eapply same_core_trans; eauto.
  - now apply IH.
Qed.

Lemma mark_each_keeps_core (paper_ids : list str) (now : str) (t : table) :
  Forall2 same_core t (snd (mark_each paper_ids now t)).
Proof.
  revert t. induction paper_ids as [|y ids IH]; intros t.
  - simpl. induction t; constructor; auto using same_core_refl.
  - change (mark_each (y :: ids) now t)
      with (mark_each ids now
              (snd (update (has_id y) (set_last_digest_date now) t))).
    eapply forall2_same_core_trans; [|apply IH].
    apply (update_keeps_core (has_id y) (set_last_digest_date now) t).
    intros r. unfold same_core. simpl. repeat split.
Qed.

Lemma forall2_same_core_refl (t : table) : Forall2 same_core t t.
Proof. induction t; constructor; auto using same_core_refl. Qed.

Lemma run_op_keeps_core (t : table) (o : op) :
  exists kept added, run_op t o = kept ++ added /\ Forall2 same_core t kept.
Proof.
  destruct o; simpl.
  - rewrite insert_paper_run. destruct (is_duplicate paper t); simpl.
    + exists t, []. rewrite app_nil_r. auto using forall2_same_core_refl.
    + exists t, [new_row paper now ts]. auto using forall2_same_core_refl.
  - rewrite insert_seed_paper_run.
    destruct (existsb (has_id (Pubmed.id paper)) t); simpl.
    + eexists. exists []. rewrite app_nil_r. split; [reflexivity|].
      apply (update_keeps_core (has_id (Pubmed.id paper))
               (set_seed seed_src now ts) t).
      intros r. unfold same_core. simpl. repeat split.
    + exists t, [new_seed_row paper seed_src now now' ts].
      auto using forall2_same_core_refl.
  - eexists. exists []. rewrite app_nil_r. split; [reflexivity|].
    apply (update_keeps_core (has_id paper_id)
             (set_ranking summary' score rationale projects ts) t).
    intros r. unfold same_core. simpl. repeat split.
  - eexists. exists []. rewrite app_nil_r. split; [reflexivity|].
    apply (update_keeps_core (has_id paper_id) set_user_read t).
    intros r. unfold same_core. simpl. repeat split.
  - eexists. exists []. rewrite app_nil_r. split; [reflexivity|].
    apply (update_keeps_core (has_id paper_id) set_added_to_zotero t).
    intros r. unfold same_core. simpl. repeat split.
  - eexists. exists []. rewrite app_nil_r. split; [reflexivity|].
    destruct paper_ids as [|y ids]; [apply forall2_same_core_refl|].
    apply mark_each_keeps_core.
  - eexists. exists []. rewrite app_nil_r. split; [reflexivity|].
    apply (update_keeps_core (has_id paper_id)
             (set_user_feedback feedback
                (if some_truthy feedback then Some now else None) ts) t).
    intros r. unfold same_core. simpl. repeat split.
Qed.

(** X5.  The table is append-only and its bibliographic columns are
    immutable: after any sequence of writes, the rows that were there are
    still there, in their order, each with the id, source, title, authors,
    journal, dates of publication and of first sight, abstract, links, DOI
    and creation time it had; nothing is ever deleted. *)
Theorem history_keeps_rows (ops : list op) (t : table) :
  exists kept added,
    run_ops t ops = kept ++ added /\ Forall2 same_core t kept.
Proof.
  revert t. induction ops as [|o ops IH]; intros t.
  - exists t, []. rewrite app_nil_r. split; [reflexivity|].
    apply forall2_same_core_refl.
  - change (run_ops t (o :: ops)) with (run_ops (run_op t o) ops).
    destruct (run_op_keeps_core t o) as [k1 [a1 [E1 F1]]].
    destruct (IH (run_op t o)) as [k2 [a2 [E2 F2]]].
    rewrite E1 in F2. apply Forall2_app_inv_l in F2.
    destruct F2 as [k2a [k2b [Fa [Fb Ek]]]]. subst k2.
    exists k2a, (k2b ++ a2). split.
    + rewrite E2. now rewrite <- app_assoc.
    + eapply forall2_same_core_trans; eauto.
Qed.

End StoreMethods.


(* ================================================================= *)
(** ** The store: rankings, feedback and seeds *)

Section StoreFeedback.

Import Database.

Lemma text_leb_total (a b : str) : Text.leb a b = true \/ Text.leb b a = true.
Proof.
  revert b. induction a as [|x a IH]; intros [|y b]; simpl; auto.
  destruct (Text.code x <? Text.code y)%N eqn:L1; auto.
  destruct (Text.code y <? Text.code x)%N eqn:L2; auto.
Qed.

Lemma text_leb_trans (a b c : str) :
  Text.leb a b = true -> Text.leb b c = true -> Text.leb a c = true.
Proof.
  revert b c. induction a as [|x a IH]; intros [|y b] [|z c]; simpl; auto;
    try discriminate.
  destruct (Text.code x <? Text.code y)%N eqn:L1;
    destruct (Text.code y <? Text.code x)%N eqn:L2;
    destruct (Text.code y <? Text.code z)%N eqn:L3;
    destruct (Text.code z <? Text.code y)%N eqn:L4;
    destruct (Text.code x <? Text.code z)%N eqn:L5;
    destruct (Text.code z <? Text.code x)%N eqn:L6;
    try reflexivity; try discriminate;
    repeat match goal with
      | H : (_ <? _)%N = true |- _ => apply N.ltb_lt in H
      | H : (_ <? _)%N = false |- _ => apply N.ltb_ge in H
      end; try lia.
  apply IH.
Qed.

Lemma text_desc_total (a b : option str) :
  text_desc a b = true \/ text_desc b a = true.
Proof.
  destruct a as [x|], b as [y|]; simpl; auto.
  destruct (text_leb_total x y); auto.
Qed.

Lemma text_desc_trans (a b c : option str) :
  text_desc a b = true -> text_desc b c = true -> text_desc a c = true.
Proof.
  destruct a as [x|], b as [y|], c as [z|]; simpl; auto; try discriminate.
  intros H1 H2. exact (text_leb_trans z y x H2 H1).
Qed.

Lemma sql_limit_sorted (R : row -> row -> Prop) (n : Z) (l : list row) :
  StronglySorted R l -> StronglySorted R (sql_limit n l).
Proof.
  intros H. unfold sql_limit. destruct (n <? 0)%Z; [exact H|].
  now apply strongly_sorted_firstn.
Qed.

Lemma sql_limit_in (n : Z) (l : list row) (r : row) :
  In r (sql_limit n l) -> In r l.
Proof.
  unfold sql_limit. destruct (n <? 0)%Z; [auto|]. apply in_firstn.
Qed.

Lemma rows_with_feedback_in (f : str) (limit : Z) (t : table) (r : row) :
  In r (rows_with_feedback f limit t) ->
  In r t /\ r.(user_feedback) = Some f.
Proof.
  unfold rows_with_feedback. intros H. apply sql_limit_in in H.
  rewrite order_by_in in H. apply filter_In in H. destruct H as [H E].
  split; [exact H|]. unfold feedback_is, sql_text_eq in E.
  destruct r.(user_feedback) as [v|]; [|discriminate].
  apply text_eqb_eq in E. now subst.
Qed.

Lemma rows_with_feedback_all (f : str) (limit : Z) (t : table) (r : row) :
  (limit < 0)%Z -> In r t -> r.(user_feedback) = Some f ->
  In r (rows_with_feedback f limit t).
Proof.
  intros L H E. unfold rows_with_feedback, sql_limit.
  replace (limit <? 0)%Z with true by (symmetry; now apply Z.ltb_lt).
  apply order_by_in. apply filter_In. split; [exact H|].
  unfold feedback_is, sql_text_eq. rewrite E. apply text_eqb_refl.
Qed.

(** X7.  [get_starred_papers] returns starred papers only, most recent
    feedback first, papers without a feedback date last, and no more than
    a limit that is not negative. *)
Theorem get_starred_papers_recent_first (limit : Z) (t : table) :
  exists papers,
    get_starred_papers limit t = (Ok papers, t) /\
    (forall P, In P papers -> Pubmed._user_feedback P = Some (Text.lit "star")) /\
    ((0 <= limit)%Z -> (Z.of_nat (List.length papers) <= limit)%Z) /\
    (forall (i j : nat) (P Q : Paper),
       (i < j)%nat -> nth_error papers i = Some P -> nth_error papers j = Some Q ->
       text_desc (Pubmed._feedback_date P) (Pubmed._feedback_date Q) = true).
Proof.
  eexists. split; [reflexivity|]. split; [|split].
  - intros P HP. apply in_map_iff in HP. destruct HP as [r [<- Hr]].
    apply rows_with_feedback_in in Hr. simpl. tauto.
  - intros L. rewrite length_map. unfold rows_with_feedback, sql_limit.
    replace (limit <? 0)%Z with false by (symmetry; now apply Z.ltb_ge).
    rewrite length_firstn. lia.
  - intros i j P Q Hij HP HQ.
    assert (Hs : StronglySorted
                   (fun P Q => text_desc (Pubmed._feedback_date P)
                                 (Pubmed._feedback_date Q) = true)
                   (map _row_to_paper
                      (rows_with_feedback (Text.lit "star") limit t))).
    { apply strongly_sorted_map. apply sql_limit_sorted.
      apply (order_by_sorted by_feedback_date (fun _ => True)).
      - intros r r' _ _. apply text_desc_total.
      - intros r1 r2 r3 _ _ _. apply text_desc_trans.
      - apply Forall_forall. auto. }
    exact (strongly_sorted_nth _ Hs i j P Q Hij HP HQ).
Qed.

Lemma filter_updated (x : str) (set : row -> row) (t : table) :
  (forall r, (set r).(id) = r.(id)) ->
  filter (has_id x) (map (fun r => if has_id x r then set r else r) t)
  = map set (filter (has_id x) t).
Proof.
  intros Hid. induction t as [|r t IH]; [reflexivity|].
  simpl. destruct (has_id x r) eqn:E.
  - assert (E' : has_id x (set r) = true) by (unfold has_id in *; now rewrite Hid).
    rewrite E'. simpl. now rewrite IH.
  - rewrite E. exact IH.
Qed.

(** X4.  After [update_paper_ranking] with a score that is a number, the
    stored paper of that id is read back with the new summary, score,
    rationale and projects, it is no longer among the unranked papers,
    and the unranked papers of other ids are the same as before. *)
Theorem update_paper_ranking_ranks
  (x summary' : str) (score : float) (rationale : str) (projects : list str)
  (ts : str) (t : table) :
  stored x t -> Float.is_nan score = false ->
  let t' := snd (update_paper_ranking x summary' score rationale projects ts t) in
  (exists P,
     get_paper x t' = (Ok (Some P), t') /\
     Pubmed.summary P = Some summary' /\
     Pubmed.relevance_score P = Some score /\
     Pubmed.ranking_rationale P = Some rationale /\
     Pubmed.matched_projects P = projects) /\
  exists unranked unranked',
    get_unranked_papers t = (Ok unranked, t) /\
    get_unranked_papers t' = (Ok unranked', t') /\
    forall P, In P unranked' <-> In P unranked /\ Pubmed.id P <> x.
Proof.
  intros Hst Hnan t'. split.
  - unfold get_paper, bind, select, ret. subst t'. simpl.
    rewrite (filter_updated x (set_ranking summary' score rationale projects ts) t)
      by reflexivity.
    unfold stored in Hst. rewrite <- fetched_filter in Hst.
    destruct (filter (has_id x) t) as [|r rest]; [discriminate|].
    eexists. split; [reflexivity|]. simpl. rewrite Hnan. repeat split.
  - eexists. eexists. split; [reflexivity|]. split; [reflexivity|].
    intros P. subst t'. simpl. rewrite !in_map_iff. split.
    + intros [r' [<- Hr']]. apply filter_In in Hr'. destruct Hr' as [Hin Hnull].
      apply in_map_iff in Hin. destruct Hin as [r [<- Hr]].
      destruct (has_id x r) eqn:E.
      * simpl in Hnull. rewrite Hnan in Hnull. discriminate.
      * split.
        -- exists r. split; [reflexivity|]. apply filter_In. auto.
        -- simpl. intros Hx. unfold has_id in E. rewrite Hx, text_eqb_refl in E.
           discriminate.
    + intros [[r [<- Hr]] Hx]. apply filter_In in Hr. destruct Hr as [Hin Hnull].
      exists r. split; [reflexivity|]. apply filter_In. split; [|exact Hnull].
      apply in_map_iff. exists r. split; [|exact Hin].
      destruct (has_id x r) eqn:E; [|reflexivity].
      exfalso. apply Hx. simpl. unfold has_id in E. now apply text_eqb_eq.
Qed.

(** X6.  The last feedback wins.  After [set_feedback] on an id, a paper
    of that id is among the starred papers only if the feedback was
    ['star'], and among the dismissed ones only if it was ['dismiss'];
    when the paper is stored and the feedback is ['star'], the paper is
    among the starred papers with the date of the call. *)
Theorem set_feedback_last_wins
  (x : str) (feedback : option str) (now ts : str) (limit : Z) (t : table) :
  let t' := snd (set_feedback x feedback now ts t) in
  (forall P, In P (map _row_to_paper (rows_with_feedback (Text.lit "star") limit t')) ->
             Pubmed.id P = x -> feedback = Some (Text.lit "star")) /\
  (forall P, In P (map _row_to_paper (rows_with_feedback (Text.lit "dismiss") limit t')) ->
             Pubmed.id P = x -> feedback = Some (Text.lit "dismiss")) /\
  (stored x t -> feedback = Some (Text.lit "star") ->
   exists papers P,
     get_starred_papers (-1) t' = (Ok papers, t') /\ In P papers /\
     Pubmed.id P = x /\ Pubmed._feedback_date P = Some now).
Proof.
  intros t'.
  assert (Hback : forall f P,
             In P (map _row_to_paper (rows_with_feedback f limit t')) ->
             Pubmed.id P = x -> feedback = Some f).
  { intros f P HP Hx. apply in_map_iff in HP. destruct HP as [r' [<- Hr']].
    apply rows_with_feedback_in in Hr'. destruct Hr' as [Hin Hf].
    subst t'. simpl in Hin. apply in_map_iff in Hin.
    destruct Hin as [r [<- Hr]]. simpl in Hx.
    destruct (has_id x r) eqn:E.
    - simpl in Hf. exact Hf.
    - unfold has_id in E. simpl in Hx. rewrite Hx, text_eqb_refl in E.
      discriminate. }
  split; [apply Hback|]. split; [apply Hback|].
  intros Hst ->. unfold stored in Hst. apply existsb_exists in Hst.
  destruct Hst as [r [Hr E]].
  eexists. exists (_row_to_paper (set_user_feedback (Some (Text.lit "star"))
                                    (Some now) ts r)).
  split; [reflexivity|]. split; [|split].
  - apply in_map. apply rows_with_feedback_all; [lia| |reflexivity].
    subst t'. simpl. apply in_map_iff. exists r. rewrite E. auto.
  - simpl. unfold has_id in E. now apply text_eqb_eq.
  - reflexivity.
Qed.

Lemma star_not_dismiss : Text.eqb (Text.lit "star") (Text.lit "dismiss") = false.
Proof. reflexivity. Qed.

End StoreFeedback.


(* ================================================================= *)
(** ** The store: statistics of feedback, and seeds *)

Section StoreSeeds.

Import Database.

Lemma feedback_is_iff (f : str) (r : row) :
  feedback_is f r = true <-> r.(user_feedback) = Some f.
Proof.
  unfold feedback_is, sql_text_eq. destruct r.(user_feedback) as [v|].
  - rewrite text_eqb_eq. split; congruence.
  - split; discriminate.
Qed.

Lemma feedback_counts (t : table) :
  let a := List.length (filter (feedback_is (Text.lit "star")) t) in
  let b := List.length (filter (feedback_is (Text.lit "dismiss")) t) in
  let c := List.length (filter (fun r => is_null r.(user_feedback)) t) in
  (a + b + c <= List.length t)%nat /\
  ((a + b + c = List.length t)%nat <->
   Forall (fun r => r.(user_feedback) = None
                    \/ r.(user_feedback) = Some (Text.lit "star")
                    \/ r.(user_feedback) = Some (Text.lit "dismiss")) t).
Proof.
  induction t as [|r t [IHle IHiff]]; cbn zeta in *.
  - simpl. split; [lia|]. split; auto.
  - rewrite Forall_cons_iff, <- IHiff. cbn [filter].
    destruct (feedback_is (Text.lit "star") r) eqn:S;
      destruct (feedback_is (Text.lit "dismiss") r) eqn:Dm;
      destruct (is_null r.(user_feedback)) eqn:N;
      try (apply feedback_is_iff in S);
      try (apply feedback_is_iff in Dm);
      cbn [List.length]; try congruence;
      try (rewrite S in N; discriminate);
      try (rewrite Dm in N; discriminate).
    + rewrite S in Dm. cbv in Dm. discriminate.
    + split; [lia|]. split; [intros H; split; [auto|lia]|intros [_ H]; lia].
    + split; [lia|]. split; [intros H; split; [auto|lia]|intros [_ H]; lia].
    + split; [lia|]. destruct r.(user_feedback); [discriminate|].
      split; [intros H; split; [auto|lia]|intros [_ H]; lia].
    + split; [lia|]. split; [lia|]. intros [[H|[H|H]] _].
      * rewrite H in N. discriminate.
      * apply feedback_is_iff in H. congruence.
      * apply feedback_is_iff in H. congruence.
Qed.

(** X8.  In the statistics of [get_feedback_stats], the starred, the
    dismissed and the neutral papers are disjoint groups: their counts add
    up to at most the number of rows, and to exactly that number if and
    only if every feedback in the table is ['star'], ['dismiss'] or NULL (a
    feedback set to any other string is counted in no group). *)
Theorem feedback_stats_partition (t : table) :
  exists s,
    get_feedback_stats t = (Ok s, t) /\
    (s.(starred) + s.(dismissed) + s.(neutral) <= Z.of_nat (List.length t))%Z /\
    ((s.(starred) + s.(dismissed) + s.(neutral) = Z.of_nat (List.length t))%Z <->
     Forall (fun r => r.(user_feedback) = None
                      \/ r.(user_feedback) = Some (Text.lit "star")
                      \/ r.(user_feedback) = Some (Text.lit "dismiss")) t).
Proof.
  eexists. split; [reflexivity|]. cbn [starred dismissed neutral].
  unfold count_when.
  pose proof (feedback_counts t) as H. cbn zeta in H. destruct H as [Hle Hiff].
  split; [lia|]. rewrite <- Hiff. lia.
Qed.

(** X9.  The seed path has no test on the DOI.  For a paper whose id is
    not stored and whose DOI is carried by a stored row, [insert_paper]
    returns [False] and stores nothing, and [insert_seed_paper] returns
    [True] and appends a row, so that two rows carry the DOI. *)
Theorem seed_insert_skips_doi_test
  (p : Paper) (d seed_src now now' ts : str) (t : table) :
  existsb (has_id (Pubmed.id p)) t = false ->
  Pubmed.doi p = Some d -> d <> [] ->
  existsb (carries_doi d) t = true ->
  insert_paper p now ts t = (Ok false, t) /\
  insert_seed_paper p seed_src now now' ts t
  = (Ok true, t ++ [new_seed_row p seed_src now now' ts]) /\
  (2 <= List.length
          (filter (carries_doi d)
             (snd (insert_seed_paper p seed_src now now' ts t))))%nat.
Proof.
  intros Hid Hdoi Hd Hst. split; [|split].
  - rewrite insert_paper_run. unfold is_duplicate.
    rewrite Hid, Hdoi, Hst. apply truthy_nonempty in Hd. now rewrite Hd.
  - rewrite insert_seed_paper_run. now rewrite Hid.
  - rewrite insert_seed_paper_run, Hid. simpl snd.
    rewrite filter_app, length_app.
    assert (H1 : (1 <= List.length (filter (carries_doi d) t))%nat).
    { rewrite <- fetched_filter in Hst.
      destruct (filter (carries_doi d) t); [discriminate|simpl; lia]. }
    assert (H2 : carries_doi d (new_seed_row p seed_src now now' ts) = true)
      by (apply carries_doi_iff; exact Hdoi).
    simpl. rewrite H2. simpl. lia.
Qed.

(** X10.  After [insert_seed_paper], whether the paper was new or
    already stored, a paper of its id is returned by [get_seed_papers] and
    by [get_starred_papers] without a limit, and no paper of its id is
    returned by the digest query. *)
Theorem seed_paper_visible
  (p : Paper) (seed_src now now' ts : str) (t : table) :
  let t' := snd (insert_seed_paper p seed_src now now' ts t) in
  (exists seeds' starred' P,
     get_seed_papers t' = (Ok seeds', t') /\
     get_starred_papers (-1) t' = (Ok starred', t') /\
     In P seeds' /\ In P starred' /\ Pubmed.id P = Pubmed.id p) /\
  (forall since min_score Q,
     In Q (map _row_to_paper (rows_for_digest since min_score t')) ->
     Pubmed.id Q <> Pubmed.id p).
Proof.
  intros t'.
  assert (Hall : Forall (fun r => r.(id) = Pubmed.id p ->
                                  r.(is_seed) = Some true
                                  /\ r.(user_feedback) = Some (Text.lit "star")) t'
                 /\ exists r, In r t' /\ r.(id) = Pubmed.id p).
  { subst t'. rewrite insert_seed_paper_run.
    destruct (existsb (has_id (Pubmed.id p)) t) eqn:E; simpl snd.
    - split.
      + apply Forall_map. apply Forall_forall. intros r _.
        unfold has_id. destruct (Text.eqb r.(id) (Pubmed.id p)) eqn:E'.
        * intros _. simpl. auto.
        * apply text_eqb_neq in E'. intros H. contradiction.
      + apply existsb_exists in E. destruct E as [r [Hr E]].
        exists (set_seed seed_src now ts r). split.
        * apply in_map_iff. exists r. rewrite E. auto.
        * simpl. unfold has_id in E. now apply text_eqb_eq.
    - split.
      + apply Forall_app. split.
        * apply Forall_forall. intros r Hr Hid. exfalso.
          assert (H : existsb (has_id (Pubmed.id p)) t = true).
          { apply existsb_exists. exists r. split; [exact Hr|].
            unfold has_id. now apply text_eqb_eq. }
          congruence.
        * constructor; [|constructor]. intros _. simpl. auto.
      + exists (new_seed_row p seed_src now now' ts). split; [|reflexivity].
        apply in_or_app. right. now left. }
  destruct Hall as [Hall [r [Hr Hid]]]. rewrite Forall_forall in Hall.
  destruct (Hall r Hr Hid) as [Hseed Hstar]. split.
  - eexists. eexists. exists (_row_to_paper r).
    split; [reflexivity|]. split; [reflexivity|]. split; [|split].
    + apply in_map. apply order_by_in. apply filter_In. split; [exact Hr|].
      unfold seed_row. now rewrite Hseed.
    + apply in_map. apply rows_with_feedback_all; [lia|exact Hr|exact Hstar].
    + exact Hid.
  - intros since min_score Q HQ. apply in_map_iff in HQ.
    destruct HQ as [q [<- Hq]]. apply rows_for_digest_in in Hq.
    destruct Hq as [Hin [_ Hns]]. simpl. intros E.
    destruct (Hall q Hin E) as [Hs _]. contradiction.
Qed.

End StoreSeeds.


(* ================================================================= *)
(** ** The ranker: the ceiling, and batches *)

Section RankBatches.

Variable json_loads : str -> option Ranker.json.
Variable float_of_str : str -> option float.

Lemma float_min_one_le (p : float) :
  Float.leb (Float.min Float.one p) Float.one = true.
Proof.
  unfold Float.min. destruct (Float.ltb p Float.one) eqn:L; [|reflexivity].
  now apply float_ltb_leb.
Qed.

(** The score of a result of [rank_paper] is 0.5 or a clamped product. *)
Lemma rank_paper_score_form
  (config : ConfigLoader.Config) (paper : Paper) (response_text : str)
  (r : Ranker.RankingResult) :
  Ranker.rank_paper json_loads float_of_str config paper response_text = Ok r ->
  r.(Ranker.relevance_score) = Float.half
  \/ exists raw,
       r.(Ranker.relevance_score)
       = Float.min Float.one
           (Float.mul raw
              (ConfigLoader.get_journal_weight config (Pubmed.journal paper))).
Proof.
  unfold Ranker.rank_paper.
  destruct (Ranker.strip_fence (Text.strip response_text)) as [content|e];
    [|discriminate].
  cbn [Ranker.bind]. destruct (json_loads content) as [data|].
  - destruct (Ranker.get data (Text.lit "relevance_score")
                (Ranker.JFloat Float.half)) as [v|e]; [|discriminate].
    cbn [Ranker.bind].
    destruct (Ranker.py_float float_of_str v) as [raw|e]; [|discriminate].
    cbn [Ranker.bind].
    destruct (Ranker.get data (Text.lit "summary") (Ranker.JStr []))
      as [v1|e]; [|discriminate].
    cbn [Ranker.bind].
    destruct (Ranker.get data (Text.lit "ranking_rationale") (Ranker.JStr []))
      as [v2|e]; [|discriminate].
    cbn [Ranker.bind].
    destruct (Ranker.get data (Text.lit "matched_projects") (Ranker.JList []))
      as [v3|e]; [|discriminate].
    cbn [Ranker.bind]. intros [= <-]. right. exists raw. reflexivity.
  - intros [= <-]. left. reflexivity.
Qed.

(** X11.  Whatever the oracle replies, a result that [rank_paper] returns
    has a score that is a number and not above 1.0: the ceiling holds for
    every raw score and every weight, also for a raw score or a product
    that is NaN or infinite. *)
Theorem rank_paper_score_at_most_one
  (config : ConfigLoader.Config) (paper : Paper) (response_text : str)
  (r : Ranker.RankingResult) :
  Ranker.rank_paper json_loads float_of_str config paper response_text = Ok r ->
  Float.leb r.(Ranker.relevance_score) Float.one = true /\
  Float.is_nan r.(Ranker.relevance_score) = false.
Proof.
  intros H.
  assert (L : Float.leb r.(Ranker.relevance_score) Float.one = true).
  { destruct (rank_paper_score_form config paper response_text r H)
      as [->|[raw ->]]; [reflexivity|apply float_min_one_le]. }
  split; [exact L|]. now apply float_leb_not_nan in L.
Qed.

Variable oracle : Paper -> RankPapers.outcome str.
Variable describe : RankPapers.failure -> str.

Notation rank_paper := (RankPapers.rank_paper json_loads float_of_str oracle).
Notation rank_papers :=
  (RankPapers.rank_papers json_loads float_of_str oracle describe).
Notation turns := (RankPapers.turns json_loads float_of_str oracle describe).
Notation turn := (RankPapers.turn json_loads float_of_str oracle describe).
Notation ranked := (RankPapers.ranked json_loads float_of_str oracle describe).

Lemma rank_each_turns (config : ConfigLoader.Config)
  (callback : option RankPapers.progress) (papers : list Paper) (i total : Z)
  (results : list RankPapers.entry) :
  RankPapers.rank_each json_loads float_of_str oracle describe config callback
    papers i total results
  = results ++ turns config callback papers i total.
Proof.
  revert i results. induction papers as [|p papers IH]; intros i results; simpl.
  - now rewrite app_nil_r.
  - rewrite IH. now rewrite <- app_assoc.
Qed.

Lemma turns_quiet (config : ConfigLoader.Config)
  (callback : option RankPapers.progress) (papers : list Paper) (i total : Z) :
  (forall p r j n, RankPapers.call callback p r j n = RankPapers.Done tt) ->
  turns config callback papers i total = map (ranked config) papers.
Proof.
  intros Hq. revert i. induction papers as [|p papers IH]; intros i;
    [reflexivity|].
  simpl. rewrite IH. unfold RankPapers.turn, RankPapers.ranked.
  destruct (rank_paper config p) as [r|f]; [|reflexivity].
  now rewrite Hq.
Qed.

Lemma ranked_score_number (config : ConfigLoader.Config) (p : Paper) :
  Ranker.relevance_score (snd (ranked config p)) <> S754_nan.
Proof.
  unfold RankPapers.ranked, RankPapers.rank_paper.
  destruct (oracle p) as [text|f]; [|discriminate].
  destruct (Ranker.rank_paper json_loads float_of_str config p text) as [r|e] eqn:E;
    [|discriminate].
  simpl. intros Hn.
  destruct (rank_paper_score_at_most_one config p text r E) as [_ N].
  rewrite Hn in N. discriminate.
Qed.

Lemma ranked_fst (config : ConfigLoader.Config) (p : Paper) :
  fst (ranked config p) = p.
Proof.
  unfold RankPapers.ranked. now destruct (rank_paper config p).
Qed.

Lemma map_ranked_fst (config : ConfigLoader.Config) (papers : list Paper) :
  map fst (map (ranked config) papers) = papers.
Proof.
  induction papers as [|p ps IH]; [reflexivity|].
  simpl. now rewrite ranked_fst, IH.
Qed.

(** X12.  One failure never ends a batch.  With no callback, or with a
    callback that does not raise, [rank_papers] returns one entry for each
    paper: the result of [rank_paper] for the paper, or, when that call
    raised, the error result with the score 0.0.  The entries are sorted
    by score, largest first. *)
Theorem rank_papers_isolates_failures
  (config : ConfigLoader.Config) (papers : list Paper)
  (callback : option RankPapers.progress) :
  (forall p r j n, RankPapers.call callback p r j n = RankPapers.Done tt) ->
  rank_papers config papers callback
  = order_by RankPapers.by_result_score (map (ranked config) papers) /\
  List.length (rank_papers config papers callback) = List.length papers /\
  Permutation papers (map fst (rank_papers config papers callback)) /\
  StronglySorted
    (fun x y => Float.leb (Ranker.relevance_score (snd y))
                  (Ranker.relevance_score (snd x)) = true)
    (rank_papers config papers callback).
Proof.
  intros Hq.
  assert (E : rank_papers config papers callback
              = order_by RankPapers.by_result_score (map (ranked config) papers)).
  { unfold RankPapers.rank_papers. rewrite rank_each_turns. simpl.
    now rewrite turns_quiet. }
  rewrite E. split; [reflexivity|].
  pose proof (order_by_perm RankPapers.by_result_score
                (map (ranked config) papers)) as P.
  split; [|split].
  - rewrite <- (Permutation_length P). apply length_map.
  - rewrite <- (map_ranked_fst config papers) at 1.
    apply Permutation_map. exact P.
  - apply (order_by_sorted RankPapers.by_result_score
             (fun x => Ranker.relevance_score (snd x) <> S754_nan)).
    + intros x y Hx Hy. unfold RankPapers.by_result_score.
      destruct (float_leb_total _ _ Hx Hy); auto.
    + intros x y z _ _ _ H1 H2. unfold RankPapers.by_result_score in *.
      exact (float_leb_trans _ _ _ H2 H1).
    + apply Forall_forall. intros x Hx. apply in_map_iff in Hx.
      destruct Hx as [p [<- _]]. apply ranked_score_number.
Qed.

Lemma turns_app (config : ConfigLoader.Config)
  (callback : option RankPapers.progress) (pre post : list Paper) (i total : Z) :
  turns config callback (pre ++ post) i total
  = turns config callback pre i total
    ++ turns config callback post (i + Z.of_nat (List.length pre))%Z total.
Proof.
  revert i. induction pre as [|p pre IH]; intros i.
  - simpl. now rewrite Z.add_0_r.
  - cbn [app RankPapers.turns]. rewrite IH, <- app_assoc. do 3 f_equal.
    simpl List.length. lia.
Qed.

Lemma turns_length (config : ConfigLoader.Config)
  (callback : option RankPapers.progress) (papers : list Paper) (i total : Z) :
  (List.length papers <= List.length (turns config callback papers i total))%nat.
Proof.
  revert i. induction papers as [|p papers IH]; intros i; [simpl; lia|].
  cbn [RankPapers.turns]. rewrite length_app. specialize (IH (i + 1)%Z).
  assert (1 <= List.length (turn config callback p i total))%nat.
  { unfold RankPapers.turn. destruct (rank_paper config p) as [r|f]; [|simpl; lia].
    destruct (RankPapers.call callback p r i total); simpl; lia. }
  simpl List.length. lia.
Qed.

(** X13.  A callback that raises is taken for a failed ranking.  When
    [rank_paper] succeeds for a paper and the callback then raises, the
    batch holds two entries for that paper, its result and an error result
    with the score 0.0, and so more entries than papers. *)
Theorem rank_papers_callback_failure
  (config : ConfigLoader.Config) (pre post : list Paper) (p : Paper)
  (callback : option RankPapers.progress) (r : Ranker.RankingResult)
  (f : RankPapers.failure) :
  rank_paper config p = RankPapers.Done r ->
  RankPapers.call callback p r (Z.of_nat (List.length pre))
    (Z.of_nat (List.length (pre ++ p :: post)))
  = RankPapers.Failed f ->
  let results := rank_papers config (pre ++ p :: post) callback in
  In (p, r) results /\
  In (p, RankPapers.error_result describe f) results /\
  (List.length (pre ++ p :: post) < List.length results)%nat.
Proof.
  intros Hr Hf results. subst results. unfold RankPapers.rank_papers.
  rewrite rank_each_turns. cbn [app].
  rewrite turns_app. cbn [RankPapers.turns]. rewrite Z.add_0_l.
  set (total := Z.of_nat (List.length (pre ++ p :: post))) in *.
  assert (Ht : turn config callback p (Z.of_nat (List.length pre)) total
               = [(p, r); (p, RankPapers.error_result describe f)]).
  { unfold RankPapers.turn. now rewrite Hr, Hf. }
  rewrite Ht. split; [|split].
  - apply order_by_in. apply in_or_app. right. now left.
  - apply order_by_in. apply in_or_app. right. right. now left.
  - rewrite <- (Permutation_length (order_by_perm _ _)).
    rewrite !length_app.
    pose proof (turns_length config callback pre 0%Z total).
    pose proof (turns_length config callback post
                  (Z.of_nat (List.length pre) + 1)%Z total).
    simpl List.length. lia.
Qed.

End RankBatches.


(* ================================================================= *)
(** ** The feedback section of the prompt *)

Section FeedbackPromptFacts.

Import Database.

Variable fmt2 : float -> str.

Lemma order_by_nil {A : Type} (before : A -> A -> bool) (l : list A) :
  order_by before l = [] <-> l = [].
Proof.
  split; [|now intros ->]. intros H.
  pose proof (Permutation_length (order_by_perm before l)) as L.
  rewrite H in L. now destruct l.
Qed.

Lemma rows_with_feedback_nil (f : str) (t : table) :
  rows_with_feedback f 20 t = [] <->
  forall r, In r t -> r.(user_feedback) <> Some f.
Proof.
  unfold rows_with_feedback, sql_limit. simpl. split.
  - intros H r Hr E.
    assert (Hin : In r (order_by by_feedback_date (filter (feedback_is f) t))).
    { apply order_by_in. apply filter_In. split; [exact Hr|].
      now apply feedback_is_iff. }
    destruct (order_by by_feedback_date (filter (feedback_is f) t));
      [destruct Hin|discriminate].
  - intros H.
    assert (E : filter (feedback_is f) t = []).
    { destruct (filter (feedback_is f) t) as [|r l] eqn:F; [reflexivity|].
      assert (Hr : In r (filter (feedback_is f) t)) by (rewrite F; now left).
      apply filter_In in Hr. destruct Hr as [Hr Hf].
      apply feedback_is_iff in Hf. now destruct (H r Hr). }
    rewrite E. reflexivity.
Qed.

Lemma select_examples_nonempty (papers : list Paper) :
  papers <> [] -> Feedback._select_examples papers 5 <> [].
Proof.
  intros Hp. unfold Feedback._select_examples.
  destruct papers as [|p ps]; [contradiction|].
  rewrite select_loop_firstn.
  pose proof (Permutation_length (sorted_papers_perm (p :: ps))) as L.
  destruct (Feedback.sorted_papers (p :: ps)); [discriminate L|].
  change (Z.to_nat (5 - Feedback.len (@nil Paper))) with 5%nat.
  cbn [firstn app]. discriminate.
Qed.

(** X14.  [build_feedback_prompt_section] returns [None] exactly when no
    stored paper is starred and none is dismissed; with any such feedback
    it returns a text.  (Its second test for [None], after the examples
    are chosen, never fires.) *)
Theorem feedback_section_none_iff (t : table) :
  exists section,
    FeedbackPrompt.build_feedback_prompt_section fmt2 t = (Ok section, t) /\
    (section = None <->
     forall r, In r t ->
       r.(user_feedback) <> Some (Text.lit "star")
       /\ r.(user_feedback) <> Some (Text.lit "dismiss")).
Proof.
  unfold FeedbackPrompt.build_feedback_prompt_section, bind,
    get_starred_papers, get_dismissed_papers.
  pose proof (rows_with_feedback_nil (Text.lit "star") t) as HS.
  pose proof (rows_with_feedback_nil (Text.lit "dismiss") t) as HD.
  destruct (rows_with_feedback (Text.lit "star") 20 t) as [|s ss] eqn:ES;
    destruct (rows_with_feedback (Text.lit "dismiss") 20 t) as [|d ds] eqn:ED;
    cbn [map].
  - eexists. split; [reflexivity|]. split; [|reflexivity].
    intros _ r Hr. split; [apply HS|apply HD]; auto.
  - pose proof (select_examples_nonempty (_row_to_paper d :: map _row_to_paper ds))
      as N.
    destruct (Feedback._select_examples (_row_to_paper d :: map _row_to_paper ds) 5)
      as [|e es]; [now destruct N|].
    cbn [Feedback._select_examples].
    eexists. split; [reflexivity|]. split; [discriminate|].
    intros H. assert (E : d :: ds = []) by (apply HD; intros r Hr; now apply H).
    discriminate.
  - pose proof (select_examples_nonempty (_row_to_paper s :: map _row_to_paper ss))
      as N.
    destruct (Feedback._select_examples (_row_to_paper s :: map _row_to_paper ss) 5)
      as [|e es]; [now destruct N|].
    cbn [Feedback._select_examples].
    eexists. split; [reflexivity|]. split; [discriminate|].
    intros H. assert (E : s :: ss = []) by (apply HS; intros r Hr; now apply H).
    discriminate.
  - pose proof (select_examples_nonempty (_row_to_paper s :: map _row_to_paper ss))
      as N.
    destruct (Feedback._select_examples (_row_to_paper s :: map _row_to_paper ss) 5)
      as [|e es]; [now destruct N|].
    eexists. split; [reflexivity|]. split; [discriminate|].
    intros H. assert (E : s :: ss = []) by (apply HS; intros r Hr; now apply H).
    discriminate.
Qed.

(** X15.  A line of [_format_example] begins with a dash, a space and the
    title between double quotes, and the title shown has at most 60
    characters: a title of up to 60 characters is shown whole, a longer
    one is cut to its first 57 characters and three dots. *)
Theorem format_example_title (paper : Paper) :
  exists shown rest,
    FeedbackPrompt._format_example fmt2 paper
    = Text.lit "- " ++ [BioRxiv.quote] ++ shown ++ [BioRxiv.quote] ++ rest /\
    (List.length shown <= 60)%nat /\
    ((List.length (Pubmed.title paper) <= 60)%nat -> shown = Pubmed.title paper) /\
    ((60 < List.length (Pubmed.title paper))%nat ->
     shown = firstn 57 (Pubmed.title paper) ++ Text.lit "..."
     /\ List.length shown = 60%nat).
Proof.
  exists (FeedbackPrompt.shown_title (Pubmed.title paper)). eexists.
  split; [reflexivity|]. unfold FeedbackPrompt.shown_title.
  destruct (60 <? Z.of_nat (List.length (Pubmed.title paper)))%Z eqn:L.
  - apply Z.ltb_lt in L.
    assert (H57 : List.length (firstn 57 (Pubmed.title paper)) = 57%nat)
      by (rewrite length_firstn; lia).
    rewrite length_app, H57. simpl. repeat split; try lia.
  - apply Z.ltb_ge in L. repeat split; try lia.
Qed.

End FeedbackPromptFacts.


(* ================================================================= *)
(** ** Fetching and searching preprints *)

Section PreprintFetch.

Import BioRxivClient.

(** The cursors of the first [k] requests, from [cursor] on. *)
Local Notation cursors cursor k :=
  (map (fun i => (cursor + page_size * Z.of_nat i)%Z) (seq 0 k)).

Lemma fetch_loop_requests (server : Z -> reply) (max_results : Z) :
  forall fuel all_papers cursor requests,
    (Z.to_nat (max_results - Z.of_nat (List.length all_papers)) <= fuel)%nat ->
    exists k out,
      fetch_loop fuel server max_results all_papers cursor requests
        = Some (requests ++ cursors cursor k, out)
      /\ (k <= Z.to_nat (max_results - Z.of_nat (List.length all_papers)))%nat
      /\ (forall l, out = Ok l ->
            l = all_papers
                ++ flat_map (fun c => collection_of (server c)) (cursors cursor k)).
Proof.
  assert (One : forall all_papers cursor requests out,
    (Z.of_nat (List.length all_papers) < max_results)%Z ->
    (forall l, out = Ok l -> l = all_papers ++ collection_of (server cursor)) ->
    exists k out',
      Some (requests ++ [cursor], out) = Some (requests ++ cursors cursor k, out')
      /\ (k <= Z.to_nat (max_results - Z.of_nat (List.length all_papers)))%nat
      /\ (forall l, out' = Ok l ->
            l = all_papers
                ++ flat_map (fun c => collection_of (server c)) (cursors cursor k))).
  { intros all_papers cursor requests out Hlt Hout.
    exists 1%nat, out. cbn [seq map flat_map].
    rewrite Z.mul_0_r, Z.add_0_r, app_nil_r.
    split; [reflexivity|]. split; [lia|exact Hout]. }
  induction fuel as [|fuel IH]; intros all_papers cursor requests Hf.
  - cbn [fetch_loop].
    destruct (Z.ltb_spec (Z.of_nat (List.length all_papers)) max_results) as [Hlt|Hge].
    + lia.
    + exists 0%nat, (Ok all_papers). cbn [seq map flat_map].
      rewrite !app_nil_r. split; [reflexivity|].
      split; [lia|]. intros l [= <-]. reflexivity.
  - cbn [fetch_loop].
    destruct (Z.ltb_spec (Z.of_nat (List.length all_papers)) max_results) as [Hlt|Hge].
    + destruct (server cursor) as [|papers messages] eqn:Hs.
      * apply One; [exact Hlt|]. intros l [= <-]. rewrite Hs. cbn. now rewrite app_nil_r.
      * destruct papers as [|d papers].
        -- apply One; [exact Hlt|]. intros l [= <-]. rewrite Hs. cbn. now rewrite app_nil_r.
        -- destruct (reported_total messages) as [total|e].
           ++ destruct (cursor + page_size >=? total)%Z.
              ** apply One; [exact Hlt|]. intros l [= <-]. rewrite Hs. reflexivity.
              ** destruct (IH (all_papers ++ d :: papers) (cursor + page_size)%Z
                             (requests ++ [cursor])) as (k & out & E & Hk & Hout).
                 { rewrite length_app. cbn [List.length]. lia. }
                 rewrite length_app in Hk. cbn [List.length] in Hk.
                 exists (S k), out. split; [|split].
                 --- rewrite E, <- app_assoc. cbn [seq map app].
                     rewrite Z.mul_0_r, Z.add_0_r. do 4 f_equal.
                     rewrite <- seq_shift, map_map. apply map_ext. intros i. lia.
                 --- lia.
                 --- intros l Hl. rewrite (Hout l Hl), <- app_assoc.
                     cbn [seq map flat_map].
                     rewrite Z.mul_0_r, Z.add_0_r, Hs. cbn [collection_of].
                     do 3 f_equal.
                     rewrite <- seq_shift, map_map. apply map_ext. intros i. lia.
           ++ apply One; [exact Hlt|]. intros l [= ].
    + exists 0%nat, (Ok all_papers). cbn [seq map flat_map].
      rewrite !app_nil_r. split; [reflexivity|].
      split; [lia|]. intros l [= <-]. reflexivity.
Qed.

(** X16.  [_fetch_papers_from_server] ends: with at least [max_results]
    units of fuel the loop returns, after at most [max_results] requests,
    at the cursors 0, 100, 200, ... in this order; a result it returns is
    made of the first [max_results] items of the pages it requested, in
    the order of the pages, and so has at most [max_results] items.  No
    request is made when [max_results] is not positive. *)
Theorem fetch_papers_from_server_bounded (server : Z -> reply)
  (max_results : Z) (fuel : nat) :
  (Z.to_nat max_results <= fuel)%nat ->
  exists k out,
    _fetch_papers_from_server fuel server max_results
      = Some (map (fun i => (page_size * Z.of_nat i)%Z) (seq 0 k), out)
    /\ (k <= Z.to_nat max_results)%nat
    /\ (forall l, out = Ok l ->
          l = firstn (Z.to_nat max_results)
                (flat_map (fun i => collection_of (server (page_size * Z.of_nat i)%Z))
                   (seq 0 k))
          /\ (List.length l <= Z.to_nat max_results)%nat).
Proof.
  intros Hf.
  destruct (fetch_loop_requests server max_results fuel [] 0%Z [])
    as (k & out & E & Hk & Hout).
  { cbn [List.length]. lia. }
  cbn [List.length] in Hk. rewrite Z.sub_0_r in Hk.
  unfold _fetch_papers_from_server. rewrite E. cbn [app].
  assert (C : cursors 0 k = map (fun i => (page_size * Z.of_nat i)%Z) (seq 0 k)).
  { apply map_ext. intros i. lia. }
  rewrite C in *.
  destruct out as [all_papers|e].
  - exists k, (Ok (slice_to max_results all_papers)).
    split; [reflexivity|]. split; [exact Hk|].
    intros l [= <-].
    rewrite (Hout all_papers eq_refl). cbn [app].
    rewrite flat_map_concat_map, map_map, <- flat_map_concat_map.
    unfold slice_to. destruct (Z.ltb_spec max_results 0) as [Hneg|Hpos].
    + assert (k = 0%nat) as -> by lia. cbn. split; [now destruct (Z.to_nat max_results)|lia].
    + split; [reflexivity|apply firstn_le_length].
  - exists k, (Raised e). split; [reflexivity|]. split; [exact Hk|].
    intros l [= ].
Qed.

(** X17.  A page whose messages report no total, or a total that is not
    beyond the next cursor, is the last one: for a positive [max_results]
    the fetch makes the one request at cursor 0 and returns the first
    [max_results] items of that page, whatever else the server holds. *)
Theorem fetch_papers_single_page (server : Z -> reply) (max_results : Z)
  (fuel : nat) (collection : list item) (messages : list message) (total : Z) :
  (0 < max_results)%Z ->
  server 0%Z = Page collection messages ->
  reported_total messages = Ok total ->
  (total <= page_size)%Z ->
  _fetch_papers_from_server (S fuel) server max_results
    = Some ([0%Z], Ok (firstn (Z.to_nat max_results) collection)).
Proof.
  intros Hpos Hs T Hle.
  unfold _fetch_papers_from_server. cbn [fetch_loop List.length].
  destruct (Z.ltb_spec (Z.of_nat 0) max_results) as [_|Hge]; [|cbn in Hge; lia].
  rewrite Hs. unfold slice_to.
  destruct (Z.ltb_spec max_results 0) as [Hneg|_]; [lia|].
  destruct collection as [|d papers]; [now destruct (Z.to_nat max_results)|].
  rewrite T. cbn [app].
  destruct (Z.geb_spec (0 + page_size) total) as [_|Hlt]; [reflexivity|].
  cbn in Hlt. lia.
Qed.

Lemma collect_firstn (server query : str) (max_results : Z) :
  forall data matching,
    (Z.of_nat (List.length matching) < max_results)%Z ->
    collect server data query max_results matching
      = firstn (Z.to_nat max_results) (matching ++ matches server data query).
Proof.
  induction data as [|d data IH]; intros matching Hlt.
  - unfold matches. cbn. rewrite app_nil_r. symmetry. apply firstn_all2. lia.
  - unfold matches. cbn [collect filter].
    destruct (BioRxiv._matches_query (as_record d) query).
    + cbn [map].
      destruct (Z.geb_spec (Z.of_nat (List.length (matching ++ [_convert_to_paper d server])))
                  max_results) as [Hge|Hlt'].
      * rewrite length_app in Hge. cbn [List.length] in Hge.
        set (c := _convert_to_paper d server).
        set (r := map _ _).
        replace (matching ++ c :: r) with ((matching ++ [c]) ++ r)
          by (rewrite <- app_assoc; reflexivity).
        assert (L : List.length (matching ++ [c]) = Z.to_nat max_results).
        { rewrite length_app. cbn [List.length]. lia. }
        rewrite firstn_app, L, Nat.sub_diag. cbn [firstn]. rewrite app_nil_r.
        symmetry. apply firstn_all2. lia.
      * rewrite IH by lia. rewrite <- app_assoc. reflexivity.
    + apply IH, Hlt.
Qed.

Lemma collect_at_most_one (server query : str) (max_results : Z) :
  (max_results <= 0)%Z ->
  forall data, (List.length (collect server data query max_results []) <= 1)%nat.
Proof.
  intros Hle. induction data as [|d data IH]; cbn [collect]; [cbn; lia|].
  destruct (BioRxiv._matches_query (as_record d) query); [|exact IH].
  cbn [app List.length].
  destruct (Z.geb_spec (Z.of_nat 1) max_results) as [_|Hlt]; [cbn; lia|].
  cbn in Hlt. lia.
Qed.

(** X18.  [search_and_fetch] returns the first [max_results] matching
    preprints, those of bioRxiv before those of medRxiv, each server's in
    the order it sent them.  medRxiv is only asked when it is included and
    bioRxiv gave fewer than [max_results] matches: otherwise its answer,
    or its failure, does not matter. *)
Theorem search_and_fetch_first_matches (fetch : str -> result (list item))
  (include_medrxiv : bool) (query : str) (max_results : Z)
  (biorxiv_data medrxiv_data : list item) :
  fetch (Text.lit "biorxiv") = Ok biorxiv_data ->
  (include_medrxiv = true ->
   (Z.of_nat (List.length (matches (Text.lit "biorxiv") biorxiv_data query))
      < max_results)%Z ->
   fetch (Text.lit "medrxiv") = Ok medrxiv_data) ->
  search_and_fetch fetch include_medrxiv query max_results
    = Ok (firstn (Z.to_nat max_results)
            (matches (Text.lit "biorxiv") biorxiv_data query
             ++ (if include_medrxiv
                 then matches (Text.lit "medrxiv") medrxiv_data query
                 else []))).
Proof.
  intros HB HM. unfold search_and_fetch. rewrite HB. cbn [Ranker.bind].
  set (B := matches (Text.lit "biorxiv") biorxiv_data query) in *.
  set (M := matches (Text.lit "medrxiv") medrxiv_data query).
  destruct (Z.leb_spec max_results 0) as [Hle|Hpos].
  - pose proof (collect_at_most_one (Text.lit "biorxiv") query max_results Hle
                  biorxiv_data) as L.
    destruct (Z.ltb_spec
                (Z.of_nat (List.length
                   (collect (Text.lit "biorxiv") biorxiv_data query max_results [])))
                max_results) as [Hlt|_]; [lia|].
    rewrite andb_false_r.
    replace (Z.to_nat max_results) with 0%nat by lia. cbn [firstn].
    f_equal. unfold slice_to.
    destruct (Z.ltb_spec max_results 0) as [Hneg|Hz].
    + replace (_ - _)%nat with 0%nat by lia. reflexivity.
    + replace (Z.to_nat max_results) with 0%nat by lia. reflexivity.
  - rewrite (collect_firstn (Text.lit "biorxiv") query max_results biorxiv_data [])
      by (cbn; lia).
    cbn [app]. fold B.
    assert (Sl : forall l : list Paper,
              slice_to max_results l = firstn (Z.to_nat max_results) l).
    { intros l. unfold slice_to.
      destruct (Z.ltb_spec max_results 0); [lia|reflexivity]. }
    destruct (Z.ltb_spec
                (Z.of_nat (List.length (firstn (Z.to_nat max_results) B)))
                max_results) as [Hlt|Hge].
    + assert (HB' : (List.length B < Z.to_nat max_results)%nat).
      { rewrite length_firstn in Hlt. lia. }
      rewrite (firstn_all2 (n := Z.to_nat max_results) B) by lia.
      destruct include_medrxiv; cbn [andb].
      * rewrite (HM eq_refl) by lia. cbn [Ranker.bind].
        rewrite collect_firstn by lia. fold M.
        rewrite Sl, firstn_firstn, Nat.min_id. reflexivity.
      * rewrite app_nil_r, Sl. reflexivity.
    + rewrite andb_false_r, Sl, firstn_firstn, Nat.min_id.
      rewrite length_firstn in Hge.
      rewrite firstn_app.
      replace (Z.to_nat max_results - List.length B)%nat with 0%nat by lia.
      cbn [firstn]. now rewrite app_nil_r.
Qed.

End PreprintFetch.


(* ================================================================= *)
(** ** Preprints in the store *)

Section PreprintStore.

Import Database BioRxivClient.

Lemma is_duplicate_same_keys (p q : Paper) (t : table) :
  Pubmed.id p = Pubmed.id q -> Pubmed.doi p = Pubmed.doi q ->
  is_duplicate p t = is_duplicate q t.
Proof. intros Hi Hd. unfold is_duplicate. now rewrite Hi, Hd. Qed.

(** X19.  A preprint takes its DOI as its id, so of two items with the
    same DOI (or both without one: their id is the empty string), from
    either server, the store takes at most one: whatever the first insert
    did, the insert of the second returns False and changes nothing. *)
Theorem preprint_same_doi_once (d1 d2 : item) (server1 server2 : str)
  (now1 ts1 now2 ts2 : str) (t : table) :
  d1.(doi) = d2.(doi) ->
  let t1 := snd (insert_paper (_convert_to_paper d1 server1) now1 ts1 t) in
  Pubmed.id (_convert_to_paper d2 server2) = get d2.(doi) [] /\
  insert_paper (_convert_to_paper d2 server2) now2 ts2 t1 = (Ok false, t1).
Proof.
  intros Hd. cbn zeta. split; [reflexivity|].
  set (p1 := _convert_to_paper d1 server1).
  set (p2 := _convert_to_paper d2 server2).
  assert (Hk : forall t', is_duplicate p2 t' = is_duplicate p1 t').
  { intros t'. apply is_duplicate_same_keys; unfold p1, p2; cbn; now rewrite Hd. }
  rewrite (insert_paper_run p1 now1 ts1 t).
  destruct (is_duplicate p1 t) eqn:D; cbn [snd]; rewrite insert_paper_run, Hk.
  - now rewrite D.
  - now rewrite is_duplicate_after_insert.
Qed.

End PreprintStore.

(* ================================================================= *)
(** ** Requests to PubMed *)

Section PubMedRequests.

Import PubMedClient.

Lemma retry_loop_spec (server : nat -> got) :
  forall remaining attempt slept,
    (forall i, (i < attempt)%nat -> server i = Status 429) ->
    exists k,
      (k <= remaining)%nat /\
      retry_loop server remaining attempt slept
        = {| requests := S (attempt + k);
             waits := slept ++ map wait_time (seq attempt k);
             ended := outcome_of (server (attempt + k)%nat) |} /\
      (forall i, (i < attempt + k)%nat -> server i = Status 429) /\
      ((k < remaining)%nat -> server (attempt + k)%nat <> Status 429).
Proof.
  induction remaining as [|remaining IH]; intros attempt slept Hbefore.
  - exists 0%nat. rewrite Nat.add_0_r. cbn [retry_loop seq map].
    rewrite app_nil_r. repeat split; [lia|exact Hbefore|lia].
  - cbn [retry_loop]. destruct (server attempt) as [|status_code] eqn:Hs.
    + exists 0%nat. rewrite Nat.add_0_r, Hs. cbn [seq map outcome_of].
      rewrite app_nil_r. repeat split; [lia|exact Hbefore|]. intros _; discriminate.
    + destruct (Z.eqb_spec status_code 429) as [->|Hne].
      * destruct (IH (S attempt) (slept ++ [wait_time attempt])) as (k & Hk & E & Hall & Hlast).
        { intros i Hi. destruct (Nat.eq_dec i attempt) as [->|Hn]; [exact Hs|].
          apply Hbefore. lia. }
        exists (S k). rewrite E, <- app_assoc.
        replace (attempt + S k)%nat with (S attempt + k)%nat by lia.
        repeat split; [lia|exact Hall|]. intros Hlt. apply Hlast. lia.
      * exists 0%nat. rewrite Nat.add_0_r, Hs. cbn [seq map outcome_of].
        rewrite app_nil_r. repeat split; [lia|exact Hbefore|].
        intros _ [= E]. contradiction.
Qed.

Lemma sum_waits (k : nat) :
  forall a,
    fold_right Z.add 0%Z (map wait_time (seq a k))
    = (2 ^ Z.of_nat (a + k) - 2 ^ Z.of_nat a + Z.of_nat k)%Z.
Proof.
  induction k as [|k IH]; intros a.
  - rewrite Nat.add_0_r. cbn. lia.
  - cbn [seq map fold_right]. rewrite IH. unfold wait_time.
    replace (Z.of_nat (S a + k)) with (Z.of_nat (a + S k)) by lia.
    replace (Z.of_nat (S a)) with (Z.succ (Z.of_nat a)) by lia.
    rewrite Z.pow_succ_r by lia. lia.
Qed.

(** X20.  [_request_with_retry] makes at most [max_retries] + 1 requests:
    [k] requests answered 429, each followed by a wait of 2^i + 1 seconds
    (2, 3, 5, ...), and one more, whose answer decides the outcome; that
    answer is 429 only when the retries are used up.  The waits add up to
    2^k - 1 + k seconds. *)
Theorem request_with_retry_bounded (server : nat -> got) (max_retries : Z) :
  exists k,
    (k <= Z.to_nat max_retries)%nat /\
    requests (_request_with_retry server max_retries) = S k /\
    waits (_request_with_retry server max_retries) = map wait_time (seq 0 k) /\
    ended (_request_with_retry server max_retries) = outcome_of (server k) /\
    (forall i, (i < k)%nat -> server i = Status 429) /\
    ((k < Z.to_nat max_retries)%nat -> server k <> Status 429) /\
    fold_right Z.add 0%Z (waits (_request_with_retry server max_retries))
    = (2 ^ Z.of_nat k - 1 + Z.of_nat k)%Z.
Proof.
  destruct (retry_loop_spec server (Z.to_nat max_retries) 0 [])
    as (k & Hk & E & Hall & Hlast); [intros i Hi; lia|].
  exists k. unfold _request_with_retry. rewrite E. cbn [requests waits ended app].
  cbn [Nat.add] in *. repeat split; try assumption.
  rewrite sum_waits. cbn [Nat.add]. change (2 ^ Z.of_nat 0)%Z with 1%Z. lia.
Qed.

Lemma chunks_concat (c : nat) :
  forall l : list str,
    (List.length l <= c * batch_size)%nat ->
    List.concat (map (fun k => firstn batch_size (skipn (k * batch_size) l)) (seq 0 c)) = l.
Proof.
  induction c as [|c IH]; intros l Hl.
  - destruct l; [reflexivity|cbn in Hl; lia].
  - cbn [seq map List.concat]. rewrite <- seq_shift, map_map.
    rewrite (map_ext _ (fun k => firstn batch_size
                                   (skipn (k * batch_size) (skipn batch_size l)))).
    + rewrite IH.
      * rewrite Nat.mul_0_l. cbn [skipn]. apply firstn_skipn.
      * rewrite length_skipn. lia.
    + intros k. rewrite skipn_skipn. do 2 f_equal. lia.
Qed.

Lemma fetch_each_all (_fetch_batch : list str -> result (list Paper))
  (f : list str -> list Paper) :
  forall todo all_papers,
    (forall b, In b todo -> _fetch_batch b = Ok (f b)) ->
    fetch_each _fetch_batch todo all_papers = Ok (all_papers ++ flat_map f todo).
Proof.
  induction todo as [|b todo IH]; intros all_papers H.
  - cbn. now rewrite app_nil_r.
  - cbn [fetch_each flat_map]. rewrite (H b) by now left.
    cbn [Ranker.bind]. rewrite IH by (intros b' Hb'; apply H; now right).
    now rewrite app_assoc.
Qed.

(** X21.  [fetch_papers] cuts the PMIDs into consecutive batches: put
    together the batches are the list it was given, every batch has
    between 1 and 200 PMIDs, and when every batch is fetched the result
    is the papers of the batches in this order. *)
Theorem fetch_papers_batches (pmids : list str) :
  List.concat (batches pmids) = pmids /\
  Forall (fun b => (1 <= List.length b <= batch_size)%nat) (batches pmids) /\
  forall (_fetch_batch : list str -> result (list Paper))
         (f : list str -> list Paper),
    (forall b, In b (batches pmids) -> _fetch_batch b = Ok (f b)) ->
    fetch_papers _fetch_batch pmids = Ok (flat_map f (batches pmids)).
Proof.
  assert (B : batches pmids
              = map (fun k => firstn batch_size (skipn (k * batch_size) pmids))
                  (seq 0 ((List.length pmids + batch_size - 1) / batch_size))).
  { unfold batches, batch_starts. now rewrite map_map. }
  split; [|split].
  - rewrite B. apply chunks_concat. unfold batch_size.
    pose proof (Nat.div_mod_eq (List.length pmids + 200 - 1) 200) as D.
    pose proof (Nat.mod_upper_bound (List.length pmids + 200 - 1) 200) as M.
    lia.
  - rewrite B. apply Forall_forall. intros b Hb.
    apply in_map_iff in Hb. destruct Hb as (k & <- & Hk).
    apply in_seq in Hk. rewrite length_firstn, length_skipn.
    unfold batch_size in *.
    pose proof (Nat.div_mod_eq (List.length pmids + 200 - 1) 200) as D.
    pose proof (Nat.mod_upper_bound (List.length pmids + 200 - 1) 200) as M.
    lia.
  - intros _fetch_batch f H. unfold fetch_papers.
    destruct pmids as [|x pmids]; [reflexivity|].
    now rewrite (fetch_each_all _fetch_batch f) by exact H.
Qed.

End PubMedRequests.


(* ================================================================= *)
(** ** DOI or PMID *)

Section LookupFacts.

Import PaperLookup.

Lemma span_spec (f : ascii -> bool) (s : str) :
  fst (span f s) ++ snd (span f s) = s /\
  Forall (fun c => f c = true) (fst (span f s)).
Proof.
  induction s as [|c s [IH1 IH2]]; cbn [span]; [now split|].
  destruct (f c) eqn:F; [|now split].
  destruct (span f s) as [run rest]. cbn [fst snd] in *. split.
  - cbn [app]. now rewrite IH1.
  - now constructor.
Qed.

Lemma digit_lower (c : ascii) :
  is_digit c = true -> Text.lower_char c = c.
Proof. destruct c as [[] [] [] [] [] [] [] []]; cbv; congruence. Qed.

Lemma digit_not_space (c : ascii) :
  is_digit c = true -> Text.isspace c = false.
Proof. destruct c as [[] [] [] [] [] [] [] []]; cbv; congruence. Qed.

Lemma digit_no_prefix (c : ascii) (s : str) :
  is_digit c = true ->
  fold_left strip_prefix prefixes (c :: s) = c :: s.
Proof.
  intros D.
  assert (H : forall p, In p prefixes -> strip_prefix (c :: s) p = c :: s).
  { intros p Hp. unfold strip_prefix. cbn [Text.lower map].
    rewrite (digit_lower c D).
    replace (Text.startswith p (c :: map Text.lower_char s)) with false;
      [reflexivity|].
    destruct c as [[] [] [] [] [] [] [] []]; try discriminate D;
      cbn in Hp; destruct Hp as [<-|[<-|[<-|[]]]]; reflexivity. }
  cbn [fold_left prefixes].
  rewrite !H; cbn; auto.
Qed.

(** X22.  An identifier is never both: what [is_pmid] accepts, [is_doi]
    rejects, so the order of the two tests in [lookup_paper] decides
    nothing. *)
Theorem pmid_is_not_doi (identifier : str) :
  is_pmid identifier = true -> is_doi identifier = false.
Proof.
  unfold is_pmid, is_doi, PMID_PATTERN.
  set (s := Text.strip identifier).
  destruct (span is_digit s) as [digits rest] eqn:E.
  intros H. apply andb_true_iff in H. destruct H as [Hd Hend].
  destruct (span_spec is_digit s) as [Happ Hall]. rewrite E in Happ, Hall.
  cbn [fst snd] in Happ, Hall.
  destruct digits as [|d digits]; [discriminate Hd|].
  inversion Hall as [|? ? Dd _]; subst.
  rewrite <- Happ in *. cbn [app]. rewrite digit_no_prefix by exact Dd.
  unfold DOI_PATTERN.
  destruct (Text.startswith (Text.lit "10.") (d :: digits ++ rest)) eqn:St;
    [|reflexivity].
  exfalso. apply startswith_iff in St. destruct St as [r Hr].
  cbn [app] in E. rewrite Hr in E. cbn in E.
  destruct (span is_digit r) as [a b].
  injection E as _ _ Hrest. subst rest. cbn in Hend.
  destruct r; [|destruct b]; try discriminate Hend.
Qed.

Lemma lstrip_head (s : str) (c : ascii) (w : str) :
  Text.lstrip s = c :: w -> Text.isspace c = false.
Proof.
  induction s as [|x s IH]; cbn [Text.lstrip]; [discriminate|].
  destruct (Text.isspace x) eqn:X; [exact IH|].
  intros [= <- _]. exact X.
Qed.

Lemma strip_last (s w : str) (c : ascii) :
  Text.strip s = w ++ [c] -> Text.isspace c = false.
Proof.
  unfold Text.strip, Text.rstrip. intros H.
  apply (f_equal (@rev ascii)) in H. rewrite rev_involutive, rev_app_distr in H.
  cbn in H. now apply lstrip_head in H.
Qed.

Lemma strip_prefix_suffix (s p : str) :
  exists m, strip_prefix s p = skipn m s.
Proof.
  unfold strip_prefix. destruct (Text.startswith p (Text.lower s)).
  - now exists (List.length p).
  - now exists 0%nat.
Qed.

Lemma clean_doi_suffix (s : str) :
  exists m, fold_left strip_prefix prefixes s = skipn m s.
Proof.
  cbn [fold_left prefixes].
  destruct (strip_prefix_suffix s (Text.lit "https://doi.org/")) as [m1 ->].
  destruct (strip_prefix_suffix (skipn m1 s) (Text.lit "http://doi.org/")) as [m2 ->].
  destruct (strip_prefix_suffix (skipn m2 (skipn m1 s)) (Text.lit "doi:")) as [m3 ->].
  rewrite !skipn_skipn. now eexists.
Qed.

Lemma newline_space (c : ascii) :
  (Text.code c =? 10)%N = true -> Text.isspace c = true.
Proof. destruct c as [[] [] [] [] [] [] [] []]; cbv; congruence. Qed.

(** X23.  Of an identifier that [is_doi] accepts, [clean_doi] returns a
    bare DOI: it starts with 10., has no white space (so none reaches the
    URL and the id that are built from it), and cleaning it again or
    testing it again changes nothing. *)
Theorem clean_doi_accepted (identifier : str) :
  is_doi identifier = true ->
  Text.startswith (Text.lit "10.") (clean_doi identifier) = true /\
  Forall (fun c => Text.isspace c = false) (clean_doi identifier) /\
  clean_doi (clean_doi identifier) = clean_doi identifier /\
  is_doi (clean_doi identifier) = true.
Proof.
  unfold is_doi. fold (clean_doi identifier). intros H.
  assert (Hsuf : exists m, clean_doi identifier = skipn m (Text.strip identifier))
    by apply clean_doi_suffix.
  destruct Hsuf as [m Hsuf].
  set (c := clean_doi identifier) in *.
  pose proof H as Hdoi.
  unfold DOI_PATTERN in H. apply andb_true_iff in H. destruct H as [St H].
  pose proof St as St'.
  apply startswith_iff in St'. destruct St' as [r0 Hc].
  assert (Hsk : skipn 3 c = r0) by (rewrite Hc; reflexivity).
  rewrite Hsk in H.
  destruct (span_spec is_digit r0) as [Happ Hall].
  destruct (span is_digit r0) as [digits rest]. cbn [fst snd] in Happ, Hall.
  apply andb_true_iff in H. destruct H as [_ H].
  destruct rest as [|sl rest']; [discriminate H|].
  apply andb_true_iff in H. destruct H as [Hsl H].
  apply Ascii.eqb_eq in Hsl. subst sl.
  destruct (span_spec (fun c => negb (Text.isspace c)) rest') as [Happ' Hall'].
  destruct (span (fun c => negb (Text.isspace c)) rest') as [suffix tail].
  cbn [fst snd] in Happ', Hall'.
  apply andb_true_iff in H. destruct H as [Hsuffix Hend].
  assert (Htail : tail = []).
  { destruct tail as [|nl [|? ?]]; [reflexivity| |discriminate Hend].
    cbn in Hend. apply newline_space in Hend.
    pose proof (firstn_skipn m (Text.strip identifier)) as Hs.
    rewrite <- Hsuf, Hc, <- Happ, <- Happ' in Hs.
    rewrite !app_comm_cons, !app_assoc in Hs.
    symmetry in Hs. apply strip_last in Hs. congruence. }
  subst tail. rewrite app_nil_r in Happ'. subst rest'.
  assert (Hns : Forall (fun ch => Text.isspace ch = false) c).
  { rewrite Hc, <- Happ. apply Forall_app. split.
    - do 3 (constructor; [reflexivity|]). constructor.
    - apply Forall_app. split.
      + eapply Forall_impl; [|exact Hall]. apply digit_not_space.
      + constructor; [reflexivity|].
        eapply Forall_impl; [|exact Hall']. intros a Ha.
        now apply negb_true_iff in Ha. }
  assert (Hclean : clean_doi c = c).
  { unfold clean_doi. rewrite (strip_word c Hns), Hc.
    change (Text.lit "10." ++ r0) with ("1"%char :: "0"%char :: "."%char :: r0).
    now rewrite digit_no_prefix. }
  repeat split; try assumption.
  unfold is_doi. fold (clean_doi c). now rewrite Hclean.
Qed.

End LookupFacts.


(* ================================================================= *)
(** ** The search phase *)

Section SearchPhase.

Import Database Main.


Lemma tracks_nil : tracks [] [] [].
Proof.
  repeat split; try (intros H; try discriminate H; now destruct H).
  constructor.
Qed.

Lemma add_unseen_tracks :
  forall papers all_papers seen_ids fnd,
    tracks all_papers seen_ids fnd ->
    tracks (fst (add_unseen papers all_papers seen_ids))
           (snd (add_unseen papers all_papers seen_ids))
           (fnd ++ papers).
Proof.
  induction papers as [|p papers IH]; intros all_papers seen_ids fnd T.
  - cbn. now rewrite app_nil_r.
  - cbn [add_unseen].
    replace (fnd ++ p :: papers) with ((fnd ++ [p]) ++ papers)
      by (rewrite <- app_assoc; reflexivity).
    destruct T as (Hs & Hn & Hi & Hf).
    destruct (ConfigLoader.mem (Pubmed.id p) seen_ids) eqn:M; apply IH.
    + split; [exact Hs|]. split; [exact Hn|]. split.
      * intros x. rewrite map_app, in_app_iff. cbn [map In]. split.
        -- intros H. left. now apply Hi.
        -- intros [H|[<-|[]]]; [now apply Hi|]. now apply Hs.
      * intros q Hq. destruct (Hf q Hq) as (b & a & E & N).
        exists b, (a ++ [p]). split; [|exact N].
        rewrite E, <- app_assoc. reflexivity.
    + assert (Hnew : ~ In (Pubmed.id p) (map Pubmed.id all_papers)).
      { intros H. apply Hs in H. congruence. }
      split; [|split; [|split]].
      * intros x. unfold ConfigLoader.mem. cbn [existsb].
        rewrite orb_true_iff, text_eqb_eq, map_app, in_app_iff. cbn [map In].
        fold (ConfigLoader.mem x seen_ids). rewrite Hs. split.
        -- intros [->|H]; [right; now left|now left].
        -- intros [H|[<-|[]]]; [now right|now left].
      * rewrite map_app. cbn [map].
        apply (Permutation_NoDup (Permutation_cons_append _ _)).
        now constructor.
      * intros x. rewrite !map_app, !in_app_iff. cbn [map In].
        split; (intros [H|H]; [left; now apply Hi|now right]).
      * intros q Hq. apply in_app_iff in Hq. destruct Hq as [Hq|[<-|[]]].
        -- destruct (Hf q Hq) as (b & a & E & N).
           exists b, (a ++ [p]). split; [|exact N].
           rewrite E, <- app_assoc. reflexivity.
        -- exists fnd, []. split; [reflexivity|].
           intros H. apply Hnew. now apply Hi.
Qed.

Lemma attempt_tracks (r : result (list Paper)) (all_papers : list Paper)
  (seen_ids : list str) (fnd : list Paper) :
  tracks all_papers seen_ids fnd ->
  tracks (fst (attempt r all_papers seen_ids))
         (snd (attempt r all_papers seen_ids))
         (fnd ++ papers_of r).
Proof.
  destruct r as [papers|e]; cbn [attempt papers_of fst snd].
  - apply add_unseen_tracks.
  - now rewrite app_nil_r.
Qed.

Lemma search_each_tracks (pubmed biorxiv : str -> result (list Paper))
  (pubmed_only : bool) :
  forall queries all_papers seen_ids fnd,
    tracks all_papers seen_ids fnd ->
    exists seen',
      tracks (search_each pubmed biorxiv pubmed_only queries all_papers seen_ids)
             seen' (fnd ++ found pubmed biorxiv pubmed_only queries).
Proof.
  induction queries as [|q queries IH]; intros all_papers seen_ids fnd T.
  - exists seen_ids. cbn. now rewrite app_nil_r.
  - cbn [search_each found flat_map].
    fold (found pubmed biorxiv pubmed_only queries).
    pose proof (attempt_tracks (pubmed q) _ _ _ T) as T1.
    destruct (attempt (pubmed q) all_papers seen_ids) as [all1 seen1].
    cbn [fst snd] in T1.
    destruct pubmed_only.
    + rewrite app_nil_r, app_assoc. now apply IH.
    + pose proof (attempt_tracks (biorxiv q) _ _ _ T1) as T2.
      destruct (attempt (biorxiv q) all1 seen1) as [all2 seen2].
      cbn [fst snd] in T2. rewrite <- app_assoc in T2.
      rewrite app_assoc. now apply IH.
Qed.

(** X24.  The papers [run_search] collects have distinct ids; their ids
    are the ids of the papers that the searches returned (a search that
    raised counts for nothing and loses no paper of another search); and
    of the papers with one id the first one returned is kept. *)
Theorem run_search_unique (pubmed biorxiv : str -> result (list Paper))
  (pubmed_only : bool) (queries : list str) :
  let all_papers := search_each pubmed biorxiv pubmed_only queries [] [] in
  let results := found pubmed biorxiv pubmed_only queries in
  NoDup (map Pubmed.id all_papers) /\
  (forall x, In x (map Pubmed.id all_papers) <-> In x (map Pubmed.id results)) /\
  (forall p, In p all_papers ->
     exists before after,
       results = before ++ p :: after /\
       ~ In (Pubmed.id p) (map Pubmed.id before)).
Proof.
  cbn zeta.
  destruct (search_each_tracks pubmed biorxiv pubmed_only queries [] [] []
              tracks_nil) as (seen' & _ & Hn & Hi & Hf).
  cbn [app] in *. split; [exact Hn|]. split; [exact Hi|exact Hf].
Qed.




End SearchPhase.

(* ================================================================= *)
(** ** Projects of the configuration *)

Section ProjectFacts.

Import ConfigProjects QuerySpec.

Lemma any_keyword_iff (keywords : list str) (text_lower : str) :
  any_keyword keywords text_lower = true <->
  exists k, In k keywords /\ Text.contains (Text.lower k) text_lower = true.
Proof.
  induction keywords as [|k rest IH]; cbn [any_keyword].
  - split; [discriminate|]. intros [k [[] _]].
  - destruct (Text.contains (Text.lower k) text_lower) eqn:C.
    + split; [|reflexivity]. intros _. exists k. split; [now left|exact C].
    + rewrite IH. split.
      * intros [k' [Hk Hc]]. exists k'. split; [now right|exact Hc].
      * intros [k' [[<-|Hk] Hc]]; [congruence|]. now exists k'.
Qed.

(** X26.  [match_projects] lists the name of a project when one of its
    keywords occurs in the text, letters compared without case, and only
    then; it lists no more names than there are projects; and a project
    with an empty keyword matches every text. *)
Theorem match_projects_keywords (active_projects : list Project) (text : str) :
  (forall n, In n (match_projects active_projects text) <->
     exists p, In p active_projects /\ p.(name) = n /\
       exists k, In k p.(keywords) /\ ci_substring k text) /\
  (List.length (match_projects active_projects text)
   <= List.length active_projects)%nat /\
  (forall p, In p active_projects -> In [] p.(keywords) ->
     In p.(name) (match_projects active_projects text)).
Proof.
  assert (Hiff : forall n, In n (match_projects active_projects text) <->
     exists p, In p active_projects /\ p.(name) = n /\
       exists k, In k p.(keywords) /\ ci_substring k text).
  { intros n. induction active_projects as [|p rest IH]; cbn [match_projects].
    - split; [intros []|]. intros [p [[] _]].
    - destruct (any_keyword (keywords p) (Text.lower text)) eqn:A.
      + cbn [In]. rewrite IH. split.
        * intros [<-|[q [Hq H]]].
          -- exists p. split; [now left|]. split; [reflexivity|].
             apply any_keyword_iff in A. destruct A as [k [Hk C]].
             exists k. split; [exact Hk|]. now apply contains_iff in C.
          -- exists q. split; [now right|exact H].
        * intros [q [[<-|Hq] [Hn H]]]; [now left|].
          right. exists q. now split.
      + rewrite IH. split.
        * intros [q [Hq H]]. exists q. split; [now right|exact H].
        * intros [q [[<-|Hq] [Hn [k [Hk C]]]]]; [|exists q; split; eauto].
          exfalso. apply not_true_iff_false in A. apply A.
          apply any_keyword_iff. exists k. split; [exact Hk|].
          now apply contains_iff. }
  split; [exact Hiff|]. split.
  - clear Hiff. induction active_projects as [|p rest IH]; cbn [match_projects];
      [cbn; lia|].
    destruct (any_keyword (keywords p) (Text.lower text)); cbn [List.length]; lia.
  - intros p Hp Hk. apply Hiff. exists p. split; [exact Hp|]. split; [reflexivity|].
    exists []. split; [exact Hk|]. exists [], (Text.lower text). reflexivity.
Qed.

End ProjectFacts.


(* ================================================================= *)
(** ** Search runs and statistics *)

Section RunFacts.

Import SearchRuns.

Lemma largest_id_bound (l : list SearchRun) (r : SearchRun) :
  In r l -> (r.(id) <= largest_id l)%Z.
Proof.
  induction l as [|x l IH]; cbn [largest_id fold_right In]; [intros []|].
  fold (largest_id l). intros [<-|H]; [lia|]. specialize (IH H). lia.
Qed.

Lemma by_run_date_total (a b : SearchRun) :
  by_run_date a b = true \/ by_run_date b a = true.
Proof. unfold by_run_date. apply text_leb_total. Qed.

Lemma by_run_date_trans (a b c : SearchRun) :
  by_run_date a b = true -> by_run_date b c = true -> by_run_date a c = true.
Proof. unfold by_run_date. intros H1 H2. eapply text_leb_trans; eassumption. Qed.

(** X27.  [record_search_run] raises OverflowError, and writes nothing,
    exactly when one of the counts does not fit in 64 bits.  Otherwise it
    adds one row and returns its id, which is larger than the id of every
    stored run and than every id given before; the runs stored before
    stay as they are; and [get_search_runs] without a limit then returns
    the stored runs with the new one, latest date first. *)
Theorem record_search_run_fresh (now : str)
  (found new high : Z) (t : run_table) :
  match record_search_run now found new high t with
  | (Ok id', t') =>
      int64 found && int64 new && int64 high = true /\
      t'.(rows) = t.(rows) ++ [{| id := id'; run_date := now;
                                  papers_found := found; new_papers := new;
                                  high_priority_count := high |}] /\
      (forall r, In r t.(rows) -> (r.(id) < id')%Z) /\
      (t.(sequence) < id')%Z /\ t'.(sequence) = id' /\
      (forall limit, (limit < 0)%Z ->
         Permutation (get_search_runs limit t') t'.(rows) /\
         StronglySorted (fun a b => by_run_date a b = true)
           (get_search_runs limit t'))
  | (Raised e, t') =>
      e = OverflowError /\ t' = t /\
      int64 found && int64 new && int64 high = false
  end.
Proof.
  unfold record_search_run.
  destruct (int64 found && int64 new && int64 high); [|now repeat split].
  cbn [rows sequence]. split; [reflexivity|]. split; [reflexivity|].
  split; [|split; [lia|split; [reflexivity|]]].
  - intros r Hr. apply largest_id_bound in Hr. lia.
  - intros limit Hl. unfold get_search_runs, Database.sql_limit.
    destruct (Z.ltb_spec limit 0) as [_|Hge]; [|lia]. cbn [rows]. split.
    + symmetry. apply order_by_perm.
    + apply (order_by_sorted by_run_date (fun _ => True)).
      * intros x y _ _. apply by_run_date_total.
      * intros x y z _ _ _. apply by_run_date_trans.
      * apply Forall_forall. auto.
Qed.

End RunFacts.

Section StatisticsFacts.

Import Database Statistics.

Lemma tally_total (s : str) (groups : list (str * Z)) :
  total (tally s groups) = (total groups + 1)%Z.
Proof.
  induction groups as [|[k n] rest IH]; cbn [tally]; [reflexivity|].
  unfold total in *.
  destruct (Text.eqb k s); cbn [fold_right snd] in *; lia.
Qed.

Lemma tally_count (s x : str) (groups : list (str * Z)) :
  count_of x (tally s groups)
  = (count_of x groups + if Text.eqb s x then 1 else 0)%Z.
Proof.
  induction groups as [|[k n] rest IH]; cbn [tally count_of].
  - destruct (Text.eqb s x); lia.
  - destruct (Text.eqb k s) eqn:K; cbn [count_of].
    + apply text_eqb_eq in K. subst k.
      destruct (Text.eqb s x); lia.
    + destruct (Text.eqb k x) eqn:X; [|exact IH].
      apply text_eqb_eq in X. subst k. apply text_eqb_neq in K.
      replace (Text.eqb s x) with false; [lia|].
      symmetry. apply text_eqb_neq. congruence.
Qed.

Lemma tally_keys (s : str) (groups : list (str * Z)) :
  NoDup (map fst groups) -> NoDup (map fst (tally s groups)) /\
  (forall k, In k (map fst (tally s groups)) <-> k = s \/ In k (map fst groups)).
Proof.
  induction groups as [|[k n] rest IH]; cbn [tally map fst]; intros N.
  - split; [repeat constructor; auto|]. intros k. cbn. intuition auto.
  - inversion N as [|? ? Hk N']; subst.
    destruct (Text.eqb k s) eqn:K; cbn [map fst].
    + apply text_eqb_eq in K. subst k. split; [exact N|].
      intros k. cbn [In]. intuition auto.
    + destruct (IH N') as [N2 Hin]. apply text_eqb_neq in K. split.
      * constructor; [|exact N2]. rewrite Hin. intros [E|H]; auto.
      * intros k'. cbn [In]. rewrite Hin. intuition auto.
Qed.

Lemma tally_positive (s : str) (groups : list (str * Z)) :
  Forall (fun g => (1 <= snd g)%Z) groups ->
  Forall (fun g => (1 <= snd g)%Z) (tally s groups).
Proof.
  induction 1 as [|[k n] rest Hn Hrest IH]; cbn [tally];
    [repeat constructor; cbn; lia|].
  destruct (Text.eqb k s); constructor; cbn [snd] in *; auto; lia.
Qed.

Lemma group_fold (t : table) :
  forall groups,
    NoDup (map fst groups) ->
    Forall (fun g => (1 <= snd g)%Z) groups ->
    let groups' := fold_left (fun groups r => tally r.(source) groups) t groups in
    total groups' = (total groups + Z.of_nat (List.length t))%Z /\
    NoDup (map fst groups') /\
    Forall (fun g => (1 <= snd g)%Z) groups' /\
    forall x, count_of x groups'
              = (count_of x groups
                 + count_when (fun r => Text.eqb r.(source) x) t)%Z.
Proof.
  unfold count_when.
  induction t as [|r t IH]; intros groups N P; cbn [fold_left].
  - cbn. repeat split; auto; lia.
  - destruct (tally_keys r.(source) groups N) as [N' _].
    destruct (IH (tally r.(source) groups) N' (tally_positive _ _ P))
      as (T & N2 & P2 & C).
    cbn zeta in *. split; [|split; [exact N2|split; [exact P2|]]].
    + rewrite T, tally_total. cbn [List.length]. lia.
    + intros x. rewrite C, tally_count. cbn [filter].
      destruct (Text.eqb (source r) x); cbn [List.length]; lia.
Qed.

Lemma count_of_in (groups : list (str * Z)) (s : str) (n : Z) :
  NoDup (map fst groups) -> In (s, n) groups -> count_of s groups = n.
Proof.
  induction groups as [|[k m] rest IH]; cbn [map fst count_of In]; [intros _ []|].
  intros N H. inversion N as [|? ? Hk N']; subst.
  destruct H as [[= -> ->]|H].
  - now rewrite text_eqb_refl.
  - destruct (Text.eqb k s) eqn:K; [|now apply IH].
    apply text_eqb_eq in K. subst k. exfalso. apply Hk.
    change s with (fst (s, n)). now apply in_map.
Qed.

Lemma filter_length_mono (f g : row -> bool) (t : table) :
  (forall r, f r = true -> g r = true) ->
  (List.length (filter f t) <= List.length (filter g t))%nat.
Proof.
  intros H. induction t as [|r t IH]; cbn [filter]; [lia|].
  destruct (f r) eqn:F.
  - rewrite (H r F). cbn [List.length]. lia.
  - destruct (g r); cbn [List.length]; lia.
Qed.

Lemma filter_length_split (f : row -> bool) (t : table) :
  (List.length (filter f t) + List.length (filter (fun r => negb (f r)) t)
   = List.length t)%nat.
Proof.
  induction t as [|r t IH]; cbn [filter]; [reflexivity|].
  destruct (f r); cbn [negb List.length]; lia.
Qed.

(** X28.  The numbers of [get_stats] fit together: the counts by source
    add up to the number of papers, every source listed has at least one
    paper and is listed once with the number of its rows, the high
    priority papers are among the ranked ones, and the ranked papers with
    the papers that [get_unranked_papers] returns are all the papers. *)
Theorem get_stats_consistent (t : table) (runs : SearchRuns.run_table) :
  let stats := get_stats t runs in
  total stats.(by_source) = stats.(total_papers) /\
  NoDup (map fst stats.(by_source)) /\
  (forall s n, In (s, n) stats.(by_source) ->
     (1 <= n)%Z /\ n = count_when (fun r => Text.eqb r.(source) s) t) /\
  (0 <= stats.(high_priority) <= stats.(ranked_papers))%Z /\
  (stats.(ranked_papers) <= stats.(total_papers))%Z /\
  (exists unranked,
     get_unranked_papers t = (Ok unranked, t) /\
     (stats.(ranked_papers) + Z.of_nat (List.length unranked)
      = stats.(total_papers))%Z) /\
  (stats.(starred_papers) + stats.(dismissed_papers) <= stats.(total_papers))%Z.
Proof.
  cbn zeta. unfold get_stats.
  cbn [by_source total_papers ranked_papers high_priority starred_papers
       dismissed_papers].
  destruct (group_fold t [] (NoDup_nil _) (Forall_nil _)) as (T & N & P & C).
  cbn zeta in *. fold (group_by_source t) in *.
  pose proof (filter_length_split (fun r => negb (is_null r.(relevance_score))) t)
    as Hsplit.
  cbv beta in Hsplit.
  split; [exact T|]. split; [exact N|]. split; [|split; [|split; [|split]]].
  - intros s n Hin. split.
    + rewrite Forall_forall in P. apply (P (s, n) Hin).
    + rewrite <- (count_of_in _ _ _ N Hin), C. cbn [count_of]. lia.
  - unfold count_when. split; [lia|]. apply inj_le. apply filter_length_mono.
    intros r. unfold sql_real_ge. now destruct r.(relevance_score).
  - unfold count_when. lia.
  - eexists. split; [reflexivity|]. unfold count_when. rewrite length_map.
    replace (filter (fun r => is_null r.(relevance_score)) t)
      with (filter (fun r => negb (negb (is_null r.(relevance_score)))) t)
      by (apply filter_ext; intros r; apply negb_involutive).
    lia.
  - unfold count_when.
    pose proof (filter_length_split (feedback_is (Text.lit "star")) t) as Hs.
    assert (Hd : (List.length (filter (feedback_is (Text.lit "dismiss")) t)
                  <= List.length
                       (filter (fun r => negb (feedback_is (Text.lit "star") r)) t))%nat).
    { apply filter_length_mono. intros r. unfold feedback_is, sql_text_eq.
      destruct r.(user_feedback) as [v|]; [|discriminate].
      intros E. apply text_eqb_eq in E. subst v. reflexivity. }
    lia.
Qed.

End StatisticsFacts.


(* ================================================================= *)
(** * Further examples *)

Section StoreExamples.

Import Database.

(** The preprint and the indexed paper of one DOI come in together: the
    run over the two and the run that repeats it. *)
Lemma insert_papers_rerun_example :
  exists (new_count : Z) (added : table),
    insert_papers MoreSamples.batch []
    = (Ok (Z.of_nat (List.length MoreSamples.batch), new_count), [] ++ added) /\
    new_count = Z.of_nat (List.length added) /\
    (new_count <= Z.of_nat (List.length MoreSamples.batch))%Z /\
    insert_papers MoreSamples.batch_again ([] ++ added)
    = (Ok (Z.of_nat (List.length MoreSamples.batch), 0%Z), [] ++ added).
Proof.
  exact (insert_papers_rerun MoreSamples.batch MoreSamples.batch_again []
           eq_refl).
Defined.

Lemma insert_then_get_paper_example :
  exists p',
    get_paper (Pubmed.id Samples.indexed) [new_row Samples.indexed Samples.day1 Samples.ts1]
    = (Ok (Some p'), [new_row Samples.indexed Samples.day1 Samples.ts1]) /\
    same_paper Samples.indexed p' /\
    Pubmed._user_feedback p' = None /\ Pubmed._feedback_date p' = None /\
    Pubmed._is_seed p' = false /\ Pubmed._seed_source p' = None.
Proof.
  exact (insert_then_get_paper Samples.indexed Samples.day1 Samples.ts1 []
           [new_row Samples.indexed Samples.day1 Samples.ts1] eq_refl).
Defined.

(** The paper 200 of the sample store has no score yet. *)
Lemma update_paper_ranking_ranks_example :
  let t' := snd (update_paper_ranking (Text.lit "200") (Text.lit "a summary")
                   Samples.f0_9 (Text.lit "on topic") [Text.lit "BA"]
                   Samples.ts3 Samples.scored_store) in
  (exists P,
     get_paper (Text.lit "200") t' = (Ok (Some P), t') /\
     Pubmed.summary P = Some (Text.lit "a summary") /\
     Pubmed.relevance_score P = Some Samples.f0_9 /\
     Pubmed.ranking_rationale P = Some (Text.lit "on topic") /\
     Pubmed.matched_projects P = [Text.lit "BA"]) /\
  exists unranked unranked',
    get_unranked_papers Samples.scored_store = (Ok unranked, Samples.scored_store) /\
    get_unranked_papers t' = (Ok unranked', t') /\
    forall P, In P unranked' <-> In P unranked /\ Pubmed.id P <> Text.lit "200".
Proof.
  exact (update_paper_ranking_ranks (Text.lit "200") (Text.lit "a summary")
           Samples.f0_9 (Text.lit "on topic") [Text.lit "BA"] Samples.ts3
           Samples.scored_store eq_refl eq_refl).
Defined.

(** The indexed paper as a seed, in a store that holds its preprint. *)
Lemma seed_insert_skips_doi_test_example :
  insert_paper Samples.indexed Samples.day2 Samples.ts2 Samples.store_with_preprint
  = (Ok false, Samples.store_with_preprint) /\
  insert_seed_paper Samples.indexed (Text.lit "pmid_lookup") Samples.day2
    Samples.day2 Samples.ts2 Samples.store_with_preprint
  = (Ok true,
     Samples.store_with_preprint
     ++ [new_seed_row Samples.indexed (Text.lit "pmid_lookup") Samples.day2
           Samples.day2 Samples.ts2]) /\
  (2 <= List.length
          (filter (carries_doi Samples.doi_x)
             (snd (insert_seed_paper Samples.indexed (Text.lit "pmid_lookup")
                     Samples.day2 Samples.day2 Samples.ts2
                     Samples.store_with_preprint))))%nat.
Proof.
  apply (seed_insert_skips_doi_test Samples.indexed Samples.doi_x
           (Text.lit "pmid_lookup") Samples.day2 Samples.day2 Samples.ts2
           Samples.store_with_preprint);
    [reflexivity|reflexivity|discriminate|reflexivity].
Defined.

(** Two items of one DOI, one from each server. *)
Lemma preprint_same_doi_once_example :
  let t1 := snd (insert_paper
                   (BioRxivClient._convert_to_paper MoreSamples.liver_item
                      (Text.lit "biorxiv"))
                   Samples.day1 Samples.ts1 []) in
  Pubmed.id (BioRxivClient._convert_to_paper MoreSamples.liver_item
               (Text.lit "medrxiv"))
  = BioRxivClient.get (BioRxivClient.doi MoreSamples.liver_item) [] /\
  insert_paper (BioRxivClient._convert_to_paper MoreSamples.liver_item
                  (Text.lit "medrxiv")) Samples.day2 Samples.ts2 t1
  = (Ok false, t1).
Proof.
  exact (preprint_same_doi_once MoreSamples.liver_item MoreSamples.liver_item
           (Text.lit "biorxiv") (Text.lit "medrxiv")
           Samples.day1 Samples.ts1 Samples.day2 Samples.ts2 [] eq_refl).
Defined.

End StoreExamples.

Section RankBatchExamples.

(** A score of 0.9 in a journal of weight 1.2: the result has 1.0. *)
Lemma rank_paper_score_at_most_one_example :
  exists r,
    Ranker.rank_paper Samples.sample_loads Samples.sample_float Samples.config
      Samples.indexed Samples.reply_object = Ok r /\
    Float.leb r.(Ranker.relevance_score) Float.one = true /\
    Float.is_nan r.(Ranker.relevance_score) = false.
Proof.
  destruct (Ranker.rank_paper Samples.sample_loads Samples.sample_float
              Samples.config Samples.indexed Samples.reply_object)
    as [r|e] eqn:E; [|vm_compute in E; discriminate E].
  exists r. split; [reflexivity|].
  exact (rank_paper_score_at_most_one Samples.sample_loads Samples.sample_float
           Samples.config Samples.indexed Samples.reply_object r E).
Defined.

(** Two papers, the oracle fails on the first: both come back. *)
Lemma rank_papers_isolates_failures_example :
  List.length
    (RankPapers.rank_papers Samples.sample_loads Samples.sample_float
       MoreSamples.oracle MoreSamples.describe Samples.config
       [Samples.preprint; Samples.indexed] None) = 2%nat /\
  Permutation [Samples.preprint; Samples.indexed]
    (map fst
       (RankPapers.rank_papers Samples.sample_loads Samples.sample_float
          MoreSamples.oracle MoreSamples.describe Samples.config
          [Samples.preprint; Samples.indexed] None)).
Proof.
  destruct (rank_papers_isolates_failures Samples.sample_loads
              Samples.sample_float MoreSamples.oracle MoreSamples.describe
              Samples.config [Samples.preprint; Samples.indexed] None
              (fun _ _ _ _ => eq_refl)) as (_ & L & P & _).
  split; [exact L|exact P].
Defined.

(** The callback raises on the indexed paper, which the oracle ranked. *)
Lemma rank_papers_callback_failure_example :
  exists r,
    RankPapers.rank_paper Samples.sample_loads Samples.sample_float
      MoreSamples.oracle Samples.config Samples.indexed = RankPapers.Done r /\
    let results :=
      RankPapers.rank_papers Samples.sample_loads Samples.sample_float
        MoreSamples.oracle MoreSamples.describe Samples.config
        ([] ++ Samples.indexed :: [Samples.preprint])
        (Some MoreSamples.failing_callback) in
    In (Samples.indexed, r) results /\
    In (Samples.indexed,
        RankPapers.error_result MoreSamples.describe (RankPapers.Python TypeError))
       results /\
    (List.length ([] ++ Samples.indexed :: [Samples.preprint])
     < List.length results)%nat.
Proof.
  destruct (RankPapers.rank_paper Samples.sample_loads Samples.sample_float
              MoreSamples.oracle Samples.config Samples.indexed)
    as [r|f] eqn:E; [|vm_compute in E; discriminate E].
  exists r. split; [reflexivity|].
  exact (rank_papers_callback_failure Samples.sample_loads Samples.sample_float
           MoreSamples.oracle MoreSamples.describe Samples.config
           [] [Samples.preprint] Samples.indexed
           (Some MoreSamples.failing_callback) r (RankPapers.Python TypeError)
           E eq_refl).
Defined.

End RankBatchExamples.

Section PreprintExamples.

Import BioRxivClient.

(** Three items on two pages, five asked for. *)
Lemma fetch_papers_from_server_bounded_example :
  exists k out,
    _fetch_papers_from_server 5 MoreSamples.two_pages 5
      = Some (map (fun i => (page_size * Z.of_nat i)%Z) (seq 0 k), out)
    /\ (k <= Z.to_nat 5)%nat
    /\ (forall l, out = Ok l ->
          l = firstn (Z.to_nat 5)
                (flat_map
                   (fun i => collection_of
                               (MoreSamples.two_pages (page_size * Z.of_nat i)%Z))
                   (seq 0 k))
          /\ (List.length l <= Z.to_nat 5)%nat).
Proof.
  exact (fetch_papers_from_server_bounded MoreSamples.two_pages 5 5 (le_n 5)).
Defined.

(** A server that reports no total is asked once. *)
Lemma fetch_papers_single_page_example :
  _fetch_papers_from_server 3 MoreSamples.no_total 500
  = Some ([0%Z],
          Ok (firstn (Z.to_nat 500) [MoreSamples.liver_item; MoreSamples.kidney_item])).
Proof.
  apply (fetch_papers_single_page MoreSamples.no_total 500 2
           [MoreSamples.liver_item; MoreSamples.kidney_item]
           [NoTotal] 0);
    [reflexivity|reflexivity|reflexivity|unfold page_size; lia].
Defined.

(** One match is asked for and bioRxiv has it: the failure of medRxiv
    does not show. *)
Lemma search_and_fetch_first_matches_example :
  search_and_fetch MoreSamples.biorxiv_only true (Text.lit "liver") 1
  = Ok (firstn (Z.to_nat 1)
          (matches (Text.lit "biorxiv")
             [MoreSamples.kidney_item; MoreSamples.liver_item] (Text.lit "liver")
           ++ matches (Text.lit "medrxiv") [] (Text.lit "liver"))).
Proof.
  apply (search_and_fetch_first_matches MoreSamples.biorxiv_only true
           (Text.lit "liver") 1
           [MoreSamples.kidney_item; MoreSamples.liver_item] []);
    [reflexivity|].
  intros _ H. vm_compute in H. discriminate H.
Defined.

End PreprintExamples.

Section LookupExamples.

Import PaperLookup.

Lemma pmid_is_not_doi_example :
  is_doi (Text.lit " 39000001 ") = false.
Proof.
  exact (pmid_is_not_doi (Text.lit " 39000001 ") eq_refl).
Defined.

Lemma clean_doi_accepted_example :
  Text.startswith (Text.lit "10.")
    (clean_doi (Text.lit "https://doi.org/10.1101/2025.01.01.000001 ")) = true /\
  Forall (fun c => Text.isspace c = false)
    (clean_doi (Text.lit "https://doi.org/10.1101/2025.01.01.000001 ")) /\
  clean_doi (clean_doi (Text.lit "https://doi.org/10.1101/2025.01.01.000001 "))
  = clean_doi (Text.lit "https://doi.org/10.1101/2025.01.01.000001 ") /\
  is_doi (clean_doi (Text.lit "https://doi.org/10.1101/2025.01.01.000001 ")) = true.
Proof.
  exact (clean_doi_accepted
           (Text.lit "https://doi.org/10.1101/2025.01.01.000001 ") eq_refl).
Defined.

End LookupExamples.
